(** * The agent state provider of [src/use-agent.tsx]

    A shallow embedding of [AgentStateProvider]: the progressive document
    hydration ([fetchData], [fetchRemainingDocuments]), the clean-up of
    object URLs and the projection of the schema into form fields.

    The provider is asynchronous code over React state.  It is embedded as
    state-passing functions over a [World]: the state cells of the
    provider, the continuations that wait on a promise, and the history of
    the calls the provider made to its collaborators (network, durable
    cache, browser).  A rejected promise or a thrown exception is the
    [Rejected] outcome of the small error monad [M].  The sweep of the old
    cache entries on mount (lines 308-312) and the three setters of lines
    403-405 are not part of the development; the compiler of the
    validators, which the sources do not hold, is a parameter of the part
    that uses it. *)

From stdpp Require Import base option list strings gmap fin_maps pretty sorting.

Set Warnings "-clear-no-such-hyp".

(** ** Data model *)

(** Settlement of a promise (or normal / exceptional completion). *)
Inductive Outcome (A : Type) : Type :=
  | Resolved (a : A)
  | Rejected (err : string).
Arguments Resolved {A} a.
Arguments Rejected {A} err.

Definition Json := string.
Definition Blob := string.

(** An entry of [allDocuments]: [{ index, imageUrl, jsonData }]. *)
Record Doc := mkDoc {
  index : nat;
  imageUrl : string;
  jsonData : Json }.

(** [currentDocument: { imageUrl, jsonData }]. *)
Record CurrentDocument := mkCurrent {
  cur_imageUrl : string;
  cur_jsonData : Json }.

(** [zoningdocuments]: the refs sent by the server ([imageurl], [jsonurl];
    an absent array is the empty list, both make [?.[0]] undefined) and the
    fields the provider adds to them.  Absent fields are [None]. *)
Record ZoningDocs := mkZoning {
  imageurl : list string;
  jsonurl : list string;
  currentDocument : option CurrentDocument;
  allDocuments : option (list Doc);
  totalCount : option nat;
  fromCache : option bool }.

(** One entry of [schema[docType].group]. *)
Record Group := mkGroup {
  id : string;
  fields : string }.

(** [schema[docType]]. *)
Record SchemaGroup := mkSchemaGroup {
  groupList : list string;
  group : list Group;
  prompts : string }.

(** The task payload, [mainData.data], which is also the value of the
    [data] state cell.  [header] is [dbdata.header], the list of the
    [shippingcode] fields of its rows; [data_blank] says that the payload
    has a field [data] holding the empty string (the test [data.data !== ""]
    of line 334); [rest] stands for the fields the provider passes through
    untouched. *)
Record TaskData := mkTask {
  taskid : option string;
  zoningdocuments : option ZoningDocs;
  schema : option (gmap string SchemaGroup);
  dbdata : option (option (list (option string)));
  data_blank : bool;
  rest : string }.

(** [mainData.data]: a value loosely equal to the empty string
    ([DataEmpty]), an absent one ([DataAbsent], undefined or null), or a
    task object. *)
Inductive DataField :=
  | DataEmpty
  | DataAbsent
  | DataObj (d : TaskData).

Record MainData := mkMain {
  md_data : DataField;
  statusCode : option Z }.

(** The value [getAgentTaskDetails] resolves to: [{ data: mainData, status }]. *)
Record TaskResponse := mkResponse {
  status : bool;
  mainData : option MainData }.

(** The value [agentKeyedOn] resolves to: [{ status, data | error }]. *)
Record AckResponse := mkAck {
  ack_status : bool;
  ack_info : string }.

(** An HTTP response: its body read as a blob and as JSON. *)
Record Response := mkHttp {
  blob : Outcome Blob;
  json : Outcome Json }.

Inductive FormStatus := VALID | INVALID.

Inductive RefKind := ImageRef | JsonRef.

Inductive Level := Info | Warn | Error.

(** The console messages of the provider. *)
Inductive Message :=
  | TaskChanged (prev : string)
  | ClearFailed (err : string)
  | UsingCached (available : nat)
  | BackgroundDownloaded (n total : nat)
  | FailedDownload (i : nat) (err : string)
  | KeyedOnSuccessful (info : string)
  | KeyedOnFailed (info : string)
  | ErrorFetching (err : string).

(** What the provider does to the outside, and what it is answered.
    [EvHttpGet] carries the index of the document ref the request is made
    for; [EvUpdaterTypeError] is the TypeError of the updater of line 128
    when the [data] cell holds null. *)
Inductive Event :=
  | EvSetIsLoading (b : bool)
  | EvGetAgentTaskDetails (role : string) (r : Outcome TaskResponse)
  | EvClearTaskCache (tid : string) (r : Outcome unit)
  | EvGetAllDocuments (tid : option string) (r : Outcome (list Doc))
  | EvHttpGet (k : RefKind) (i : nat) (url : string) (r : Outcome Response)
  | EvSaveDocument (tid : option string) (i : nat) (b : Blob) (j : Json)
      (r : Outcome unit)
  | EvCreateObjectURL (b : Blob) (url : string)
  | EvRevokeObjectURL (url : string)
  | EvSetData (d : option TaskData)
  | EvAppendDocument (d : Doc)
  | EvUpdaterTypeError
  | EvSetFormStatus (s : FormStatus)
  | EvSetAllFormFields (f : gmap string (list Group))
  | EvSetFormFields (f : option (list Group))
  | EvAgentKeyedOn (tid role : string) (r : Outcome AckResponse)
  | EvConsole (l : Level) (m : Message).

(** A call of [fetchRemainingDocuments] suspended at the [Promise.all] of
    iteration [bg_index]: both requests are issued, [bg_image] and
    [bg_json] are what they settle to. *)
Record BgTask := mkBg {
  bg_taskId : option string;
  bg_docs : ZoningDocs;
  bg_index : nat;
  bg_image : Outcome Response;
  bg_json : Outcome Response }.

(** The provider: its props, its ref and state cells, the suspended
    background calls and the history. *)
Record World := mkWorld {
  readOnly : bool;
  roleid : option string;
  prevTaskIdRef : option string;
  data : option TaskData;
  formStatus : FormStatus;
  isLoading : bool;
  allFormFields : gmap string (list Group);
  formFields : option (list Group);
  pending : list BgTask;
  log : list Event }.

(** The collaborators of the provider, none of which is part of the
    sources: the task service, the durable cache of [utils/indexeddb], the
    HTTP client, [URL.createObjectURL] and [getGenericURL].  An answer may
    depend on everything that happened before the call. *)
Record Env := mkEnv {
  getAgentTaskDetails : list Event → string → Outcome TaskResponse;
  getAllDocuments : list Event → option string → Outcome (list Doc);
  saveDocument : list Event → option string → nat → Blob → Json → Outcome unit;
  clearTaskCache : list Event → string → Outcome unit;
  http_get : list Event → string → Outcome Response;
  agentKeyedOn : list Event → string → string → Outcome AckResponse;
  createObjectURL : list Event → Blob → string;
  getGenericURL : option string → string }.

(** ** State cells *)

Definition emit (e : Event) (w : World) : World :=
  mkWorld (readOnly w) (roleid w) (prevTaskIdRef w) (data w) (formStatus w)
    (isLoading w) (allFormFields w) (formFields w) (pending w) (log w ++ [e]).

Definition with_prevTaskIdRef (t : option string) (w : World) : World :=
  mkWorld (readOnly w) (roleid w) t (data w) (formStatus w)
    (isLoading w) (allFormFields w) (formFields w) (pending w) (log w).

Definition with_data (d : option TaskData) (w : World) : World :=
  mkWorld (readOnly w) (roleid w) (prevTaskIdRef w) d (formStatus w)
    (isLoading w) (allFormFields w) (formFields w) (pending w) (log w).

Definition with_formStatus (s : FormStatus) (w : World) : World :=
  mkWorld (readOnly w) (roleid w) (prevTaskIdRef w) (data w) s
    (isLoading w) (allFormFields w) (formFields w) (pending w) (log w).

Definition with_isLoading (b : bool) (w : World) : World :=
  mkWorld (readOnly w) (roleid w) (prevTaskIdRef w) (data w) (formStatus w)
    b (allFormFields w) (formFields w) (pending w) (log w).

Definition with_allFormFields (f : gmap string (list Group)) (w : World) : World :=
  mkWorld (readOnly w) (roleid w) (prevTaskIdRef w) (data w) (formStatus w)
    (isLoading w) f (formFields w) (pending w) (log w).

Definition with_formFields (f : option (list Group)) (w : World) : World :=
  mkWorld (readOnly w) (roleid w) (prevTaskIdRef w) (data w) (formStatus w)
    (isLoading w) (allFormFields w) f (pending w) (log w).

Definition with_pending (p : list BgTask) (w : World) : World :=
  mkWorld (readOnly w) (roleid w) (prevTaskIdRef w) (data w) (formStatus w)
    (isLoading w) (allFormFields w) (formFields w) p (log w).

(** The events of a run from [w] to [w']. *)
Definition events_since (w w' : World) : list Event :=
  drop (length (log w)) (log w').

(** ** The error monad *)

Definition M (A : Type) : Type := World → Outcome A * World.

Definition ret {A} (a : A) : M A := λ w, (Resolved a, w).

Definition throw {A} (err : string) : M A := λ w, (Rejected err, w).

Definition bind {A B} (m : M A) (k : A → M B) : M B :=
  λ w, match m w with
       | (Resolved a, w') => k a w'
       | (Rejected err, w') => (Rejected err, w')
       end.

(** [try { m } catch (err) { h err }]. *)
Definition tryCatch {A} (m : M A) (h : string → M A) : M A :=
  λ w, match m w with
       | (Resolved a, w') => (Resolved a, w')
       | (Rejected err, w') => h err w'
       end.

(** [try { m } finally { f }], for an [f] that does not throw. *)
Definition tryFinally {A} (m : M A) (f : World → World) : M A :=
  λ w, match m w with (r, w') => (r, f w') end.

(** A step that cannot fail. *)
Definition act (f : World → World) : M unit := λ w, (Resolved tt, f w).

(** [await p] for a promise that settles to [r]. *)
Definition await {A} (r : Outcome A) : M A := λ w, (r, w).

Declare Scope act_scope.
Delimit Scope act_scope with act.
Notation "'let*' x ':=' m 'in' k" := (bind m (λ x, k))
  (at level 10, x name, m at level 100, k at level 200) : act_scope.
Notation "m ';;;' k" := (bind m (λ _, k))
  (at level 100, k at level 200, right associativity) : act_scope.

(** JavaScript truthiness of a string or of an absent value. *)
Definition truthy (s : option string) : bool :=
  match s with
  | Some s => negb (String.eqb s "")
  | None => false
  end.

(** [l?.[0]] as a condition. *)
Definition first_present (l : list string) : bool := truthy (l !! 0).

(** [url?.startsWith("blob:")]. *)
Definition is_blob_url (url : string) : bool := String.prefix "blob:" url.

(** ** The provider *)

Section Provider.

Variable env : Env.

Open Scope act_scope.

(** *** Calls to the collaborators: the call and its answer enter the log *)

Definition call_getAgentTaskDetails (role : string) : M TaskResponse :=
  λ w, let r := getAgentTaskDetails env (log w) role in
       (r, emit (EvGetAgentTaskDetails role r) w).

Definition call_getAllDocuments (tid : option string) : M (list Doc) :=
  λ w, let r := getAllDocuments env (log w) tid in
       (r, emit (EvGetAllDocuments tid r) w).

Definition call_saveDocument (tid : option string) (i : nat) (b : Blob) (j : Json)
    : M unit :=
  λ w, let r := saveDocument env (log w) tid i b j in
       (r, emit (EvSaveDocument tid i b j r) w).

Definition call_agentKeyedOn (tid role : string) : M AckResponse :=
  λ w, let r := agentKeyedOn env (log w) tid role in
       (r, emit (EvAgentKeyedOn tid role r) w).

Definition call_createObjectURL (b : Blob) : M string :=
  λ w, let url := createObjectURL env (log w) b in
       (Resolved url, emit (EvCreateObjectURL b url) w).

(** [clearTaskCache(prev).catch(err => console.warn(...))]: not awaited,
    a rejection is logged and goes no further.  The handler runs when the
    promise settles, which is after the statements that follow the call;
    the warning is entered in the history next to its call, and is to be
    read as "logged for this call", not as a position among the later
    events of the run. *)
Definition fire_clearTaskCache (prev : string) (w : World) : World :=
  let r := clearTaskCache env (log w) prev in
  let w1 := emit (EvClearTaskCache prev r) w in
  match r with
  | Resolved _ => w1
  | Rejected err => emit (EvConsole Warn (ClearFailed err)) w1
  end.

(** *** State setters *)

Definition setIsLoading (b : bool) (w : World) : World :=
  emit (EvSetIsLoading b) (with_isLoading b w).

Definition setData (d : option TaskData) (w : World) : World :=
  emit (EvSetData d) (with_data d w).

Definition setFormStatus (s : FormStatus) (w : World) : World :=
  emit (EvSetFormStatus s) (with_formStatus s w).

Definition console (l : Level) (m : Message) : World → World :=
  emit (EvConsole l m).

(** *** [fetchRemainingDocuments], lines 111-150 *)

(** The two [http.get] calls of [Promise.all], issued in this order before
    the call suspends. *)
Definition issueRequests (docs : ZoningDocs) (i : nat) (w : World)
    : (Outcome Response * Outcome Response) * World :=
  let u1 := getGenericURL env (imageurl docs !! i) in
  let r1 := http_get env (log w) u1 in
  let w1 := emit (EvHttpGet ImageRef i u1 r1) w in
  let u2 := getGenericURL env (jsonurl docs !! i) in
  let r2 := http_get env (log w1) u2 in
  ((r1, r2), emit (EvHttpGet JsonRef i u2 r2) w1).

(** The updater of lines 128-141 applied to the [data] cell: it spreads
    [prev] and [prev.zoningdocuments] and appends the new entry to
    [prev.zoningdocuments?.allDocuments || []].  On a null [prev] the
    updater throws inside React, outside the [try] of the loop.

    [setData(updater)] hands the updater to React, which applies it at a
    later render: after the statements that follow in the same turn (the
    log of line 143 and the requests of the next index).  The updaters
    are applied in the order of their calls, each to the payload that the
    writes before it have left.  [appendDocument] applies the updater
    where it is handed over: the events of the updater ([updaterEvent]
    below: the handle, the merge, the throw) stand in a history at the
    place of the call of [setData], and their place among the other
    events of the same turn is not to be read off a history; which
    documents are merged, and in which order, is. *)
Definition emptyZoning : ZoningDocs := mkZoning [] [] None None None None.

Definition appended (prev : TaskData) (d : Doc) : TaskData :=
  let zd := default emptyZoning (zoningdocuments prev) in
  mkTask (taskid prev)
    (Some (mkZoning (imageurl zd) (jsonurl zd) (currentDocument zd)
             (Some (default [] (allDocuments zd) ++ [d]))
             (totalCount zd) (fromCache zd)))
    (schema prev) (dbdata prev) (data_blank prev) (rest prev).

Definition appendDocument (i : nat) (imageBlob : Blob) (jsonData : Json)
    (w : World) : World :=
  match data w with
  | None => emit EvUpdaterTypeError w
  | Some prev =>
      let url := createObjectURL env (log w) imageBlob in
      let w1 := emit (EvCreateObjectURL imageBlob url) w in
      let d := mkDoc i url jsonData in
      emit (EvAppendDocument d) (with_data (Some (appended prev d)) w1)
  end.

(** The body of the [try] of iteration [i] from the point where
    [Promise.all] settles, lines 117-143. *)
Definition iterationTry (tid : option string) (total i : nat)
    (r1 r2 : Outcome Response) : M unit :=
  let* imageResponse := await r1 in
  let* jsonResponse := await r2 in
  let* imageBlob := await (blob imageResponse) in
  let* jsonData := await (json jsonResponse) in
  call_saveDocument tid i imageBlob jsonData ;;;
  act (appendDocument i imageBlob jsonData) ;;;
  act (console Info (BackgroundDownloaded (i + 1) total)).

(** The rest of iteration [i], with its [catch] of lines 144-146. *)
Definition completeIteration (tid : option string) (total i : nat)
    (r1 r2 : Outcome Response) (w : World) : World :=
  (tryCatch (iterationTry tid total i r1 r2)
     (λ err, act (console Error (FailedDownload i err))) w).2.

(** One iteration of the loop. *)
Definition iteration (tid : option string) (docs : ZoningDocs) (i : nat)
    (w : World) : World :=
  let '(rs, w1) := issueRequests docs i w in
  completeIteration tid (length (imageurl docs)) i rs.1 rs.2 w1.

(** The loop run from [startIndex] to its end with nothing in between:
    [for (let i = startIndex; i < total; i++)]. *)
Definition fetchRemainingDocuments_loop (tid : option string)
    (docs : ZoningDocs) (startIndex : nat) (w : World) : World :=
  let total := length (imageurl docs) in
  foldl (λ w i, iteration tid docs i w) w (seq startIndex (total - startIndex)).

(** The loop as the event loop runs it.  [enterIteration] is the loop head
    followed by the code up to the first [await]: when [i < total] the
    requests of iteration [i] are issued and the call suspends. *)
Definition enterIteration (tid : option string) (docs : ZoningDocs) (i : nat)
    (w : World) : World :=
  if decide (i < length (imageurl docs)) then
    let '(rs, w1) := issueRequests docs i w in
    with_pending (pending w1 ++ [mkBg tid docs i rs.1 rs.2]) w1
  else w.

(** [void fetchRemainingDocuments(taskId, zoningDocs, startIndex)]. *)
Definition fetchRemainingDocuments (tid : option string) (docs : ZoningDocs)
    (startIndex : nat) : World → World :=
  enterIteration tid docs startIndex.

(** The suspended call [t] goes on: its iteration is completed and the
    next one entered. *)
Definition continue (t : BgTask) (w : World) : World :=
  enterIteration (bg_taskId t) (bg_docs t) (S (bg_index t))
    (completeIteration (bg_taskId t) (length (imageurl (bg_docs t)))
       (bg_index t) (bg_image t) (bg_json t) w).

(** The event loop resumes the [n]-th suspended call.  The schedules
    represented are those in which a call of [fetchData] runs to its end
    before a suspended background call goes on, and in which a background
    call, once resumed, completes its iteration and issues the requests of
    the next one before anything else runs: the awaits inside an iteration
    and inside [fetchData] are not interleaved with other calls. *)
Definition resume (n : nat) (w : World) : World :=
  match pending w !! n with
  | Some t => continue t (with_pending (delete n (pending w)) w)
  | None => w
  end.

(** The oldest suspended call is resumed, [fuel] times; resuming does
    nothing once no call is suspended. *)
Definition settle (fuel : nat) (w : World) : World :=
  Nat.iter fuel (resume 0) w.

(** *** [fetchData], lines 152-281 *)

(** Lines 165-174: the cache of the previous task is cleared when the task
    changes, and the new task id is remembered. *)
Definition adoptTask (taskId : option string) (w : World) : World :=
  let w1 :=
    match prevTaskIdRef w with
    | Some prev =>
        if truthy (Some prev) && bool_decide (Some prev ≠ taskId) then
          fire_clearTaskCache prev (console Info (TaskChanged prev) w)
        else w
    | None => w
    end in
  with_prevTaskIdRef taskId w1.

(** The payload of the cache hit, lines 188-200. *)
Definition enrichedFromCache (d : TaskData) (zd : ZoningDocs) (c0 : Doc)
    (cachedDocs : list Doc) : TaskData :=
  mkTask (taskid d)
    (Some (mkZoning (imageurl zd) (jsonurl zd)
             (Some (mkCurrent (imageUrl c0) (jsonData c0)))
             (Some cachedDocs)
             (Some (length (imageurl zd))) (Some true)))
    (schema d) (dbdata d) (data_blank d) (rest d).

(** The payload of the cache miss, lines 223-232. *)
Definition enrichedFromNetwork (d : TaskData) (zd : ZoningDocs)
    (url : string) (jsonData : Json) : TaskData :=
  mkTask (taskid d)
    (Some (mkZoning (imageurl zd) (jsonurl zd)
             (Some (mkCurrent url jsonData))
             (Some [mkDoc 0 url jsonData])
             (Some (length (imageurl zd))) (Some false)))
    (schema d) (dbdata d) (data_blank d) (rest d).

(** The payload of the [catch], lines 243-248. *)
Definition withoutZoning (d : TaskData) : TaskData :=
  mkTask (taskid d) None (schema d) (dbdata d) (data_blank d) (rest d).

(** The cache hit, lines 183-208. *)
Definition cacheHit (d : TaskData) (zd : ZoningDocs) (c0 : Doc)
    (cachedDocs : list Doc) : M unit :=
  act (console Info (UsingCached (length cachedDocs))) ;;;
  act (setData (Some (enrichedFromCache d zd c0 cachedDocs))) ;;;
  act (setFormStatus VALID) ;;;
  if decide (length cachedDocs < length (imageurl zd)) then
    act (fetchRemainingDocuments (taskid d) zd (length cachedDocs))
  else ret tt.

(** The cache miss, lines 210-240. *)
Definition cacheMiss (d : TaskData) (zd : ZoningDocs) : M unit :=
  let* rs := (λ w, let '(rs, w1) := issueRequests zd 0 w in (Resolved rs, w1)) in
  let* imageResponse := await rs.1 in
  let* jsonResponse := await rs.2 in
  let* imageBlob := await (blob imageResponse) in
  let* url := call_createObjectURL imageBlob in
  let* jsonData := await (json jsonResponse) in
  call_saveDocument (taskid d) 0 imageBlob jsonData ;;;
  act (setData (Some (enrichedFromNetwork d zd url jsonData))) ;;;
  act (setFormStatus VALID) ;;;
  if decide (1 < length (imageurl zd)) then
    act (fetchRemainingDocuments (taskid d) zd 1)
  else ret tt.

(** The world in which the cache hit is published: the state after
    line 203. *)
Definition publishedHit (d : TaskData) (zd : ZoningDocs) (c0 : Doc)
    (cachedDocs : list Doc) (w : World) : World :=
  setFormStatus VALID
    (setData (Some (enrichedFromCache d zd c0 cachedDocs))
       (console Info (UsingCached (length cachedDocs))
          (emit (EvGetAllDocuments (taskid d) (Resolved cachedDocs)) w))).

(** The world in which the cache miss is published, the state after
    line 235, when the two requests were answered with [resp1] and
    [resp2], read as [b] and [j], and the handle made is [url]. *)
Definition publishedMiss (d : TaskData) (zd : ZoningDocs) (u1 u2 : string)
    (resp1 resp2 : Response) (b : Blob) (j : Json) (url : string)
    (w : World) : World :=
  setFormStatus VALID
    (setData (Some (enrichedFromNetwork d zd url j))
       (emit (EvSaveDocument (taskid d) 0 b j (Resolved tt))
          (emit (EvCreateObjectURL b url)
             (emit (EvHttpGet JsonRef 0 u2 (Resolved resp2))
                (emit (EvHttpGet ImageRef 0 u1 (Resolved resp1))
                   (emit (EvGetAllDocuments (taskid d) (Resolved [])) w)))))).

(** The body of the inner [try], lines 179-241. *)
Definition hydrateTry (d : TaskData) (zd : ZoningDocs) : M unit :=
  let* cachedDocs := call_getAllDocuments (taskid d) in
  match cachedDocs with
  | c0 :: _ => cacheHit d zd c0 cachedDocs
  | [] => cacheMiss d zd
  end.

(** [zoningDocs?.imageurl?.[0] && zoningDocs?.jsonurl?.[0]]. *)
Definition hasFirstRefs (zd : ZoningDocs) : bool :=
  first_present (imageurl zd) && first_present (jsonurl zd).

(** Lines 176-255, for a payload that is an object. *)
Definition hydrate (d : TaskData) : M unit :=
  match zoningdocuments d with
  | Some zd =>
      if hasFirstRefs zd then
        tryCatch (hydrateTry d zd)
          (λ _, act (setData (Some (withoutZoning d))) ;;;
                act (setFormStatus VALID))
      else act (setFormStatus VALID) ;;; act (setData (Some d))
  | None => act (setFormStatus VALID) ;;; act (setData (Some d))
  end.

(** Lines 257-268. *)
Definition acknowledge (taskId : option string) (role : string) : M unit :=
  match taskId with
  | Some tid =>
      if truthy (Some tid) then
        let* agentKeyedResponse := call_agentKeyedOn tid role in
        if ack_status agentKeyedResponse then
          act (console Info (KeyedOnSuccessful (ack_info agentKeyedResponse)))
        else
          act (console Error (KeyedOnFailed (ack_info agentKeyedResponse)))
      else ret tt
  | None => ret tt
  end.

(** [(mainData as any)?.data != ""]. *)
Definition payloadNonEmpty (m : option MainData) : bool :=
  match m with
  | Some m => match md_data m with DataEmpty => false | _ => true end
  | None => true
  end.

(** [(mainData as any)?.data] when it is an object. *)
Definition payloadObject (m : option MainData) : option TaskData :=
  match m with
  | Some m => match md_data m with DataObj d => Some d | _ => None end
  | None => None
  end.

(** [(mainData as any).statusCode == 501]. *)
Definition notProvisioned (m : option MainData) : bool :=
  match m with
  | Some m =>
      match statusCode m with
      | Some code => Z.eqb code 501
      | None => false
      end
  | None => false
  end.

(** Lines 159-256 for a non-empty payload: adoption, then hydration. *)
Definition adoptAndHydrate (m : option MainData) : M unit :=
  match payloadObject m with
  | Some d => act (adoptTask (taskid d)) ;;; hydrate d
  | None =>
      act (adoptTask None) ;;;
      act (setFormStatus VALID) ;;; act (setData None)
  end.

(** The body of the outer [try], lines 157-273. *)
Definition fetchTry (role : string) : M unit :=
  let* response := call_getAgentTaskDetails role in
  let m := mainData response in
  if status response && payloadNonEmpty m then
    adoptAndHydrate m ;;;
    acknowledge (payloadObject m ≫= taskid) role
  else if status response && notProvisioned m then
    act (setFormStatus INVALID)
  else act (setData None).

(** The world in which the task fetch of line 157 has resolved to
    [response]. *)
Definition taskFetched (role : string) (response : TaskResponse) (w : World)
    : World :=
  emit (EvGetAgentTaskDetails role (Resolved response)) (setIsLoading true w).

(** The world at line 257, for a task object [d]: the task is adopted and
    its hydration has been initiated. *)
Definition hydrationInitiated (role : string) (response : TaskResponse)
    (d : TaskData) (w : World) : World :=
  (hydrate d (adoptTask (taskid d) (taskFetched role response w))).2.

(** [!readOnly && (roleid == "1" || roleid == "15")]. *)
Definition roleGate (w : World) : option string :=
  match roleid w with
  | Some role =>
      if negb (readOnly w) && (String.eqb role "1" || String.eqb role "15")
      then Some role else None
  | None => None
  end.

(** [fetchData], lines 152-281: the loading flag is raised before the
    role gate is tested, and lowered in the [finally] of the gated part. *)
Definition fetchData (w : World) : World :=
  let w1 := setIsLoading true w in
  match roleGate w1 with
  | Some role =>
      (tryFinally
         (tryCatch (fetchTry role)
            (λ err, act (console Error (ErrorFetching err)) ;;;
                    act (setData None)))
         (setIsLoading false) w1).2
  | None => w1
  end.

(** [refreshData], lines 409-411. *)
Definition refreshData : World → World := fetchData.

End Provider.

(** *** The retry timer, lines 321-328 *)

(** The interval is armed by the effect when [!data && !readOnly]; the
    effect runs again only when [data], [readOnly] or [fetchData] changes. *)
Definition retryTimerArmed (w : World) : bool :=
  negb (bool_decide (is_Some (data w))) && negb (readOnly w).

(** *** The clean-up of object URLs, lines 284-305 *)

(** The URLs the clean-up registered for the snapshot [d] revokes, in the
    order of the calls of [URL.revokeObjectURL]. *)
Definition revocations (d : option TaskData) : list string :=
  let zd := d ≫= zoningdocuments in
  List.filter is_blob_url (imageUrl <$> default [] (zd ≫= allDocuments))
  ++ List.filter is_blob_url (cur_imageUrl <$> option_list (zd ≫= currentDocument))
  ++ List.filter is_blob_url (option_list (zd ≫= (λ z, imageurl z !! 0))).

(** The clean-up runs when [data] is replaced and when the provider
    unmounts, on the snapshot it was registered for. *)
Definition cleanup (d : option TaskData) (w : World) : World :=
  foldl (λ w url, emit (EvRevokeObjectURL url) w) w (revocations d).

(** *** The projection of the schema, lines 330-359 *)

(** [data.dbdata?.header?.[0].shippingcode]: an empty [header] makes
    [header[0]] undefined and the access to its field throws. *)
Definition docTypeOf (d : TaskData) : Outcome (option string) :=
  match dbdata d with
  | Some (Some (row :: _)) => Resolved row
  | Some (Some []) => Rejected "TypeError"
  | _ => Resolved None
  end.

(** The inner [reduce] of lines 342-350. *)
Definition projectGroups (sg : SchemaGroup) : list Group :=
  foldl (λ acc sl,
           match List.find (λ prop, String.eqb (id prop) sl) (group sg) with
           | Some section => acc ++ [section]
           | None => acc
           end)
    [] (groupList sg).

(** The outer [reduce] of lines 340-354 over [Object.keys(schema)]. *)
Definition allFormData (schema : gmap string SchemaGroup)
    : gmap string (list Group) :=
  foldl (λ accl ll,
           match schema !! ll with
           | Some sg => <[ll := projectGroups sg]> accl
           | None => accl
           end)
    ∅ (map_to_list schema).*1.

(** [allFormData[docType]]; an undefined [docType] reads the key
    ["undefined"]. *)
Definition fieldsOf (all : gmap string (list Group)) (docType : option string)
    : option (list Group) :=
  all !! default "undefined" docType.

(** The effect up to line 359, on the cells of the form fields.  The
    setters called by the whole effect, validators and prompts included,
    are those of [schemaEffect] below. *)
Definition deriveFormFields (w : World) : Outcome unit * World :=
  match data w with
  | Some d =>
      match schema d with
      | Some sch =>
          if data_blank d then (Resolved tt, w)
          else
            match docTypeOf d with
            | Resolved docType =>
                let all := allFormData sch in
                let w1 := emit (EvSetAllFormFields all)
                            (with_allFormFields all w) in
                (Resolved tt,
                 emit (EvSetFormFields (fieldsOf all docType))
                   (with_formFields (fieldsOf all docType) w1))
            | Rejected err => (Rejected err, w)
            end
      | None => (Resolved tt, w)
      end
  | None => (Resolved tt, w)
  end.

(** The projection in the words of the specification: every id of
    [groupList] is mapped to the one entry of [group] with that id, and an
    id without such an entry is dropped. *)
Definition theEntry (sl : string) (g : list Group) : option Group :=
  match filter (λ prop, id prop = sl) g with
  | [section] => Some section
  | _ => None
  end.

Definition projection_spec (sg : SchemaGroup) : list Group :=
  omap (λ sl, theEntry sl (group sg)) (groupList sg).

(** ** Observations on a history *)

(** The task ids [clearTaskCache] was called with. *)
Definition clears (evs : list Event) : list string :=
  omap (λ e, match e with EvClearTaskCache t _ => Some t | _ => None end) evs.

(** The indices of the image, respectively metadata, refs requested. *)
Definition imageRequests (evs : list Event) : list nat :=
  omap (λ e, match e with EvHttpGet ImageRef i _ _ => Some i | _ => None end) evs.

Definition jsonRequests (evs : list Event) : list nat :=
  omap (λ e, match e with EvHttpGet JsonRef i _ _ => Some i | _ => None end) evs.

(** The handles acquired with [URL.createObjectURL], and those released
    with [URL.revokeObjectURL]. *)
Definition acquired (evs : list Event) : list string :=
  omap (λ e, match e with EvCreateObjectURL _ url => Some url | _ => None end) evs.

Definition released (evs : list Event) : list string :=
  omap (λ e, match e with EvRevokeObjectURL url => Some url | _ => None end) evs.

(** The documents merged into [allDocuments] by the updater of line 128. *)
Definition merged (evs : list Event) : list Doc :=
  omap (λ e, match e with EvAppendDocument d => Some d | _ => None end) evs.

(** The [allDocuments] of the [data] cell, empty when there is none. *)
Definition liveDocuments (w : World) : list Doc :=
  default [] ((data w ≫= zoningdocuments) ≫= allDocuments).

(** What the hydration of the task object [d] does from [w] to [w']: the
    props and the ref are kept, the status is VALID, a payload of the task
    is published, no cache is cleared, and the cache is queried when the
    first refs are present. *)
Definition hydrationOutcome (d : TaskData) (w w' : World) : Prop :=
  ∃ evs p,
    readOnly w' = readOnly w ∧ roleid w' = roleid w
    ∧ prevTaskIdRef w' = prevTaskIdRef w
    ∧ formStatus w' = VALID
    ∧ data w' = Some p ∧ taskid p = taskid d
    ∧ log w' = log w ++ evs
    ∧ clears evs = []
    ∧ EvSetData (Some p) ∈ evs
    ∧ (∀ zd, zoningdocuments d = Some zd → hasFirstRefs zd = true →
             ∃ r, EvGetAllDocuments (taskid d) r ∈ evs).

(** What the fetch of a document comes to: the blob and the data read
    from the two responses, or a rejection.  Whether the fetch fails is
    as in the source; when both requests are rejected [Promise.all]
    rejects with the one that settles first, which a history does not
    tell, and the error kept here is the one of the image request. *)
Definition fetched (r1 r2 : Outcome Response) : Outcome (Blob * Json) :=
  match r1, r2 with
  | Resolved resp1, Resolved resp2 =>
      match blob resp1, json resp2 with
      | Resolved b, Resolved j => Resolved (b, j)
      | Rejected err, _ => Rejected err
      | _, Rejected err => Rejected err
      end
  | Rejected err, _ => Rejected err
  | _, Rejected err => Rejected err
  end.

(** The trace of iteration [i] of the background loop: the two requests,
    then either the document is persisted and merged ([it_merged]; or
    persisted while the [data] cell is null, in which case the updater
    throws, [it_no_data]), or the fetch or the persisting fails, the
    failure is logged and nothing is merged. *)
Inductive iterationTrace (tid : option string) (total i : nat)
    : list Event → Prop :=
  | it_merged u1 u2 r1 r2 b j url :
      fetched r1 r2 = Resolved (b, j) →
      iterationTrace tid total i
        [EvHttpGet ImageRef i u1 r1;
         EvHttpGet JsonRef i u2 r2;
         EvSaveDocument tid i b j (Resolved tt);
         EvCreateObjectURL b url;
         EvAppendDocument (mkDoc i url j);
         EvConsole Info (BackgroundDownloaded (i + 1) total)]
  | it_no_data u1 u2 r1 r2 b j :
      fetched r1 r2 = Resolved (b, j) →
      iterationTrace tid total i
        [EvHttpGet ImageRef i u1 r1;
         EvHttpGet JsonRef i u2 r2;
         EvSaveDocument tid i b j (Resolved tt);
         EvUpdaterTypeError;
         EvConsole Info (BackgroundDownloaded (i + 1) total)]
  | it_fetch_failed u1 u2 r1 r2 err :
      fetched r1 r2 = Rejected err →
      iterationTrace tid total i
        [EvHttpGet ImageRef i u1 r1;
         EvHttpGet JsonRef i u2 r2;
         EvConsole Error (FailedDownload i err)]
  | it_save_failed u1 u2 r1 r2 b j err :
      fetched r1 r2 = Resolved (b, j) →
      iterationTrace tid total i
        [EvHttpGet ImageRef i u1 r1;
         EvHttpGet JsonRef i u2 r2;
         EvSaveDocument tid i b j (Rejected err);
         EvConsole Error (FailedDownload i err)].




(** The indices of a sequence of documents are pairwise distinct and below
    [N], and there are at most [N] documents. *)
Definition indicesWithin (N : nat) (docs : list Doc) : Prop :=
  length docs ≤ N ∧ NoDup (index <$> docs) ∧ Forall (λ d, index d < N) docs.

(** Every acquired handle is released exactly once. *)
Definition releasedExactlyOnce (acq rel : list string) : Prop :=
  ∀ h, h ∈ acq → length (filter (λ x, x = h) rel) = 1.

(** The snapshot [d] refers to [url] from an entry of [allDocuments], from
    [currentDocument] or from the first element of [imageurl]. *)
Definition refersTo (d : option TaskData) (url : string) : Prop :=
  let zd := d ≫= zoningdocuments in
  url ∈ imageUrl <$> default [] (zd ≫= allDocuments)
  ∨ cur_imageUrl <$> (zd ≫= currentDocument) = Some url
  ∨ zd ≫= (λ z, imageurl z !! 0) = Some url.

(** ** A concrete session *)

(** Modelled from the spec: the durable document cache of section 4.2,
    whose implementation ([utils/indexeddb]) is not part of the sources.
    [put] is an upsert keyed by (taskId, index), [clearTask] deletes the
    entries of a task and [getAll] returns the entries of a task sorted by
    index.  The content of the cache is replayed from the history. *)
Module SpecCache.

Record Entry := mkEntry {
  e_task : option string;
  e_index : nat;
  e_blob : Blob;
  e_meta : Json }.

Definition put (e : Entry) (c : list Entry) : list Entry :=
  e :: filter (λ x, ¬ (e_task x = e_task e ∧ e_index x = e_index e)) c.

Definition clearTask (tid : string) (c : list Entry) : list Entry :=
  filter (λ x, e_task x ≠ Some tid) c.

Definition replay (c : list Entry) (ev : Event) : list Entry :=
  match ev with
  | EvSaveDocument tid i b j (Resolved _) => put (mkEntry tid i b j) c
  | EvClearTaskCache tid (Resolved _) => clearTask tid c
  | _ => c
  end.

Definition contents (history : list Event) : list Entry :=
  foldl replay [] history.

(** The view of an entry: the handle is made from the stored blob. *)
Definition view (e : Entry) : Doc :=
  mkDoc (e_index e) ("blob:cached/" +:+ e_blob e) (e_meta e).

Definition getAll (history : list Event) (tid : option string) : list Doc :=
  view <$> @merge_sort _ (λ x y, e_index x ≤ e_index y)
             (λ x y, decide (e_index x ≤ e_index y))
             (filter (λ x, e_task x = tid) (contents history)).

End SpecCache.

Module Scenario.

Definition refs : ZoningDocs :=
  mkZoning ["img/0"; "img/1"; "img/2"] ["meta/0"; "meta/1"; "meta/2"]
    None None None None.

Definition task : TaskData :=
  mkTask (Some "T1") (Some refs) None None false "".

Definition taskResponse : TaskResponse :=
  mkResponse true (Some (mkMain (DataObj task) None)).

(** Every call succeeds; the cache is the one of the specification; the
    n-th handle is ["blob:n"]. *)
Definition env : Env :=
  mkEnv
    (λ _ _, Resolved taskResponse)
    (λ history tid, Resolved (SpecCache.getAll history tid))
    (λ _ _ _ _ _, Resolved tt)
    (λ _ _, Resolved tt)
    (λ _ url, Resolved (mkHttp (Resolved ("bytes:" +:+ url))
                          (Resolved ("json:" +:+ url))))
    (λ _ _ _, Resolved (mkAck true "keyed"))
    (λ history _, "blob:" +:+ pretty (length (acquired history)))
    (λ ref, default "" ref).

(** The same, with an acknowledgment call that rejects. *)
Definition envAckRejects : Env :=
  mkEnv (getAgentTaskDetails env) (getAllDocuments env) (saveDocument env)
    (clearTaskCache env) (http_get env)
    (λ _ _ _, Rejected "Network Error")
    (createObjectURL env) (getGenericURL env).

(** The same, with an acknowledgment call that reports a failure. *)
Definition envAckRefused : Env :=
  mkEnv (getAgentTaskDetails env) (getAllDocuments env) (saveDocument env)
    (clearTaskCache env) (http_get env)
    (λ _ _ _, Resolved (mkAck false "refused"))
    (createObjectURL env) (getGenericURL env).

(** A second task, served from the second task fetch on, and a cache
    whose clearing is rejected. *)
Definition nextTask : TaskData :=
  mkTask (Some "T2") None None None false "".

Definition envTwoTasks : Env :=
  mkEnv
    (λ history _,
       match omap (λ e, match e with
                        | EvGetAgentTaskDetails _ _ => Some tt
                        | _ => None
                        end) history with
       | [] => Resolved taskResponse
       | _ => Resolved (mkResponse true (Some (mkMain (DataObj nextTask) None)))
       end)
    (getAllDocuments env) (saveDocument env)
    (λ _ _, Rejected "QuotaExceededError") (http_get env)
    (agentKeyedOn env) (createObjectURL env) (getGenericURL env).

(** The same as [env], with a cache that is always empty. *)
Definition envColdCache : Env :=
  mkEnv (getAgentTaskDetails env) (λ _ _, Resolved []) (saveDocument env)
    (clearTaskCache env) (http_get env) (agentKeyedOn env)
    (createObjectURL env) (getGenericURL env).

(** A payload with a schema of one document type: its [groupList] names
    a group that [group] does not have. *)
Definition invoiceGroups : SchemaGroup :=
  mkSchemaGroup ["header"; "totals"; "lines"]
    [mkGroup "lines" "quantity,price"; mkGroup "header" "number,date"]
    "Extract the invoice".

Definition invoiceSchema : gmap string SchemaGroup :=
  {["INV" := invoiceGroups]}.

Definition schemaTask : TaskData :=
  mkTask (Some "T1") None (Some invoiceSchema) (Some (Some [Some "INV"]))
    false "".

(** The provider when it mounts, for an agent of role 1. *)
Definition mounted : World :=
  mkWorld false (Some "1") None None VALID true ∅ None [] [].

(** A refresh in the middle of the background hydration: the provider
    mounts and fetches, the background call merges document 1, the
    consumer calls [refreshData], then the suspended calls run to their
    end. *)
Definition refreshedMidway : World :=
  settle env 4 (refreshData env (resume env 0 (fetchData env mounted))).

(** A single fetch followed by the background hydration. *)
Definition hydrated : World := settle env 3 (fetchData env mounted).

End Scenario.

(** ** Further observations *)

(** The indices persisted with a [saveDocument] that resolved. *)
Definition persisted (evs : list Event) : list nat :=
  omap (λ e, match e with
             | EvSaveDocument _ i _ _ (Resolved _) => Some i
             | _ => None
             end) evs.

(** The indices whose download was logged as failed (line 145). *)
Definition failedDownloads (evs : list Event) : list nat :=
  omap (λ e, match e with
             | EvConsole Error (FailedDownload i _) => Some i
             | _ => None
             end) evs.

(** The messages written to the console. *)
Definition consoleMessages (evs : list Event) : list (Level * Message) :=
  omap (λ e, match e with EvConsole l m => Some (l, m) | _ => None end) evs.

(** The values written to the [data] cell with [setData(value)]. *)
Definition dataWrites (evs : list Event) : list (option TaskData) :=
  omap (λ e, match e with EvSetData d => Some d | _ => None end) evs.

(** The events of the hydration of documents: cache queries and writes,
    requests, handles and merges. *)
Definition documentEvent (e : Event) : bool :=
  match e with
  | EvGetAllDocuments _ _ | EvHttpGet _ _ _ _ | EvSaveDocument _ _ _ _ _
  | EvCreateObjectURL _ _ | EvAppendDocument _ | EvUpdaterTypeError => true
  | _ => false
  end.

(** The events a background call can produce. *)
Definition backgroundEvent (e : Event) : bool :=
  match e with
  | EvHttpGet _ _ _ _ | EvSaveDocument _ _ _ _ _ | EvCreateObjectURL _ _
  | EvAppendDocument _ | EvUpdaterTypeError
  | EvConsole Info (BackgroundDownloaded _ _)
  | EvConsole Error (FailedDownload _ _) => true
  | _ => false
  end.

(** Collaborators that never fail: every request resolves to a response
    whose two bodies can be read, and every [saveDocument] resolves. *)
Definition alwaysFetches (env : Env) : Prop :=
  ∀ history url, ∃ resp b j,
    http_get env history url = Resolved resp
    ∧ blob resp = Resolved b ∧ json resp = Resolved j.

Definition alwaysPersists (env : Env) : Prop :=
  ∀ history tid i b j, saveDocument env history tid i b j = Resolved tt.

(** An acknowledgment call that is never rejected, whatever it reports. *)
Definition alwaysAcknowledges (env : Env) : Prop :=
  ∀ history tid role, ∃ a, agentKeyedOn env history tid role = Resolved a.

(** What a run leaves alone: the props, the form fields, and the calls
    that were suspended before it, which stay suspended in their order. *)
Definition keepsSession (w w' : World) : Prop :=
  readOnly w' = readOnly w ∧ roleid w' = roleid w
  ∧ allFormFields w' = allFormFields w ∧ formFields w' = formFields w
  ∧ pending w `prefix_of` pending w'.

(** *** The rest of the schema effect, lines 362-401 *)

Section Validators.

(** The validators and their compiler [createZodSchema(group, partial)],
    which is not part of the sources and is taken as a total function; a
    call with one argument leaves [partial] undefined, which is [None]. *)
Context {V : Type} (createZodSchema : SchemaGroup → option bool → V).

(** The calls of state setters made by the effect. *)
Inductive SetterCall :=
  | SetAllFormFields (f : gmap string (list Group))
  | SetFormFields (f : option (list Group))
  | SetAllSchemas (s : gmap string V)
  | SetFormSchema (v : V)
  | SetPartialSchemas (s : gmap string V)
  | SetPartialFormSchema (v : V)
  | SetPrompts (p : gmap string string).

(** The [reduce] of lines 364-372 and of lines 378-386: [allSchema.type]
    and [partialSchema.type]. *)
Definition compileSchemas (partial : option bool)
    (schema : gmap string SchemaGroup)
    : gmap string V :=
  foldl (λ acc key,
           match schema !! key with
           | Some sg => <[key := createZodSchema sg partial]> acc
           | None => acc
           end)
    ∅ (map_to_list schema).*1.

(** The [reduce] of lines 397-400. *)
Definition promptsByType (schema : gmap string SchemaGroup)
    : gmap string string :=
  foldl (λ prev curr,
           match schema !! curr with
           | Some sg => <[curr := prompts sg]> prev
           | None => prev
           end)
    ∅ (map_to_list schema).*1.

(** [types[docType].schema]: the access throws when the type has no
    entry; an undefined [docType] reads the key ["undefined"]. *)
Definition schemaOf (types : gmap string V) (docType : option string)
    : Outcome V :=
  match types !! default "undefined" docType with
  | Some v => Resolved v
  | None => Rejected "TypeError"
  end.

(** The effect of lines 330-401 on a value of [data]: the setters called,
    in order, and whether the effect completes or throws.  The three
    setters of lines 403-405 pass on fields of the payload that [rest]
    stands for and are left out. *)
Definition schemaEffect (d : option TaskData) : list SetterCall * Outcome unit :=
  match d with
  | Some d =>
      match schema d with
      | Some sch =>
          if data_blank d then ([], Resolved tt)
          else
            match docTypeOf d with
            | Rejected err => ([], Rejected err)
            | Resolved docType =>
                let forms := allFormData sch in
                let allSchema := compileSchemas None sch in
                let partialSchema := compileSchemas (Some true) sch in
                let calls := [SetAllFormFields forms;
                              SetFormFields (fieldsOf forms docType);
                              SetAllSchemas allSchema] in
                match schemaOf allSchema docType with
                | Rejected err => (calls, Rejected err)
                | Resolved v =>
                    let calls := calls ++ [SetFormSchema v;
                                           SetPartialSchemas partialSchema] in
                    match schemaOf partialSchema docType with
                    | Rejected err => (calls, Rejected err)
                    | Resolved pv =>
                        (calls ++ [SetPartialFormSchema pv;
                                   SetPrompts (promptsByType sch)],
                         Resolved tt)
                    end
                end
            end
      | None => ([], Resolved tt)
      end
  | None => ([], Resolved tt)
  end.

End Validators.

(** ** Further concrete cases *)

Module Cases.

(** The task service rejects. *)
Definition envOffline : Env :=
  mkEnv (λ _ _, Rejected "Network Error")
    (getAllDocuments Scenario.env) (saveDocument Scenario.env)
    (clearTaskCache Scenario.env) (http_get Scenario.env)
    (agentKeyedOn Scenario.env) (createObjectURL Scenario.env)
    (getGenericURL Scenario.env).

(** The task service answers with the given response. *)
Definition envAnswering (response : TaskResponse) : Env :=
  mkEnv (λ _ _, Resolved response)
    (getAllDocuments Scenario.env) (saveDocument Scenario.env)
    (clearTaskCache Scenario.env) (http_get Scenario.env)
    (agentKeyedOn Scenario.env) (createObjectURL Scenario.env)
    (getGenericURL Scenario.env).

(** The metadata of every response cannot be read. *)
Definition envBadJson : Env :=
  mkEnv (getAgentTaskDetails Scenario.env) (λ _ _, Resolved [])
    (saveDocument Scenario.env) (clearTaskCache Scenario.env)
    (λ _ url, Resolved (mkHttp (Resolved ("bytes:" +:+ url))
                          (Rejected "SyntaxError")))
    (agentKeyedOn Scenario.env) (createObjectURL Scenario.env)
    (getGenericURL Scenario.env).

(** A task whose image refs are present and whose metadata refs are not. *)
Definition imagesOnly : TaskData :=
  mkTask (Some "T3")
    (Some (mkZoning ["img/0"; "img/1"] [] None None None None))
    None None false "".

(** The provider once task T1 of [Scenario] is published and hydrated. *)
Definition serving : World := Scenario.hydrated.

(** The validators of the concrete cases: the group compiled and the flag. *)
Definition compiled (sg : SchemaGroup) (partial : option bool)
    : SchemaGroup * option bool :=
  (sg, partial).


End Cases.

Example refreshedMidway_indices :
  index <$> liveDocuments Scenario.refreshedMidway = [0; 1; 2; 2].
Proof. vm_compute. reflexivity. Qed.

Example hydrated_docs :
  imageUrl <$> liveDocuments Scenario.hydrated = ["blob:0"; "blob:1"; "blob:2"]
  ∧ pending Scenario.hydrated = []
  ∧ acquired (log Scenario.hydrated) = ["blob:0"; "blob:1"; "blob:2"]
  ∧ revocations (data Scenario.hydrated) = ["blob:0"; "blob:1"; "blob:2"; "blob:0"].
Proof. vm_compute. repeat split. Qed.

Example ack_rejected :
  data (fetchData Scenario.envAckRejects Scenario.mounted) = None.
Proof. vm_compute. reflexivity. Qed.

(** ** Elementary facts *)

Lemma events_since_app (w w' : World) (evs : list Event) :
  log w' = log w ++ evs → events_since w w' = evs.
Proof. unfold events_since. intros ->. apply drop_app_length. Qed.

Lemma roleGate_setIsLoading (b : bool) (w : World) :
  roleGate (setIsLoading b w) = roleGate w.
Proof. reflexivity. Qed.

Lemma roleGate_closed (w : World) :
  readOnly w = true ∨ (roleid w ≠ Some "1" ∧ roleid w ≠ Some "15") →
  roleGate w = None.
Proof.
  unfold roleGate. intros [Hro | [H1 H15]].
  - rewrite Hro. destruct (roleid w); reflexivity.
  - destruct (roleid w) as [role|]; [|reflexivity].
    destruct (String.eqb_spec role "1") as [->|_]; [congruence|].
    destruct (String.eqb_spec role "15") as [->|_]; [congruence|].
    rewrite andb_false_r. reflexivity.
Qed.

Lemma roleGate_open (w : World) (role : string) :
  roleGate w = Some role →
  readOnly w = false ∧ roleid w = Some role ∧ (role = "1" ∨ role = "15").
Proof.
  unfold roleGate. destruct (roleid w) as [r|]; [|discriminate].
  destruct (readOnly w); [discriminate|]. cbn.
  destruct (String.eqb_spec r "1") as [->|_]; cbn.
  - intros [= <-]. auto.
  - destruct (String.eqb_spec r "15") as [->|_]; [|discriminate].
    intros [= <-]. auto.
Qed.

Lemma fetchData_closed (env : Env) (w : World) :
  roleGate w = None → fetchData env w = setIsLoading true w.
Proof.
  intros Hg. unfold fetchData. rewrite roleGate_setIsLoading, Hg. reflexivity.
Qed.

(** ** The role gate *)

(** C10.  When the session is read-only, or the stored role id is neither
    "1" nor "15", any number of invocations of the fetch pipeline (mount,
    retry timer, [refreshData], all of which call [fetchData]) only calls
    [setIsLoading(true)]: no collaborator is called, every state cell
    keeps its value except [isLoading], which is true and is never set
    back to false. *)
Theorem role_gate_closed (env : Env) (w : World) (n : nat) :
  readOnly w = true ∨ (roleid w ≠ Some "1" ∧ roleid w ≠ Some "15") →
  Nat.iter (S n) (fetchData env) w =
    mkWorld (readOnly w) (roleid w) (prevTaskIdRef w) (data w)
      (formStatus w) true (allFormFields w) (formFields w) (pending w)
      (log w ++ replicate (S n) (EvSetIsLoading true)).
Proof.
  intros Hclosed. induction n as [|n IH].
  - cbn [Nat.iter nat_rect]. rewrite fetchData_closed by (by apply roleGate_closed).
    reflexivity.
  - change (Nat.iter (S (S n)) (fetchData env) w)
      with (fetchData env (Nat.iter (S n) (fetchData env) w)).
    rewrite IH. rewrite fetchData_closed by (by apply roleGate_closed).
    rewrite (replicate_S_end (S n)), app_assoc. reflexivity.
Qed.

Lemma role_gate_closed_witness :
  Nat.iter 3 (fetchData Scenario.env)
    (mkWorld true (Some "1") None None VALID false ∅ None [] []) =
  mkWorld true (Some "1") None None VALID true ∅ None []
    (replicate 3 (EvSetIsLoading true)).
Proof.
  apply (role_gate_closed Scenario.env
           (mkWorld true (Some "1") None None VALID false ∅ None [] []) 2).
  left. reflexivity.
Defined.

(** Two worlds with the same cells are equal. *)
Lemma world_eq (w1 w2 : World) :
  readOnly w1 = readOnly w2 → roleid w1 = roleid w2 →
  prevTaskIdRef w1 = prevTaskIdRef w2 → data w1 = data w2 →
  formStatus w1 = formStatus w2 → isLoading w1 = isLoading w2 →
  allFormFields w1 = allFormFields w2 → formFields w1 = formFields w2 →
  pending w1 = pending w2 → log w1 = log w2 → w1 = w2.
Proof. destruct w1, w2; cbn; intros; by subst. Qed.

(** Reads a cell through the writes to the state cells and to the history. *)
Ltac unfold_cells :=
  cbn [setIsLoading setData setFormStatus console emit with_isLoading
       with_data with_formStatus with_prevTaskIdRef with_pending
       with_allFormFields with_formFields
       readOnly roleid prevTaskIdRef data formStatus isLoading allFormFields
       formFields pending log].

(** ** The answer of the task fetch *)

(** C6, as amended.  When the task fetch succeeds with an empty payload
    ([data] is the empty string) and signals with status code 501 that no
    task is provisioned yet, the exposed status becomes INVALID: the run
    calls no cache and no network collaborator besides the task fetch,
    the [data] cell is not written, no background call is started, and
    the condition that arms the retry timer is as before.  The empty
    payload is what makes the test of line 159 fail, so that the one of
    line 269 is made at all. *)
Theorem not_provisioned_invalid (env : Env) (w : World) (role : string)
    (resp : TaskResponse) (m : MainData) :
  roleGate w = Some role →
  getAgentTaskDetails env (log w ++ [EvSetIsLoading true]) role = Resolved resp →
  status resp = true →
  mainData resp = Some m →
  md_data m = DataEmpty →
  statusCode m = Some 501%Z →
  fetchData env w =
    mkWorld (readOnly w) (roleid w) (prevTaskIdRef w) (data w) INVALID false
      (allFormFields w) (formFields w) (pending w)
      (log w ++ [EvSetIsLoading true;
                 EvGetAgentTaskDetails role (Resolved resp);
                 EvSetFormStatus INVALID;
                 EvSetIsLoading false])
  ∧ retryTimerArmed (fetchData env w) = retryTimerArmed w.
Proof.
  intros Hgate Hfetch Hstatus Hmain Hdata Hcode.
  assert (fetchData env w =
    mkWorld (readOnly w) (roleid w) (prevTaskIdRef w) (data w) INVALID false
      (allFormFields w) (formFields w) (pending w)
      (log w ++ [EvSetIsLoading true;
                 EvGetAgentTaskDetails role (Resolved resp);
                 EvSetFormStatus INVALID;
                 EvSetIsLoading false])) as Hrun.
  { unfold fetchData. rewrite roleGate_setIsLoading, Hgate.
    unfold tryFinally, tryCatch, fetchTry, bind, call_getAgentTaskDetails.
    cbn [log setIsLoading emit with_isLoading].
    rewrite Hfetch, Hstatus, Hmain.
    unfold payloadNonEmpty, notProvisioned. rewrite Hdata, Hcode.
    cbn. apply world_eq; unfold_cells; try reflexivity.
    by rewrite <- !app_assoc. }
  split; [exact Hrun|]. rewrite Hrun. reflexivity.
Qed.

Lemma not_provisioned_invalid_witness :
  let env := mkEnv (λ _ _, Resolved (mkResponse true (Some (mkMain DataEmpty (Some 501%Z)))))
               (getAllDocuments Scenario.env) (saveDocument Scenario.env)
               (clearTaskCache Scenario.env) (http_get Scenario.env)
               (agentKeyedOn Scenario.env) (createObjectURL Scenario.env)
               (getGenericURL Scenario.env) in
  formStatus (fetchData env Scenario.mounted) = INVALID.
Proof.
  intros env.
  pose proof (not_provisioned_invalid env Scenario.mounted "1"
                (mkResponse true (Some (mkMain DataEmpty (Some 501%Z))))
                (mkMain DataEmpty (Some 501%Z))
                eq_refl eq_refl eq_refl eq_refl eq_refl eq_refl) as [H _].
  rewrite H. reflexivity.
Defined.

(** C6, as stated, fails: a successful task fetch that signals status
    code 501 and has no [data] field passes the test of line 159, made
    before the one of line 269, and takes the branch of a task.  With
    task T1 on display, the only status written is VALID, the cache of T1
    is cleared, and T1 is replaced by the absent payload. *)
Lemma provisioning_signal_without_empty_payload :
  let resp := mkResponse true (Some (mkMain DataAbsent (Some 501%Z))) in
  let w := Cases.serving in
  let w' := fetchData (Cases.envAnswering resp) w in
  notProvisioned (mainData resp) = true
  ∧ omap (λ e, match e with EvSetFormStatus st => Some st | _ => None end)
      (events_since w w') = [VALID]
  ∧ formStatus w' = VALID
  ∧ clears (events_since w w') = ["T1"]
  ∧ (data w ≫= taskid) = Some "T1"
  ∧ data w' = None.
Proof. vm_compute. repeat split. Qed.

(** ** The background loop *)

Section Background.

Variable env : Env.
Variable tid : option string.
Variable docs : ZoningDocs.

Local Abbreviation total := (length (imageurl docs)).

(** One iteration: its trace, and what it leaves untouched. *)
Lemma iteration_spec (i : nat) (w : World) :
  ∃ evs,
    log (iteration env tid docs i w) = log w ++ evs
    ∧ iterationTrace tid total i evs
    ∧ liveDocuments (iteration env tid docs i w) = liveDocuments w ++ merged evs
    ∧ pending (iteration env tid docs i w) = pending w
    ∧ (is_Some (data w) →
       is_Some (data (iteration env tid docs i w)) ∧ EvUpdaterTypeError ∉ evs).
Proof.
  unfold iteration, issueRequests, completeIteration, tryCatch, iterationTry,
    bind, await, call_saveDocument, act, appendDocument.
  cbn [fst snd].
  set (u1 := getGenericURL env (imageurl docs !! i)).
  set (u2 := getGenericURL env (jsonurl docs !! i)).
  set (r1 := http_get env (log w) u1).
  set (w1 := emit (EvHttpGet ImageRef i u1 r1) w).
  set (r2 := http_get env (log w1) u2).
  set (w2 := emit (EvHttpGet JsonRef i u2 r2) w1).
  assert (log w2 = log w ++ [EvHttpGet ImageRef i u1 r1; EvHttpGet JsonRef i u2 r2])
    as Hlog2 by (subst w2 w1; unfold_cells; by rewrite <- app_assoc).
  assert (liveDocuments w2 = liveDocuments w) as Hlive2 by reflexivity.
  assert (pending w2 = pending w) as Hpend2 by reflexivity.
  assert (data w2 = data w) as Hdata2 by reflexivity.
  clearbody w2 r1 r2. clear w1.
  assert (∀ err, fetched r1 r2 = Rejected err →
    ∃ evs,
      log (console Error (FailedDownload i err) w2) = log w ++ evs
      ∧ iterationTrace tid total i evs
      ∧ liveDocuments (console Error (FailedDownload i err) w2)
        = liveDocuments w ++ merged evs
      ∧ pending (console Error (FailedDownload i err) w2) = pending w
      ∧ (is_Some (data w) →
         is_Some (data (console Error (FailedDownload i err) w2))
         ∧ EvUpdaterTypeError ∉ evs)) as Hfailed.
  { intros err Herr. eexists. unfold_cells. rewrite Hlog2, <- app_assoc.
    split; [reflexivity|]. split; [by apply it_fetch_failed|].
    rewrite app_nil_r. repeat split; [done..|by rewrite Hdata2|set_solver]. }
  destruct r1 as [resp1|err]; cbn; [|by apply Hfailed].
  destruct r2 as [resp2|err]; cbn; [|by apply Hfailed].
  destruct (blob resp1) as [b|err] eqn:Hb; cbn;
    [|apply Hfailed; cbn; by rewrite Hb].
  destruct (json resp2) as [j|err] eqn:Hj; cbn;
    [|apply Hfailed; cbn; by rewrite Hb, Hj].
  assert (fetched (Resolved resp1) (Resolved resp2) = Resolved (b, j)) as Hfetched
    by (cbn; by rewrite Hb, Hj).
  clear Hfailed.
  destruct (saveDocument env (log w2) tid i b j) as [[]|err]; cbn.
  2:{ eexists. unfold_cells. rewrite Hlog2, <- !app_assoc. split; [reflexivity|].
      split; [by apply it_save_failed|]. rewrite app_nil_r.
      repeat split; [done..|by rewrite Hdata2|set_solver]. }
  destruct (data w2) as [prev|] eqn:Hprev; cbn.
  - eexists. unfold_cells. rewrite Hlog2, <- !app_assoc. split; [reflexivity|].
    split; [by apply it_merged|]. split; [|split; [done|]].
    + rewrite <- Hlive2. unfold liveDocuments. rewrite Hprev. cbn.
      destruct (zoningdocuments prev) as [zd|]; cbn; [|reflexivity].
      destruct (allDocuments zd); reflexivity.
    + intros _. split; [by eexists|set_solver].
  - eexists. unfold_cells. rewrite Hlog2, <- !app_assoc. split; [reflexivity|].
    split; [by apply it_no_data|]. rewrite app_nil_r.
    split; [done|]. split; [done|]. intros [? ?]; congruence.
Qed.

Lemma loop_unfold (s : nat) (w : World) :
  s < total →
  fetchRemainingDocuments_loop env tid docs s w =
  fetchRemainingDocuments_loop env tid docs (S s) (iteration env tid docs s w).
Proof.
  intros Hlt. unfold fetchRemainingDocuments_loop.
  replace (total - s) with (S (total - S s)) by lia. reflexivity.
Qed.

Lemma loop_done (s : nat) (w : World) :
  ¬ s < total → fetchRemainingDocuments_loop env tid docs s w = w.
Proof.
  intros Hge. unfold fetchRemainingDocuments_loop.
  replace (total - s) with 0 by lia. reflexivity.
Qed.

Lemma loop_spec (s : nat) (w : World) :
  ∃ chunks,
    log (fetchRemainingDocuments_loop env tid docs s w) = log w ++ concat chunks
    ∧ Forall2 (iterationTrace tid total) (seq s (total - s)) chunks
    ∧ liveDocuments (fetchRemainingDocuments_loop env tid docs s w)
      = liveDocuments w ++ merged (concat chunks)
    ∧ pending (fetchRemainingDocuments_loop env tid docs s w) = pending w
    ∧ (is_Some (data w) → EvUpdaterTypeError ∉ concat chunks).
Proof.
  remember (total - s) as n eqn:Hn. revert s w Hn.
  induction n as [|n IH]; intros s w Hn.
  - rewrite loop_done by lia. exists []. cbn. rewrite !app_nil_r.
    split; [done|]. split; [constructor|]. split; [done|].
    split; [done|]. set_solver.
  - rewrite loop_unfold by lia.
    destruct (iteration_spec s w) as (evs & Hlog & Htrace & Hlive & Hpend & Hsome).
    destruct (IH (S s) (iteration env tid docs s w) ltac:(lia))
      as (chunks & Hlog' & Htraces & Hlive' & Hpend' & Hsome').
    exists (evs :: chunks). cbn [concat seq]. split; [|split; [|split; [|split]]].
    + rewrite Hlog', Hlog, <- app_assoc. reflexivity.
    + by constructor.
    + rewrite Hlive', Hlive. unfold merged.
      rewrite omap_app, <- app_assoc. reflexivity.
    + congruence.
    + intros Hdata. destruct (Hsome Hdata) as [Hdata' Hno].
      specialize (Hsome' Hdata'). set_solver.
Qed.

End Background.

(** ** Suspended calls and the loop *)

Section Settling.

Variable env : Env.
Variable tid : option string.
Variable docs : ZoningDocs.

Local Abbreviation total := (length (imageurl docs)).

Lemma with_pending_same (p : list BgTask) (w : World) :
  pending w = [] → with_pending [] (with_pending p w) = w.
Proof. destruct w; cbn. by intros ->. Qed.

Lemma issueRequests_pending (i : nat) (w : World) :
  pending (issueRequests env docs i w).2 = pending w.
Proof. reflexivity. Qed.

Lemma completeIteration_with_pending (p : list BgTask) (i : nat)
    (r1 r2 : Outcome Response) (w : World) :
  completeIteration env tid total i r1 r2 (with_pending p w)
  = with_pending p (completeIteration env tid total i r1 r2 w).
Proof.
  unfold completeIteration, tryCatch, iterationTry, bind, await,
    call_saveDocument, act, appendDocument.
  destruct r1 as [resp1|]; [|reflexivity].
  destruct r2 as [resp2|]; [|reflexivity]. cbn.
  destruct (blob resp1); [|reflexivity].
  destruct (json resp2); [|reflexivity]. cbn.
  destruct (saveDocument _ _ _ _ _ _) as [[]|]; [|reflexivity]. cbn.
  destruct (data w); reflexivity.
Qed.

Lemma settle_idle (n : nat) (w : World) :
  pending w = [] → settle env n w = w.
Proof.
  intros Hp. unfold settle. induction n as [|n IH]; [reflexivity|].
  rewrite Nat.iter_succ_r. unfold resume at 2. rewrite Hp. exact IH.
Qed.

(** With no other call suspended, resuming the call until it ends is the
    loop run in one go. *)
Lemma settle_enter (n s : nat) (w : World) :
  pending w = [] → total - s ≤ n →
  settle env n (enterIteration env tid docs s w)
  = fetchRemainingDocuments_loop env tid docs s w.
Proof.
  revert s w. induction n as [|n IH]; intros s w Hp Hn.
  - unfold enterIteration.
    destruct (decide (s < total)); [lia|]. by rewrite loop_done.
  - unfold enterIteration at 1.
    destruct (decide (s < total)) as [Hlt|Hge].
    + rewrite loop_unfold by exact Hlt.
      unfold settle. rewrite Nat.iter_succ_r. fold (settle env n).
      unfold resume, iteration.
      destruct (issueRequests env docs s w) as [rs w1] eqn:Hissue.
      assert (pending w1 = []) as Hp1.
      { change w1 with (rs, w1).2. rewrite <- Hissue.
        by rewrite issueRequests_pending. }
      cbn [pending with_pending]. rewrite Hp1. cbn [app lookup list_lookup].
      unfold continue. cbn [bg_taskId bg_docs bg_index bg_image bg_json].
      cbn [delete list_delete].
      rewrite with_pending_same by exact Hp1.
      apply IH; [|lia].
      rewrite <- (with_pending_same [] w1) at 1 by exact Hp1.
      rewrite !completeIteration_with_pending. reflexivity.
    + rewrite settle_idle by exact Hp. by rewrite loop_done.
Qed.

Lemma iterationTrace_requests (i : nat) (evs : list Event) :
  iterationTrace tid total i evs →
  imageRequests evs = [i] ∧ jsonRequests evs = [i]
  ∧ index <$> merged evs `sublist_of` [i].
Proof.
  destruct 1; cbn; repeat split; try reflexivity;
    auto using sublist_nil_l.
Qed.

Lemma traces_requests (idx : list nat) (chunks : list (list Event)) :
  Forall2 (iterationTrace tid total) idx chunks →
  imageRequests (concat chunks) = idx ∧ jsonRequests (concat chunks) = idx
  ∧ index <$> merged (concat chunks) `sublist_of` idx.
Proof.
  induction 1 as [|i evs idx chunks Htrace _ (IHi & IHj & IHm)]; cbn.
  - auto using sublist_nil.
  - destruct (iterationTrace_requests i evs Htrace) as (Hi & Hj & Hm).
    unfold imageRequests, jsonRequests, merged in *.
    rewrite !omap_app, fmap_app, Hi, Hj, IHi, IHj.
    repeat split. by apply (sublist_app _ [i]).
Qed.

End Settling.

(** ** The background call, index after index *)






(** ** Hydration *)

Section Hydration.

Variable env : Env.
Variable d : TaskData.
Variable zd : ZoningDocs.
Hypothesis Hzoning : zoningdocuments d = Some zd.
Hypothesis Hrefs : hasFirstRefs zd = true.

Local Abbreviation N := (length (imageurl zd)).

Lemma first_refs_positive : 0 < N.
Proof.
  unfold hasFirstRefs, first_present in Hrefs.
  apply andb_true_iff in Hrefs as [Himg _].
  destruct (imageurl zd); [discriminate|cbn; lia].
Qed.

Lemma enterIteration_done (tid : option string) (k : nat) (w : World) :
  ¬ k < N → enterIteration env tid zd k w = w.
Proof.
  intros Hge. unfold enterIteration.
  by destruct (decide (k < N)).
Qed.

(** The first two requests of a call that starts at [k]. *)
Lemma enterIteration_spec (tid : option string) (k : nat) (w : World) :
  ∃ started,
    log (enterIteration env tid zd k w) = log w ++ started
    ∧ (if decide (k < N)
       then ∃ u1 u2 r1 r2,
              started = [EvHttpGet ImageRef k u1 r1; EvHttpGet JsonRef k u2 r2]
              ∧ pending (enterIteration env tid zd k w)
                = pending w ++ [mkBg tid zd k r1 r2]
       else started = []
            ∧ pending (enterIteration env tid zd k w) = pending w)
    ∧ data (enterIteration env tid zd k w) = data w.
Proof.
  unfold enterIteration, issueRequests.
  destruct (decide (k < N)).
  - eexists. cbn. rewrite <- app_assoc. split; [reflexivity|].
    split; [|reflexivity]. by repeat eexists.
  - exists []. by rewrite app_nil_r.
Qed.

Lemma hydrate_hit (w : World) (c0 : Doc) (cs : list Doc) :
  getAllDocuments env (log w) (taskid d) = Resolved (c0 :: cs) →
  hydrate env d w
  = (Resolved tt,
     enterIteration env (taskid d) zd (length (c0 :: cs))
       (publishedHit d zd c0 (c0 :: cs) w)).
Proof.
  intros Hget. unfold hydrate. rewrite Hzoning, Hrefs.
  unfold tryCatch, hydrateTry, bind, call_getAllDocuments. rewrite Hget.
  unfold cacheHit, bind, act, ret, fetchRemainingDocuments.
  destruct (decide (length (c0 :: cs) < N)) as [Hlt|Hge]; [reflexivity|].
  by rewrite enterIteration_done.
Qed.

Lemma hydrateTry_miss (w w' : World) :
  getAllDocuments env (log w) (taskid d) = Resolved [] →
  hydrateTry env d zd w = (Resolved tt, w') →
  ∃ u1 u2 resp1 resp2 b j url,
    blob resp1 = Resolved b ∧ json resp2 = Resolved j
    ∧ w' = enterIteration env (taskid d) zd 1
             (publishedMiss d zd u1 u2 resp1 resp2 b j url w).
Proof.
  intros Hget. unfold hydrateTry, bind, call_getAllDocuments. rewrite Hget.
  unfold cacheMiss, bind, await, issueRequests, call_createObjectURL,
    call_saveDocument, act, ret, fetchRemainingDocuments.
  cbn [fst snd].
  destruct (http_get env _ _) as [resp1|] eqn:H1; [|discriminate].
  destruct (http_get env _ (getGenericURL env (jsonurl zd !! 0)))
    as [resp2|] eqn:H2; [|discriminate].
  destruct (blob resp1) as [b|] eqn:Hb; [|discriminate].
  destruct (json resp2) as [j|] eqn:Hj; [|discriminate].
  destruct (saveDocument env _ _ _ _ _) as [[]|] eqn:Hs; [|discriminate].
  destruct (decide (1 < N)) as [Hlt|Hge].
  - intros [= <-]. by repeat eexists.
  - intros [= <-]. repeat eexists; [exact Hb|exact Hj|].
    by rewrite enterIteration_done.
Qed.

(** The miss path runs to its end as soon as the two requests, the
    reading of their bodies and the persisting succeed. *)
Lemma hydrateTry_miss_completes (w : World) (resp1 resp2 : Response)
    (b : Blob) (j : Json) :
  getAllDocuments env (log w) (taskid d) = Resolved [] →
  let u1 := getGenericURL env (imageurl zd !! 0) in
  let u2 := getGenericURL env (jsonurl zd !! 0) in
  let w1 := emit (EvGetAllDocuments (taskid d) (Resolved [])) w in
  http_get env (log w1) u1 = Resolved resp1 →
  let w2 := emit (EvHttpGet ImageRef 0 u1 (Resolved resp1)) w1 in
  http_get env (log w2) u2 = Resolved resp2 →
  let w3 := emit (EvHttpGet JsonRef 0 u2 (Resolved resp2)) w2 in
  blob resp1 = Resolved b →
  json resp2 = Resolved j →
  let url := createObjectURL env (log w3) b in
  let w4 := emit (EvCreateObjectURL b url) w3 in
  saveDocument env (log w4) (taskid d) 0 b j = Resolved tt →
  hydrateTry env d zd w
  = (Resolved tt,
     enterIteration env (taskid d) zd 1
       (publishedMiss d zd u1 u2 resp1 resp2 b j url w)).
Proof.
  intros Hget u1 u2 w1 H1 w2 H2 w3 Hb Hj url w4 Hsave.
  unfold hydrateTry, bind, call_getAllDocuments. rewrite Hget.
  unfold cacheMiss, bind, await, issueRequests, call_createObjectURL,
    call_saveDocument, act, ret, fetchRemainingDocuments.
  cbn [fst snd]. fold u1 u2 w1. rewrite H1. fold w2. rewrite H2. fold w3.
  rewrite Hb, Hj. fold url w4. rewrite Hsave.
  destruct (decide (1 < N)) as [Hlt|Hge]; [reflexivity|].
  by rewrite enterIteration_done.
Qed.

(** A miss that fails leaves no call suspended. *)
Lemma hydrateTry_failed (w w' : World) (err : string) :
  hydrateTry env d zd w = (Rejected err, w') → pending w' = pending w.
Proof.
  unfold hydrateTry, bind, call_getAllDocuments.
  destruct (getAllDocuments env (log w) (taskid d)) as [[|c0 cs]|].
  - unfold cacheMiss, bind, await, issueRequests, call_createObjectURL,
      call_saveDocument, act, ret, fetchRemainingDocuments.
    cbn [fst snd].
    destruct (http_get env _ _) as [resp1|]; [|by intros [= _ <-]].
    destruct (http_get env _ _) as [resp2|]; [|by intros [= _ <-]].
    destruct (blob resp1) as [b|]; [|by intros [= _ <-]].
    destruct (json resp2) as [j|]; [|by intros [= _ <-]].
    destruct (saveDocument env _ _ _ _ _) as [[]|]; [|by intros [= _ <-]].
    destruct (decide _); discriminate.
  - unfold cacheHit, bind, act, ret. destruct (decide _); discriminate.
  - by intros [= _ <-].
Qed.

(** Whatever the cache and the network answer, hydration ends in a world
    [wp] followed by the start of a background call at some [k ≤ N]: [wp]
    holds the cached documents and [k] is their number, or [wp] holds
    document 0 and [k] is 1, or [wp] holds no document and [k] is [N]. *)
Lemma hydrate_shape (w : World) :
  ∃ k wp,
    (hydrate env d w).2 = enterIteration env (taskid d) zd k wp
    ∧ pending wp = pending w
    ∧ ((∃ c0 cs, getAllDocuments env (log w) (taskid d) = Resolved (c0 :: cs)
                 ∧ k = length (c0 :: cs) ∧ liveDocuments wp = c0 :: cs)
       ∨ (k = 1 ∧ ∃ doc, index doc = 0 ∧ liveDocuments wp = [doc])
       ∨ (k = N ∧ liveDocuments wp = [])).
Proof.
  destruct (getAllDocuments env (log w) (taskid d)) as [[|c0 cs]|err] eqn:Hget.
  - destruct (hydrateTry env d zd w) as [[[]|err] w'] eqn:Htry.
    + destruct (hydrateTry_miss w w' Hget Htry)
        as (u1 & u2 & resp1 & resp2 & b & j & url & _ & _ & ->).
      exists 1, (publishedMiss d zd u1 u2 resp1 resp2 b j url w).
      unfold hydrate. rewrite Hzoning, Hrefs. unfold tryCatch. rewrite Htry.
      split; [reflexivity|]. split; [reflexivity|]. right; left.
      split; [reflexivity|]. eexists. split; [|reflexivity]. reflexivity.
    + exists N, (setFormStatus VALID (setData (Some (withoutZoning d)) w')).
      unfold hydrate. rewrite Hzoning, Hrefs. unfold tryCatch. rewrite Htry.
      rewrite enterIteration_done by lia. split; [reflexivity|].
      split; [exact (hydrateTry_failed w w' err Htry)|]. by right; right.
  - exists (length (c0 :: cs)), (publishedHit d zd c0 (c0 :: cs) w).
    rewrite (hydrate_hit w c0 cs Hget). split; [reflexivity|].
    split; [reflexivity|]. left. by exists c0, cs.
  - exists N, (setFormStatus VALID (setData (Some (withoutZoning d))
                 (emit (EvGetAllDocuments (taskid d) (Rejected err)) w))).
    rewrite enterIteration_done by lia.
    unfold hydrate. rewrite Hzoning, Hrefs.
    unfold tryCatch, hydrateTry, bind, call_getAllDocuments. rewrite Hget.
    split; [reflexivity|]. split; [reflexivity|]. by right; right.
Qed.

End Hydration.

Lemma publishedHit_log (d : TaskData) (zd : ZoningDocs) (c0 : Doc)
    (cached : list Doc) (w : World) :
  log (publishedHit d zd c0 cached w)
  = log w ++ [EvGetAllDocuments (taskid d) (Resolved cached);
              EvConsole Info (UsingCached (length cached));
              EvSetData (Some (enrichedFromCache d zd c0 cached));
              EvSetFormStatus VALID].
Proof. unfold publishedHit. unfold_cells. by rewrite <- !app_assoc. Qed.

Lemma publishedMiss_log (d : TaskData) (zd : ZoningDocs) (u1 u2 : string)
    (resp1 resp2 : Response) (b : Blob) (j : Json) (url : string) (w : World) :
  log (publishedMiss d zd u1 u2 resp1 resp2 b j url w)
  = log w ++ [EvGetAllDocuments (taskid d) (Resolved []);
              EvHttpGet ImageRef 0 u1 (Resolved resp1);
              EvHttpGet JsonRef 0 u2 (Resolved resp2);
              EvCreateObjectURL b url;
              EvSaveDocument (taskid d) 0 b j (Resolved tt);
              EvSetData (Some (enrichedFromNetwork d zd url j));
              EvSetFormStatus VALID].
Proof. unfold publishedMiss. unfold_cells. by rewrite <- !app_assoc. Qed.

(** The requests of a background call run to its end from [wp], seen from
    an earlier world [w]. *)
Lemma settled_requests (env : Env) (tid : option string) (zd : ZoningDocs)
    (k : nat) (w wp : World) (pre : list Event) :
  log wp = log w ++ pre → pending wp = [] →
  let N := length (imageurl zd) in
  let w'' := settle env N (enterIteration env tid zd k wp) in
  pending w'' = []
  ∧ imageRequests (events_since w w'') = imageRequests pre ++ seq k (N - k)
  ∧ jsonRequests (events_since w w'') = jsonRequests pre ++ seq k (N - k).
Proof.
  intros Hpre Hp N w''. subst w''.
  rewrite settle_enter by (done || lia).
  destruct (loop_spec env tid zd k wp) as (chunks & Hlog & Htr & _ & Hpend & _).
  destruct (traces_requests tid zd _ _ Htr) as (Hi & Hj & _).
  split; [congruence|].
  rewrite (events_since_app w _ (pre ++ concat chunks))
    by (by rewrite Hlog, Hpre, <- app_assoc).
  unfold imageRequests, jsonRequests in *. rewrite !omap_app, Hi, Hj. done.
Qed.

(** ** The two paths of the hydration *)

(** C1.  Cache hit.  For a task whose first image and metadata refs are
    present (so that it has [N > 0] refs), when [getAllDocuments(taskId)]
    resolves to [k > 0] cached documents, the payload published has
    [currentDocument] made of the image and the data of the first cached
    document, [allDocuments] equal to the cached sequence and [fromCache]
    true; the hydration issues requests for index [k] only, and only when
    [k < N], in which case a background call is left suspended at [k];
    run to its end, the pipeline requests exactly the indices [k], ...,
    [N - 1], so none below [k]. *)
Theorem cache_hit_path (env : Env) (d : TaskData) (zd : ZoningDocs)
    (w : World) (c0 : Doc) (cs : list Doc) :
  zoningdocuments d = Some zd →
  hasFirstRefs zd = true →
  getAllDocuments env (log w) (taskid d) = Resolved (c0 :: cs) →
  let cached := c0 :: cs in
  let k := length cached in
  let N := length (imageurl zd) in
  let payload := enrichedFromCache d zd c0 cached in
  let w' := (hydrate env d w).2 in
  0 < N
  ∧ (zoningdocuments payload ≫= currentDocument)
    = Some (mkCurrent (imageUrl c0) (jsonData c0))
  ∧ (zoningdocuments payload ≫= allDocuments) = Some cached
  ∧ (zoningdocuments payload ≫= fromCache) = Some true
  ∧ data w' = Some payload
  ∧ (∃ started,
       events_since w w'
       = [EvGetAllDocuments (taskid d) (Resolved cached);
          EvConsole Info (UsingCached k);
          EvSetData (Some payload);
          EvSetFormStatus VALID] ++ started
       ∧ if decide (k < N)
         then ∃ u1 u2 r1 r2,
                started = [EvHttpGet ImageRef k u1 r1; EvHttpGet JsonRef k u2 r2]
                ∧ pending w' = pending w ++ [mkBg (taskid d) zd k r1 r2]
         else started = [] ∧ pending w' = pending w)
  ∧ (pending w = [] →
     let w'' := settle env N w' in
     pending w'' = []
     ∧ imageRequests (events_since w w'') = seq k (N - k)
     ∧ jsonRequests (events_since w w'') = seq k (N - k)).
Proof.
  intros Hz Hr Hget cached k N payload w'. subst w'.
  rewrite (hydrate_hit env d zd Hz Hr w c0 cs Hget). cbn [snd].
  fold cached k.
  pose proof (publishedHit_log d zd c0 cached w) as Hpub.
  destruct (enterIteration_spec env zd (taskid d) k (publishedHit d zd c0 cached w))
    as (started & Hlog & Hcase & Hdata).
  split; [exact (first_refs_positive zd Hr)|].
  do 3 (split; [reflexivity|]).
  split; [by rewrite Hdata|].
  split.
  - exists started. split.
    + apply events_since_app. by rewrite Hlog, Hpub, <- app_assoc.
    + exact Hcase.
  - intros Hp.
    exact (settled_requests env (taskid d) zd k w _ _ Hpub Hp).
Qed.

Lemma cache_hit_path_witness :
  let cached := [mkDoc 0 "blob:cached/a" "{}"] in
  let env := mkEnv (getAgentTaskDetails Scenario.env)
               (λ _ _, Resolved cached) (saveDocument Scenario.env)
               (clearTaskCache Scenario.env) (http_get Scenario.env)
               (agentKeyedOn Scenario.env) (createObjectURL Scenario.env)
               (getGenericURL Scenario.env) in
  imageRequests
    (events_since Scenario.mounted
       (settle env 3 (hydrate env Scenario.task Scenario.mounted).2))
  = [1; 2].
Proof.
  intros cached env.
  pose proof (cache_hit_path env Scenario.task Scenario.refs Scenario.mounted
                (mkDoc 0 "blob:cached/a" "{}") [] eq_refl eq_refl eq_refl)
    as (_ & _ & _ & _ & _ & _ & Hsettled).
  destruct (Hsettled eq_refl) as (_ & Himg & _). exact Himg.
Defined.

(** C2.  Cache miss.  For a task whose first image and metadata refs are
    present, when [getAllDocuments(taskId)] resolves to the empty sequence
    and the miss path runs to its end (nothing it awaits is rejected),
    exactly one pair of requests, image then metadata, is issued for index
    0 before the payload is published, the document is persisted under
    [(taskId, 0)], the payload published has [currentDocument] and
    [allDocuments = [doc0]] made of the handle and the data of that
    document and [fromCache] false; requests for index 1 follow and a
    background call is left suspended at 1 exactly when [N > 1]; run to
    its end, the pipeline requests each of the indices [0], ..., [N - 1]
    once. *)
Theorem cache_miss_path (env : Env) (d : TaskData) (zd : ZoningDocs)
    (w w' : World) :
  zoningdocuments d = Some zd →
  hasFirstRefs zd = true →
  getAllDocuments env (log w) (taskid d) = Resolved [] →
  hydrateTry env d zd w = (Resolved tt, w') →
  let N := length (imageurl zd) in
  ∃ u1 u2 resp1 resp2 b j url started,
    let payload := enrichedFromNetwork d zd url j in
    blob resp1 = Resolved b ∧ json resp2 = Resolved j
    ∧ (hydrate env d w).2 = w'
    ∧ events_since w w'
      = [EvGetAllDocuments (taskid d) (Resolved []);
         EvHttpGet ImageRef 0 u1 (Resolved resp1);
         EvHttpGet JsonRef 0 u2 (Resolved resp2);
         EvCreateObjectURL b url;
         EvSaveDocument (taskid d) 0 b j (Resolved tt);
         EvSetData (Some payload);
         EvSetFormStatus VALID] ++ started
    ∧ (if decide (1 < N)
       then ∃ v1 v2 r1 r2,
              started = [EvHttpGet ImageRef 1 v1 r1; EvHttpGet JsonRef 1 v2 r2]
              ∧ pending w' = pending w ++ [mkBg (taskid d) zd 1 r1 r2]
       else started = [] ∧ pending w' = pending w)
    ∧ data w' = Some payload
    ∧ (zoningdocuments payload ≫= currentDocument) = Some (mkCurrent url j)
    ∧ (zoningdocuments payload ≫= allDocuments) = Some [mkDoc 0 url j]
    ∧ (zoningdocuments payload ≫= fromCache) = Some false
    ∧ (pending w = [] →
       let w'' := settle env N w' in
       pending w'' = []
       ∧ imageRequests (events_since w w'') = seq 0 N
       ∧ jsonRequests (events_since w w'') = seq 0 N).
Proof.
  intros Hz Hr Hget Htry N.
  destruct (hydrateTry_miss env d zd w w' Hget Htry)
    as (u1 & u2 & resp1 & resp2 & b & j & url & Hb & Hj & ->).
  pose proof (publishedMiss_log d zd u1 u2 resp1 resp2 b j url w) as Hpub.
  destruct (enterIteration_spec env zd (taskid d) 1
              (publishedMiss d zd u1 u2 resp1 resp2 b j url w))
    as (started & Hlog & Hcase & Hdata).
  exists u1, u2, resp1, resp2, b, j, url, started. cbn zeta.
  split; [exact Hb|]. split; [exact Hj|].
  split.
  { unfold hydrate. rewrite Hz, Hr. unfold tryCatch. by rewrite Htry. }
  split.
  { apply events_since_app. by rewrite Hlog, Hpub, <- app_assoc. }
  split; [exact Hcase|].
  split; [by rewrite Hdata|].
  do 3 (split; [reflexivity|]).
  intros Hp.
  destruct (settled_requests env (taskid d) zd 1 w _ _ Hpub Hp)
    as (Hpend & Hi & Hjs).
  pose proof (first_refs_positive zd Hr) as Hpos. fold N in Hpos, Hi, Hjs.
  split; [exact Hpend|].
  rewrite Hi, Hjs. clearbody N. destruct N as [|n]; [lia|].
  cbn. by rewrite Nat.sub_0_r.
Qed.

Lemma cache_miss_path_witness :
  imageRequests
    (events_since Scenario.mounted
       (settle Scenario.env 3
          (hydrateTry Scenario.env Scenario.task Scenario.refs
             Scenario.mounted).2))
  = [0; 1; 2].
Proof.
  destruct (cache_miss_path Scenario.env Scenario.task Scenario.refs
              Scenario.mounted
              (hydrateTry Scenario.env Scenario.task Scenario.refs
                 Scenario.mounted).2
              eq_refl eq_refl eq_refl eq_refl)
    as (u1 & u2 & resp1 & resp2 & b & j & url & started & _ & _ & _ & _ & _
        & _ & _ & _ & _ & Hsettled).
  destruct (Hsettled eq_refl) as (_ & Himg & _). exact Himg.
Defined.

(** ** The steps of [fetchData] on a task *)

Section Ready.

Variable env : Env.

Ltac solve_elem := intros; set_solver.

(** The event looked for is the first of the list. *)
Ltac elem_first :=
  repeat first [ apply elem_of_cons; left; reflexivity
               | apply elem_of_app; left ].

Lemma clears_app (l1 l2 : list Event) :
  clears (l1 ++ l2) = clears l1 ++ clears l2.
Proof. apply omap_app. Qed.

Lemma adoptTask_spec (taskId : option string) (w : World) :
  let w' := adoptTask env taskId w in
  prevTaskIdRef w' = taskId
  ∧ readOnly w' = readOnly w ∧ roleid w' = roleid w ∧ data w' = data w
  ∧ formStatus w' = formStatus w ∧ isLoading w' = isLoading w
  ∧ pending w' = pending w
  ∧ ∃ evs,
      log w' = log w ++ evs
      ∧ clears evs
        = (if truthy (prevTaskIdRef w)
              && bool_decide (prevTaskIdRef w ≠ taskId)
           then option_list (prevTaskIdRef w) else [])
      ∧ (∀ prev err, EvClearTaskCache prev (Rejected err) ∈ evs →
                     EvConsole Warn (ClearFailed err) ∈ evs)
      ∧ ∀ p, EvSetData p ∉ evs.
Proof.
  unfold adoptTask. destruct (prevTaskIdRef w) as [prev|] eqn:Hprev.
  2:{ cbn. repeat split; try done. exists []. rewrite app_nil_r.
      repeat split; try done; solve_elem. }
  destruct (truthy (Some prev) && bool_decide (Some prev ≠ taskId)).
  2:{ cbn. repeat split; try done. exists []. rewrite app_nil_r.
      repeat split; try done; solve_elem. }
  unfold fire_clearTaskCache.
  destruct (clearTaskCache env _ prev) as [[]|err] eqn:Hclear;
    unfold_cells; (repeat split; try done); eexists;
    rewrite <- !app_assoc; (split; [reflexivity|]); cbn;
    (split; [reflexivity|]); split.
  all: solve_elem.
Qed.

Lemma enterIteration_frame (tid : option string) (zd : ZoningDocs) (k : nat)
    (w : World) :
  let w' := enterIteration env tid zd k w in
  readOnly w' = readOnly w ∧ roleid w' = roleid w
  ∧ prevTaskIdRef w' = prevTaskIdRef w ∧ formStatus w' = formStatus w
  ∧ data w' = data w
  ∧ ∃ evs, log w' = log w ++ evs ∧ clears evs = []
           ∧ ∀ p, EvSetData p ∉ evs.
Proof.
  unfold enterIteration, issueRequests.
  destruct (decide _); cbn.
  - repeat split. eexists. rewrite <- app_assoc. split; [reflexivity|].
    split; [reflexivity|]. solve_elem.
  - repeat split. exists []. rewrite app_nil_r. split; [done|].
    split; [done|]. solve_elem.
Qed.

(** The hydration of a task object always completes, with the outcome
    described by [hydrationOutcome]. *)
Lemma hydrate_frame (d : TaskData) (w : World) :
  ∃ w', hydrate env d w = (Resolved tt, w') ∧ hydrationOutcome d w w'.
Proof.
  assert (∀ w0,
    (∀ zd, zoningdocuments d = Some zd → hasFirstRefs zd = true → False) →
    ∃ w', (act (setFormStatus VALID) ;;; act (setData (Some d)))%act w0
          = (Resolved tt, w')
          ∧ hydrationOutcome d w0 w') as Hplain.
  { intros w0 Hno. eexists. unfold bind, act. split; [reflexivity|].
    eexists _, d. unfold_cells. rewrite <- app_assoc.
    repeat split; [solve_elem|]. intros zd Hz Hr. destruct (Hno zd Hz Hr). }
  assert (∀ w0 evs0 r, log w0 = log w ++ evs0 → clears evs0 = [] →
    EvGetAllDocuments (taskid d) r ∈ evs0 →
    readOnly w0 = readOnly w → roleid w0 = roleid w →
    prevTaskIdRef w0 = prevTaskIdRef w →
    ∃ w',
      (act (setData (Some (withoutZoning d))) ;;; act (setFormStatus VALID))%act w0
      = (Resolved tt, w')
      ∧ hydrationOutcome d w w') as Hcatch.
  { intros w0 evs0 r Hlog0 Hcl0 Hin0 Hro0 Hrl0 Hprev0.
    eexists. unfold bind, act. split; [reflexivity|].
    eexists _, (withoutZoning d). unfold_cells. rewrite Hlog0, <- !app_assoc.
    repeat split; [done..| | |].
    - rewrite !clears_app, Hcl0. reflexivity.
    - solve_elem.
    - intros _ _ _. exists r. solve_elem. }
  unfold hydrate.
  destruct (zoningdocuments d) as [zd|] eqn:Hz;
    [|apply Hplain; intros; discriminate].
  destruct (hasFirstRefs zd) eqn:Hr;
    [|apply Hplain; intros ? [= <-]; congruence].
  unfold tryCatch, hydrateTry, bind, call_getAllDocuments.
  destruct (getAllDocuments env (log w) (taskid d)) as [[|c0 cs]|err].
  - unfold cacheMiss, bind, await, issueRequests, call_createObjectURL,
      call_saveDocument, act, ret, fetchRemainingDocuments.
    cbn [fst snd].
    destruct (http_get env _ _) as [resp1|].
    2:{ eapply Hcatch; unfold_cells; rewrite <- ?app_assoc;
          [done|done|elem_first|done..]. }
    destruct (http_get env _ _) as [resp2|].
    2:{ eapply Hcatch; unfold_cells; rewrite <- ?app_assoc;
          [done|done|elem_first|done..]. }
    destruct (blob resp1) as [b|].
    2:{ eapply Hcatch; unfold_cells; rewrite <- ?app_assoc;
          [done|done|elem_first|done..]. }
    destruct (json resp2) as [j|].
    2:{ eapply Hcatch; unfold_cells; rewrite <- ?app_assoc;
          [done|done|elem_first|done..]. }
    destruct (saveDocument env _ _ _ _ _) as [[]|].
    2:{ eapply Hcatch; unfold_cells; rewrite <- ?app_assoc;
          [done|done|elem_first|done..]. }
    destruct (decide _).
    + match goal with
      | |- context [enterIteration env ?t zd ?k ?w0] =>
          pose proof (enterIteration_frame t zd k w0)
            as (Hro & Hrl & Hp & Hf & Hd & evs & Hl & Hc & _)
      end.
      eexists. split; [reflexivity|]. eexists _, _.
      rewrite Hro, Hrl, Hp, Hf, Hd, Hl.
      unfold_cells. rewrite <- !app_assoc. repeat split.
      * rewrite !clears_app, Hc. reflexivity.
      * solve_elem.
      * intros _ _ _. eexists. elem_first.
    + eexists. split; [reflexivity|]. eexists _, _. unfold_cells.
      rewrite <- !app_assoc. repeat split; [solve_elem|].
      intros _ _ _. eexists. elem_first.
  - unfold cacheHit, bind, act, ret, fetchRemainingDocuments.
    destruct (decide _).
    + match goal with
      | |- context [enterIteration env ?t zd ?k ?w0] =>
          pose proof (enterIteration_frame t zd k w0)
            as (Hro & Hrl & Hp & Hf & Hd & evs & Hl & Hc & _)
      end.
      eexists. split; [reflexivity|]. eexists _, _.
      rewrite Hro, Hrl, Hp, Hf, Hd, Hl.
      unfold_cells. rewrite <- !app_assoc. repeat split.
      * rewrite !clears_app, Hc. reflexivity.
      * solve_elem.
      * intros _ _ _. eexists. elem_first.
    + eexists. split; [reflexivity|]. eexists _, _. unfold_cells.
      rewrite <- !app_assoc. repeat split; [solve_elem|].
      intros _ _ _. eexists. elem_first.
  - eapply Hcatch; unfold_cells; [done|done|elem_first|done..].
Qed.

(** The run of [fetchData] on a task object: the task is adopted, its
    hydration initiated, then the acknowledgment call is made; a rejection
    of that call reaches the outer [catch]. *)
Lemma fetchData_ready (w : World) (role : string) (resp : TaskResponse)
    (d : TaskData) :
  roleGate w = Some role →
  getAgentTaskDetails env (log w ++ [EvSetIsLoading true]) role = Resolved resp →
  status resp = true →
  payloadObject (mainData resp) = Some d →
  fetchData env w
  = setIsLoading false
      match acknowledge env (taskid d) role (hydrationInitiated env role resp d w)
      with
      | (Resolved _, w') => w'
      | (Rejected err, w') => setData None (console Error (ErrorFetching err) w')
      end.
Proof.
  intros Hgate Hfetch Hstatus Hobj.
  unfold fetchData. rewrite roleGate_setIsLoading, Hgate.
  unfold tryFinally, tryCatch, fetchTry. unfold bind at 1.
  unfold call_getAgentTaskDetails.
  change (log (setIsLoading true w)) with (log w ++ [EvSetIsLoading true]).
  rewrite Hfetch, Hstatus.
  assert (payloadNonEmpty (mainData resp) = true) as ->.
  { unfold payloadObject, payloadNonEmpty in *.
    destruct (mainData resp) as [m|]; [|done]. by destruct (md_data m). }
  cbn [andb]. unfold adoptAndHydrate. rewrite Hobj. cbn [mbind option_bind].
  unfold hydrationInitiated, taskFetched.
  destruct (hydrate_frame d
              (adoptTask env (taskid d)
                 (emit (EvGetAgentTaskDetails role (Resolved resp))
                    (setIsLoading true w)))) as (wh & Hh & _).
  unfold bind, act. rewrite Hh. cbn [snd].
  destruct (acknowledge env (taskid d) role wh) as [[[]|err] w5]; reflexivity.
Qed.

Lemma clears_nil_not_in (evs : list Event) (prev : string) (r : Outcome unit) :
  clears evs = [] → EvClearTaskCache prev r ∉ evs.
Proof.
  intros Hnil Hin. apply list_elem_of_split in Hin as (l1 & l2 & ->).
  rewrite clears_app in Hnil. cbn in Hnil.
  by apply app_eq_nil in Hnil as [_ ?].
Qed.

Lemma acknowledge_frame (taskId : option string) (role : string) (w : World) :
  ∃ r wk evs,
    acknowledge env taskId role w = (r, wk)
    ∧ readOnly wk = readOnly w ∧ roleid wk = roleid w
    ∧ prevTaskIdRef wk = prevTaskIdRef w ∧ data wk = data w
    ∧ formStatus wk = formStatus w ∧ pending wk = pending w
    ∧ log wk = log w ++ evs
    ∧ clears evs = []
    ∧ ∀ p, EvSetData p ∉ evs.
Proof.
  unfold acknowledge.
  destruct taskId as [t|].
  2:{ eexists _, _, []. rewrite app_nil_r. repeat split. solve_elem. }
  destruct (truthy (Some t)).
  2:{ eexists _, _, []. rewrite app_nil_r. repeat split. solve_elem. }
  unfold bind, call_agentKeyedOn, act.
  destruct (agentKeyedOn env (log w) t role) as [a|err].
  - destruct (ack_status a); eexists _, _, _; (split; [reflexivity|]);
      unfold_cells; rewrite <- ?app_assoc; repeat split; solve_elem.
  - eexists _, _, _; (split; [reflexivity|]); unfold_cells.
    repeat split. solve_elem.
Qed.

(** What a run of [fetchData] on a task object shows: the ref holds the
    id of the task, the cache of the previous task is cleared exactly when
    the ref held a present id different from it, a rejected clearing is
    logged, and a payload of the task is published. *)
Lemma fetchData_ready_obs (w : World) (role : string) (resp : TaskResponse)
    (d : TaskData) :
  roleGate w = Some role →
  getAgentTaskDetails env (log w ++ [EvSetIsLoading true]) role = Resolved resp →
  status resp = true →
  payloadObject (mainData resp) = Some d →
  roleGate (fetchData env w) = Some role
  ∧ prevTaskIdRef (fetchData env w) = taskid d
  ∧ clears (events_since w (fetchData env w))
    = (if truthy (prevTaskIdRef w) && bool_decide (prevTaskIdRef w ≠ taskid d)
       then option_list (prevTaskIdRef w) else [])
  ∧ (∀ prev err,
       EvClearTaskCache prev (Rejected err) ∈ events_since w (fetchData env w) →
       EvConsole Warn (ClearFailed err) ∈ events_since w (fetchData env w))
  ∧ ∃ p, EvSetData (Some p) ∈ events_since w (fetchData env w)
         ∧ taskid p = taskid d.
Proof.
  intros Hgate Hfetch Hstatus Hobj.
  rewrite (fetchData_ready w role resp d Hgate Hfetch Hstatus Hobj).
  unfold hydrationInitiated.
  pose proof (adoptTask_spec (taskid d) (taskFetched role resp w))
    as (Hprev & Hro & Hrl & _ & _ & _ & _ & evsA & HlogA & HclA & HwarnA & _).
  cbn zeta in *.
  set (wa := adoptTask env (taskid d) (taskFetched role resp w)) in *.
  destruct (hydrate_frame d wa)
    as (wh & -> & evsH & p & HroH & HrlH & HprevH & _ & _ & Htid & HlogH
        & HclH & HpubH & _).
  cbn [snd].
  destruct (acknowledge_frame (taskid d) role wh)
    as (r & w5 & evsK & -> & HroK & HrlK & HprevK & _ & _ & _ & HlogK & HclK & _).
  assert (∃ evsE wf,
    setIsLoading false
      match r with
      | Resolved _ => w5
      | Rejected err => setData None (console Error (ErrorFetching err) w5)
      end = wf
    ∧ readOnly wf = readOnly w5 ∧ roleid wf = roleid w5
    ∧ prevTaskIdRef wf = prevTaskIdRef w5
    ∧ log wf = log w5 ++ evsE ∧ clears evsE = [])
    as (evsE & wf & -> & HroE & HrlE & HprevE & HlogE & HclE).
  { destruct r as [[]|err]; eexists _, _; (split; [reflexivity|]);
      unfold_cells; rewrite <- ?app_assoc; by repeat split. }
  assert (log wf = log w
    ++ ([EvSetIsLoading true; EvGetAgentTaskDetails role (Resolved resp)]
        ++ evsA ++ evsH ++ evsK ++ evsE)) as Hlog.
  { rewrite HlogE, HlogK, HlogH, HlogA. unfold taskFetched. unfold_cells.
    by rewrite <- !app_assoc. }
  rewrite (events_since_app _ _ _ Hlog).
  split.
  { unfold roleGate in *. rewrite HroE, HrlE, HroK, HrlK, HroH, HrlH, Hro, Hrl.
    exact Hgate. }
  split; [by rewrite HprevE, HprevK, HprevH|].
  split.
  { rewrite !clears_app, HclA, HclH, HclK, HclE. cbn. by rewrite !app_nil_r. }
  split.
  - intros prev err Hin.
    assert (EvClearTaskCache prev (Rejected err) ∈ evsA) as HinA.
    { rewrite !elem_of_app in Hin. destruct Hin as [Hin|[Hin|[Hin|[Hin|Hin]]]].
      - set_solver.
      - exact Hin.
      - by apply clears_nil_not_in in Hin.
      - by apply clears_nil_not_in in Hin.
      - by apply clears_nil_not_in in Hin. }
    specialize (HwarnA prev err HinA). set_solver.
  - exists p. split; [|exact Htid]. set_solver.
Qed.

End Ready.

(** ** Task switch *)

(** C5.  For two consecutive runs of [fetchData] whose task fetches succeed
    and yield the task objects [dA] and [dB], with task ids [A] and [B]:
    after the first run the ref holds [A], after the second it holds [B];
    the second run calls [clearTaskCache] exactly once, with [A], when [A]
    is a present id and differs from [B], and not at all when [B] is [A]
    or when there is no previous id; a rejected [clearTaskCache] is logged
    with a warning and does not stop the adoption of [B], whose ref is
    set and whose payload is published in every case; and the first run
    clears nothing when the ref held no previous id. *)
Theorem task_switch_eviction (env : Env) (w0 : World) (role : string)
    (respA respB : TaskResponse) (dA dB : TaskData) :
  roleGate w0 = Some role →
  getAgentTaskDetails env (log w0 ++ [EvSetIsLoading true]) role
  = Resolved respA →
  status respA = true →
  payloadObject (mainData respA) = Some dA →
  let w1 := fetchData env w0 in
  getAgentTaskDetails env (log w1 ++ [EvSetIsLoading true]) role
  = Resolved respB →
  status respB = true →
  payloadObject (mainData respB) = Some dB →
  let w2 := fetchData env w1 in
  let A := taskid dA in
  let B := taskid dB in
  prevTaskIdRef w1 = A
  ∧ prevTaskIdRef w2 = B
  ∧ clears (events_since w1 w2)
    = (if truthy A && bool_decide (A ≠ B) then option_list A else [])
  ∧ (∀ prev err,
       EvClearTaskCache prev (Rejected err) ∈ events_since w1 w2 →
       EvConsole Warn (ClearFailed err) ∈ events_since w1 w2)
  ∧ (∃ p, EvSetData (Some p) ∈ events_since w1 w2 ∧ taskid p = B)
  ∧ (truthy (prevTaskIdRef w0) = false → clears (events_since w0 w1) = []).
Proof.
  intros Hgate HfetchA HstatusA HobjA w1 HfetchB HstatusB HobjB w2 A B.
  destruct (fetchData_ready_obs env w0 role respA dA Hgate HfetchA HstatusA HobjA)
    as (Hgate1 & Hprev1 & Hclears1 & _ & _).
  destruct (fetchData_ready_obs env w1 role respB dB Hgate1 HfetchB HstatusB HobjB)
    as (_ & Hprev2 & Hclears2 & Hwarn2 & Hpub2).
  fold w1 in Hprev1, Hclears1, Hprev2, Hclears2, Hwarn2, Hpub2.
  fold w2 in Hprev2, Hclears2, Hwarn2, Hpub2.
  split; [exact Hprev1|]. split; [exact Hprev2|].
  split; [by rewrite Hclears2, Hprev1|].
  split; [exact Hwarn2|]. split; [exact Hpub2|].
  intros Hnone. rewrite Hclears1, Hnone. reflexivity.
Qed.

Lemma task_switch_eviction_witness :
  let w1 := fetchData Scenario.envTwoTasks Scenario.mounted in
  let w2 := fetchData Scenario.envTwoTasks w1 in
  clears (events_since w1 w2) = ["T1"] ∧ prevTaskIdRef w2 = Some "T2".
Proof.
  intros w1 w2.
  pose proof (task_switch_eviction Scenario.envTwoTasks Scenario.mounted "1"
                Scenario.taskResponse
                (mkResponse true
                   (Some (mkMain (DataObj Scenario.nextTask) None)))
                Scenario.task Scenario.nextTask
                eq_refl eq_refl eq_refl eq_refl
                ltac:(vm_compute; reflexivity) eq_refl eq_refl)
    as (_ & Hprev & Hclears & _).
  split; [exact Hclears|exact Hprev].
Defined.

(** ** The acknowledgment call *)

(** C9, as amended.  For a successful task fetch whose payload is a task
    object with a present task id, the acknowledgment call is made after
    the hydration has been initiated (after the payload is published and,
    when the first refs are present, after the cache is queried), and a
    failure that the call reports in its result (status false) is only
    logged: the run ends with the [data] cell, the status, the ref and
    the suspended calls as the hydration left them, the task still
    published and the status VALID. *)
Theorem acknowledgment_reported_failure (env : Env) (w : World)
    (role : string) (resp : TaskResponse) (d : TaskData) (tid : string)
    (a : AckResponse) :
  roleGate w = Some role →
  getAgentTaskDetails env (log w ++ [EvSetIsLoading true]) role = Resolved resp →
  status resp = true →
  payloadObject (mainData resp) = Some d →
  taskid d = Some tid →
  tid ≠ "" →
  let wh := hydrationInitiated env role resp d w in
  agentKeyedOn env (log wh) tid role = Resolved a →
  ack_status a = false →
  let w' := fetchData env w in
  w' = setIsLoading false
         (console Error (KeyedOnFailed (ack_info a))
            (emit (EvAgentKeyedOn tid role (Resolved a)) wh))
  ∧ data w' = data wh
  ∧ (∃ p, data w' = Some p ∧ taskid p = Some tid)
  ∧ formStatus w' = VALID
  ∧ prevTaskIdRef w' = Some tid
  ∧ pending w' = pending wh
  ∧ ∃ before,
      events_since w wh = before
      ∧ events_since w w'
        = before ++ [EvAgentKeyedOn tid role (Resolved a);
                     EvConsole Error (KeyedOnFailed (ack_info a));
                     EvSetIsLoading false]
      ∧ (∃ p, EvSetData (Some p) ∈ before)
      ∧ (∀ zd, zoningdocuments d = Some zd → hasFirstRefs zd = true →
               ∃ r, EvGetAllDocuments (Some tid) r ∈ before).
Proof.
  intros Hgate Hfetch Hstatus Hobj Htid Hne wh Hack Hrefused w'.
  assert (w' = setIsLoading false
                 (console Error (KeyedOnFailed (ack_info a))
                    (emit (EvAgentKeyedOn tid role (Resolved a)) wh))) as Hrun.
  { subst w'. rewrite (fetchData_ready env w role resp d Hgate Hfetch Hstatus Hobj).
    fold wh. unfold acknowledge. rewrite Htid.
    assert (truthy (Some tid) = true) as ->.
    { cbn. by destruct (String.eqb_spec tid ""). }
    unfold bind, call_agentKeyedOn, act. rewrite Hack, Hrefused. reflexivity. }
  pose proof (adoptTask_spec env (taskid d) (taskFetched role resp w))
    as (Hprev & _ & _ & _ & _ & _ & _ & evsA & HlogA & _).
  cbn zeta in Hprev, HlogA.
  destruct (hydrate_frame env d (adoptTask env (taskid d) (taskFetched role resp w)))
    as (wh' & Hh & evsH & p & _ & _ & HprevH & Hvalid & Hdata & Hp & HlogH
        & _ & Hpub & Hquery).
  assert (wh = wh') as Hwh by (subst wh; unfold hydrationInitiated; by rewrite Hh).
  rewrite <- Hwh in *. clear Hwh Hh wh'.
  assert (log wh = log w
    ++ ([EvSetIsLoading true; EvGetAgentTaskDetails role (Resolved resp)]
        ++ evsA ++ evsH)) as Hlogwh.
  { rewrite HlogH, HlogA. unfold taskFetched. unfold_cells.
    by rewrite <- !app_assoc. }
  split; [exact Hrun|]. rewrite Hrun. unfold_cells.
  split; [reflexivity|].
  split; [exists p; by rewrite <- Htid|].
  split; [exact Hvalid|].
  split; [by rewrite HprevH, Hprev|].
  split; [reflexivity|].
  eexists. split; [exact (events_since_app _ _ _ Hlogwh)|].
  split.
  { apply events_since_app. unfold_cells. rewrite Hlogwh.
    by rewrite <- !app_assoc. }
  split.
  - exists p. set_solver.
  - intros zd Hz Hr. destruct (Hquery zd Hz Hr) as [r Hin].
    exists r. rewrite <- Htid. set_solver.
Qed.

Lemma acknowledgment_reported_failure_witness :
  data (fetchData Scenario.envAckRefused Scenario.mounted)
  = data (hydrationInitiated Scenario.envAckRefused "1" Scenario.taskResponse
            Scenario.task Scenario.mounted).
Proof.
  pose proof (acknowledgment_reported_failure Scenario.envAckRefused
                Scenario.mounted "1" Scenario.taskResponse Scenario.task "T1"
                (mkAck false "refused")
                eq_refl eq_refl eq_refl eq_refl eq_refl
                ltac:(discriminate) eq_refl eq_refl)
    as (_ & Hdata & _).
  exact Hdata.
Defined.

(** C9, as stated, fails: when the acknowledgment call is rejected, the
    rejection reaches the outer [catch] of [fetchData], which sets the
    task that was just published back to null. *)
Lemma acknowledgment_rejection_nulls_task :
  let w' := fetchData Scenario.envAckRejects Scenario.mounted in
  (∃ p, EvSetData (Some p) ∈ log w' ∧ taskid p = Some "T1")
  ∧ EvAgentKeyedOn "T1" "1" (Rejected "Network Error") ∈ log w'
  ∧ EvSetData None ∈ log w'
  ∧ data w' = None.
Proof.
  vm_compute. split; [|split; [|split]].
  - eexists. split.
    + repeat first [apply list_elem_of_here | apply list_elem_of_further].
    + reflexivity.
  - repeat first [apply list_elem_of_here | apply list_elem_of_further].
  - repeat first [apply list_elem_of_here | apply list_elem_of_further].
  - reflexivity.
Qed.

(** ** The indices of [allDocuments] *)

Section Indices.

Variable env : Env.

Lemma completeIteration_spec (tid : option string) (total i : nat)
    (r1 r2 : Outcome Response) (w : World) :
  ∃ ms,
    liveDocuments (completeIteration env tid total i r1 r2 w)
    = liveDocuments w ++ ms
    ∧ index <$> ms `sublist_of` [i]
    ∧ pending (completeIteration env tid total i r1 r2 w) = pending w.
Proof.
  unfold completeIteration, tryCatch, iterationTry, bind, await,
    call_saveDocument, act, appendDocument.
  assert (∀ w0, liveDocuments w0 = liveDocuments w → pending w0 = pending w →
    ∃ ms, liveDocuments w0 = liveDocuments w ++ ms
          ∧ index <$> ms `sublist_of` [i] ∧ pending w0 = pending w) as Hsame.
  { intros w0 Hl Hp. exists []. rewrite app_nil_r. auto using sublist_nil_l. }
  destruct r1 as [resp1|]; [|by apply Hsame].
  destruct r2 as [resp2|]; [|by apply Hsame]. cbn.
  destruct (blob resp1) as [b|]; [|by apply Hsame].
  destruct (json resp2) as [j|]; [|by apply Hsame]. cbn.
  destruct (saveDocument _ _ _ _ _ _) as [[]|]; [|by apply Hsame]. cbn.
  destruct (data w) as [prev|] eqn:Hprev; cbn.
  - eexists [_]. split.
    + unfold liveDocuments. rewrite Hprev. cbn.
      destruct (zoningdocuments prev) as [zd|]; cbn; [|reflexivity].
      destruct (allDocuments zd); reflexivity.
    + split; reflexivity.
  - apply Hsame; unfold liveDocuments; cbn; by rewrite ?Hprev.
Qed.

(** A single suspended call, resumed until it ends. *)
Lemma settle_one (n : nat) (t : BgTask) (w : World) :
  pending w = [t] →
  bg_index t < length (imageurl (bg_docs t)) →
  length (imageurl (bg_docs t)) - bg_index t ≤ n →
  settle env n w
  = fetchRemainingDocuments_loop env (bg_taskId t) (bg_docs t) (S (bg_index t))
      (completeIteration env (bg_taskId t) (length (imageurl (bg_docs t)))
         (bg_index t) (bg_image t) (bg_json t) (with_pending [] w)).
Proof.
  intros Hp Hlt Hn. destruct n as [|n]; [lia|].
  unfold settle. rewrite Nat.iter_succ_r. fold (settle env n).
  unfold resume. rewrite Hp. cbn [lookup list_lookup delete list_delete].
  unfold continue. apply settle_enter; [|lia].
  rewrite completeIteration_with_pending. reflexivity.
Qed.

Lemma sublist_indicesWithin (N : nat) (docs : list Doc) :
  index <$> docs `sublist_of` seq 0 N → indicesWithin N docs.
Proof.
  intros Hsub. split; [|split].
  - apply sublist_length in Hsub. by rewrite length_fmap, length_seq in Hsub.
  - eapply sublist_NoDup; [apply NoDup_seq|exact Hsub].
  - apply Forall_forall. intros x Hx.
    assert (index x ∈ seq 0 N) as Hin.
    { eapply elem_of_sublist; [|exact Hsub]. by apply list_elem_of_fmap_2. }
    apply elem_of_seq in Hin. lia.
Qed.

Lemma sublist_seq_le (l : list nat) (k N : nat) :
  l `sublist_of` seq 0 k → k ≤ N → l `sublist_of` seq 0 N.
Proof.
  intros Hsub Hle. replace N with (k + (N - k)) by lia.
  rewrite seq_app. by apply sublist_inserts_r.
Qed.

End Indices.

(** C3, as amended.  For a task with [N] refs whose first refs are
    present, and a cache that answers [getAllDocuments] with documents
    indexed [0], ..., [k-1] for some [k ≤ N]: after a single run of the
    pipeline that starts with no background call suspended and is not
    followed by another run ([fetchData], then its background call resumed
    until it ends), no call is left suspended and [allDocuments] holds at
    most [N] entries, with pairwise distinct indices in [[0, N)]. *)
Theorem single_run_indices (env : Env) (w : World) (role : string)
    (resp : TaskResponse) (d : TaskData) (zd : ZoningDocs) :
  roleGate w = Some role →
  pending w = [] →
  getAgentTaskDetails env (log w ++ [EvSetIsLoading true]) role = Resolved resp →
  status resp = true →
  payloadObject (mainData resp) = Some d →
  zoningdocuments d = Some zd →
  hasFirstRefs zd = true →
  let N := length (imageurl zd) in
  (∀ history cached,
     getAllDocuments env history (taskid d) = Resolved cached →
     index <$> cached = seq 0 (length cached) ∧ length cached ≤ N) →
  let w' := settle env N (fetchData env w) in
  pending w' = [] ∧ indicesWithin N (liveDocuments w').
Proof.
  intros Hgate Hidle Hfetch Hstatus Hobj Hz Hr N Hcache w'. subst w'.
  rewrite (fetchData_ready env w role resp d Hgate Hfetch Hstatus Hobj).
  unfold hydrationInitiated.
  pose proof (adoptTask_spec env (taskid d) (taskFetched role resp w))
    as (_ & _ & _ & _ & _ & _ & HpendA & _).
  cbn zeta in HpendA.
  set (wa := adoptTask env (taskid d) (taskFetched role resp w)) in *.
  assert (pending wa = []) as Hpa by (rewrite HpendA; exact Hidle).
  destruct (hydrate_shape env d zd Hz Hr wa) as (k & wp & -> & Hpp & Hshape).
  rewrite Hpa in Hpp.
  (* the documents published and the index at which the call starts *)
  assert (k ≤ N ∧ index <$> liveDocuments wp `sublist_of` seq 0 k) as [Hk Hsub].
  { destruct Hshape as [(c0 & cs & Hget & -> & ->)|[(-> & doc & Hdoc & ->)|(-> & ->)]].
    - destruct (Hcache _ _ Hget) as [-> Hle]. done.
    - pose proof (first_refs_positive zd Hr). fold N in H.
      split; [lia|]. cbn. by rewrite Hdoc.
    - split; [done|]. apply sublist_nil_l. }
  destruct (enterIteration_spec env zd (taskid d) k wp)
    as (started & _ & Hstart & Hdata). fold N in Hstart.
  set (wh := enterIteration env (taskid d) zd k wp) in *.
  assert (liveDocuments wh = liveDocuments wp) as Hlive
    by (unfold liveDocuments; by rewrite Hdata).
  (* the acknowledgment and the end of [fetchData] *)
  destruct (acknowledge_frame env (taskid d) role wh)
    as (r & w5 & evsK & -> & _ & _ & _ & Hdata5 & _ & Hpend5 & _).
  set (wf := setIsLoading false _).
  assert (pending wf = pending wh
          ∧ index <$> liveDocuments wf `sublist_of` seq 0 k) as [Hpf Hsubf].
  { subst wf. destruct r as [[]|err]; unfold_cells; (split; [done|]).
    - unfold liveDocuments. unfold_cells. rewrite Hdata5.
      by rewrite <- Hlive in Hsub.
    - apply sublist_nil_l. }
  clearbody wf. clear Hdata5 Hpend5 w5 evsK r.
  destruct (decide (k < N)) as [Hlt|Hge].
  - destruct Hstart as (u1 & u2 & r1 & r2 & _ & Hpendh).
    rewrite Hpp in Hpendh. cbn in Hpendh. rewrite Hpendh in Hpf.
    rewrite (settle_one env N (mkBg (taskid d) zd k r1 r2) wf Hpf)
      by (cbn; fold N; lia).
    cbn [bg_taskId bg_docs bg_index bg_image bg_json]. fold N.
    destruct (completeIteration_spec env (taskid d) N k r1 r2 (with_pending [] wf))
      as (ms & Hlivec & Hms & Hpendc).
    set (wc := completeIteration env (taskid d) N k r1 r2 (with_pending [] wf)) in *.
    destruct (loop_spec env (taskid d) zd (S k) wc)
      as (chunks & _ & Htr & Hlivel & Hpendl & _).
    destruct (traces_requests (taskid d) zd _ _ Htr) as (_ & _ & Hmerged).
    fold N in Hmerged.
    split; [by rewrite Hpendl, Hpendc|].
    apply sublist_indicesWithin.
    rewrite Hlivel, Hlivec, !fmap_app.
    change (liveDocuments (with_pending [] wf)) with (liveDocuments wf).
    replace (seq 0 N) with (seq 0 k ++ [k] ++ seq (S k) (N - S k)).
    + rewrite <- app_assoc.
      apply sublist_app; [exact Hsubf|]. apply sublist_app; [exact Hms|].
      exact Hmerged.
    + replace N with (k + S (N - S k)) at 2 by lia.
      rewrite seq_app. reflexivity.
  - destruct Hstart as (_ & Hpendh). rewrite Hpp in Hpendh.
    rewrite Hpendh in Hpf.
    rewrite settle_idle by exact Hpf. split; [exact Hpf|].
    apply sublist_indicesWithin. by apply (sublist_seq_le _ k).
Qed.

Lemma single_run_indices_witness :
  indicesWithin 3
    (liveDocuments
       (settle Scenario.envColdCache 3
          (fetchData Scenario.envColdCache Scenario.mounted))).
Proof.
  refine (proj2 (single_run_indices Scenario.envColdCache Scenario.mounted "1"
                   Scenario.taskResponse Scenario.task Scenario.refs
                   eq_refl eq_refl eq_refl eq_refl eq_refl eq_refl eq_refl _)).
  intros history cached [= <-]. split; [reflexivity|cbn; lia].
Defined.

(** C3, as stated, fails across an intervening refresh: with three refs
    and an empty cache, the provider fetches, the background call merges
    document 1, the consumer refreshes (the cache then holds documents 0
    and 1, and a second background call starts at index 2), and both
    calls run to their end: no call is left suspended and [allDocuments]
    holds four entries, two of them with index 2. *)
Lemma refresh_duplicates_documents :
  length (imageurl Scenario.refs) = 3
  ∧ pending Scenario.refreshedMidway = []
  ∧ index <$> liveDocuments Scenario.refreshedMidway = [0; 1; 2; 2]
  ∧ ¬ indicesWithin 3 (liveDocuments Scenario.refreshedMidway).
Proof.
  split; [reflexivity|]. split; [by vm_compute|].
  split; [by vm_compute|].
  intros (Hlen & _). vm_compute in Hlen. lia.
Qed.

(** The same failure without any overlap: a document that failed to
    download leaves a gap in the cache, and the next run starts the
    background call at the number of cached documents. *)
Example gap_in_cache_duplicates :
  let cached := [mkDoc 0 "blob:cached/a" "{}"; mkDoc 2 "blob:cached/c" "{}"] in
  let env := mkEnv (getAgentTaskDetails Scenario.env)
               (λ _ _, Resolved cached) (saveDocument Scenario.env)
               (clearTaskCache Scenario.env) (http_get Scenario.env)
               (agentKeyedOn Scenario.env) (createObjectURL Scenario.env)
               (getGenericURL Scenario.env) in
  index <$> liveDocuments (settle env 3 (fetchData env Scenario.mounted))
  = [0; 2; 2].
Proof. by vm_compute. Qed.

(** ** The clean-up of object URLs *)

Lemma elem_of_filter_bool {A} (f : A → bool) (l : list A) (x : A) :
  x ∈ List.filter f l ↔ f x = true ∧ x ∈ l.
Proof.
  rewrite !list_elem_of_In, filter_In. tauto.
Qed.

Lemma cleanup_log (d : option TaskData) (w : World) :
  log (cleanup d w) = log w ++ (EvRevokeObjectURL <$> revocations d).
Proof.
  unfold cleanup. generalize (revocations d). intros l. revert w.
  induction l as [|url l IH]; intros w; cbn.
  - by rewrite app_nil_r.
  - rewrite IH. unfold_cells. by rewrite <- app_assoc.
Qed.

(** C7, as amended.  Every time the clean-up of a snapshot of [data] runs
    (when [data] is replaced and when the provider unmounts), it releases
    the blob handles the snapshot refers to from the entries of
    [allDocuments], from [currentDocument] and from the first element of
    the legacy [imageurl], and nothing else: a URL is revoked if and only
    if it starts with "blob:" and the snapshot refers to it in one of the
    three places, the revocations being made in that order of places, one
    for each reference. *)
Theorem cleanup_releases_referenced (d : option TaskData) (w : World) :
  released (events_since w (cleanup d w)) = revocations d
  ∧ acquired (events_since w (cleanup d w)) = []
  ∧ revocations d
    = List.filter is_blob_url
        (imageUrl <$> default [] ((d ≫= zoningdocuments) ≫= allDocuments))
      ++ List.filter is_blob_url
           (cur_imageUrl <$> option_list ((d ≫= zoningdocuments) ≫= currentDocument))
      ++ List.filter is_blob_url
           (option_list ((d ≫= zoningdocuments) ≫= (λ z, imageurl z !! 0)))
  ∧ ∀ url, url ∈ revocations d ↔ is_blob_url url = true ∧ refersTo d url.
Proof.
  rewrite (events_since_app _ _ _ (cleanup_log d w)).
  split; [|split; [|split; [reflexivity|]]].
  - unfold released. induction (revocations d) as [|url l IH]; [done|].
    cbn. by rewrite IH.
  - unfold acquired. induction (revocations d) as [|url l IH]; [done|].
    cbn. by rewrite IH.
  - intros url. unfold revocations, refersTo.
    rewrite !elem_of_app, !elem_of_filter_bool.
    destruct ((d ≫= zoningdocuments) ≫= currentDocument) as [c|];
      destruct ((d ≫= zoningdocuments) ≫= (λ z, imageurl z !! 0)) as [u|];
      cbn; rewrite ?elem_of_cons, ?elem_of_nil; naive_solver.
Qed.

(** C7, as stated, fails: after a fetch on an empty cache and the
    background hydration of the three documents, three handles have been
    acquired; the clean-up of the snapshot releases the handle of document
    0 twice, once for its entry of [allDocuments] and once for
    [currentDocument]. *)
Lemma first_handle_released_twice :
  let w := Scenario.hydrated in
  let w' := cleanup (data w) w in
  acquired (log w') = ["blob:0"; "blob:1"; "blob:2"]
  ∧ released (log w') = ["blob:0"; "blob:1"; "blob:2"; "blob:0"]
  ∧ ¬ releasedExactlyOnce (acquired (log w')) (released (log w')).
Proof.
  intros w w'.
  assert (acquired (log w') = ["blob:0"; "blob:1"; "blob:2"]) as Hacq
    by (by vm_compute).
  assert (released (log w') = ["blob:0"; "blob:1"; "blob:2"; "blob:0"]) as Hrel
    by (by vm_compute).
  split; [exact Hacq|]. split; [exact Hrel|].
  rewrite Hacq, Hrel. intros Honce.
  specialize (Honce "blob:0" ltac:(apply list_elem_of_here)).
  vm_compute in Honce. discriminate.
Qed.

(** ** The projection of the schema *)

Lemma projectGroups_omap (sg : SchemaGroup) :
  projectGroups sg
  = omap (λ sl, List.find (λ prop, String.eqb (id prop) sl) (group sg))
      (groupList sg).
Proof.
  unfold projectGroups.
  assert (∀ l acc,
    foldl (λ acc sl,
             match List.find (λ prop, String.eqb (id prop) sl) (group sg) with
             | Some section => acc ++ [section]
             | None => acc
             end) acc l
    = acc ++ omap (λ sl, List.find (λ prop, String.eqb (id prop) sl) (group sg)) l)
    as Hgen.
  { induction l as [|sl l IH]; intros acc; cbn.
    - by rewrite app_nil_r.
    - rewrite IH. destruct (List.find _ _); [|done].
      by rewrite <- app_assoc. }
  apply Hgen.
Qed.

Lemma find_theEntry (sl : string) (g : list Group) :
  NoDup (id <$> g) →
  List.find (λ prop, String.eqb (id prop) sl) g = theEntry sl g.
Proof.
  unfold theEntry. induction g as [|x g IH]; [done|].
  rewrite fmap_cons, NoDup_cons. intros [Hnotin Hnodup].
  rewrite filter_cons. cbn [List.find]. destruct (String.eqb_spec (id x) sl) as [Heq|Hne].
  - rewrite decide_True by done.
    assert (filter (λ prop, id prop = sl) g = []) as ->; [|done].
    destruct (filter (λ prop, id prop = sl) g) as [|y l] eqn:Hf; [done|].
    assert (y ∈ filter (λ prop, id prop = sl) g) as Hy
      by (rewrite Hf; apply list_elem_of_here).
    apply list_elem_of_filter in Hy as [Hid Hy]. destruct Hnotin.
    rewrite Heq, <- Hid. by apply list_elem_of_fmap_2.
  - rewrite decide_False by done. by apply IH.
Qed.

Lemma projectGroups_spec (sg : SchemaGroup) :
  NoDup (id <$> group sg) → projectGroups sg = projection_spec sg.
Proof.
  intros Hnodup. rewrite projectGroups_omap. unfold projection_spec.
  induction (groupList sg) as [|sl l IH]; [done|].
  cbn. rewrite IH. by rewrite find_theEntry.
Qed.

Lemma allFormData_lookup (sch : gmap string SchemaGroup) (ll : string) :
  allFormData sch !! ll = projectGroups <$> sch !! ll.
Proof.
  unfold allFormData.
  assert (∀ (ks : list string) (acc : gmap string (list Group)),
    foldl (λ accl ll,
             match sch !! ll with
             | Some sg => <[ll := projectGroups sg]> accl
             | None => accl
             end) acc ks !! ll
    = if decide (ll ∈ ks ∧ is_Some (sch !! ll))
      then projectGroups <$> sch !! ll else acc !! ll) as Hgen.
  { induction ks as [|k ks IH]; intros acc; cbn.
    - rewrite decide_False; [done|]. set_solver.
    - rewrite IH. destruct (decide (ll ∈ ks ∧ is_Some (sch !! ll))) as [[Hin Hs]|Hno].
      + rewrite decide_True; [done|]. set_solver.
      + destruct (decide (k = ll)) as [->|Hne].
        * destruct (sch !! ll) as [sg|] eqn:Hsg.
          -- rewrite lookup_insert_eq. rewrite decide_True; [done|].
             split; [set_solver|by eexists].
          -- rewrite decide_False; [done|]. intros [_ [? ?]]. done.
        * rewrite decide_False by set_solver.
          destruct (sch !! k); [by rewrite lookup_insert_ne|done]. }
  rewrite Hgen. rewrite lookup_empty.
  destruct (sch !! ll) as [sg|] eqn:Hsg.
  - rewrite decide_True; [done|]. split; [|by eexists].
    apply list_elem_of_fmap. exists (ll, sg). split; [done|].
    by apply elem_of_map_to_list.
  - rewrite decide_False; [done|]. intros [_ [? ?]]. done.
Qed.

(** C8.  For a task payload that carries a schema (and passes the guard of
    the effect, the document type being readable), the effect publishes as
    [allFormFields] the aggregate [allFormData]; for every docType of the
    schema, its field-group sequence is obtained by mapping each id of
    [groupList], in order, to the one entry of [group] with that id, the
    ids without an entry being dropped, and a docType that the schema does
    not have gets no sequence.  The ids of a [group] are those of a set:
    pairwise distinct. *)
Theorem schema_field_projection (w : World) (d : TaskData)
    (sch : gmap string SchemaGroup) (docType : option string) :
  data w = Some d →
  schema d = Some sch →
  data_blank d = false →
  docTypeOf d = Resolved docType →
  (∀ ll sg, sch !! ll = Some sg → NoDup (id <$> group sg)) →
  let w' := (deriveFormFields w).2 in
  allFormFields w' = allFormData sch
  ∧ formFields w' = fieldsOf (allFormData sch) docType
  ∧ events_since w w'
    = [EvSetAllFormFields (allFormData sch);
       EvSetFormFields (fieldsOf (allFormData sch) docType)]
  ∧ ∀ ll, allFormData sch !! ll = projection_spec <$> sch !! ll.
Proof.
  intros Hdata Hsch Hblank Hdoc Hset w'. subst w'.
  unfold deriveFormFields. rewrite Hdata, Hsch, Hblank, Hdoc. cbn [snd].
  unfold_cells. split; [done|]. split; [done|]. split.
  { apply events_since_app. unfold_cells. by rewrite <- app_assoc. }
  intros ll. rewrite allFormData_lookup.
  destruct (sch !! ll) as [sg|] eqn:Hsg; [|done]. cbn.
  f_equal. apply projectGroups_spec. by eapply Hset.
Qed.

Lemma schema_field_projection_witness :
  allFormData Scenario.invoiceSchema !! "INV"
  = Some [mkGroup "header" "number,date"; mkGroup "lines" "quantity,price"].
Proof.
  pose proof (schema_field_projection
                (with_data (Some Scenario.schemaTask) Scenario.mounted)
                Scenario.schemaTask Scenario.invoiceSchema (Some "INV")
                eq_refl eq_refl eq_refl eq_refl) as Hproj.
  destruct Hproj as (_ & _ & _ & Hlookup).
  - intros ll sg Hsg. unfold Scenario.invoiceSchema in Hsg.
    apply lookup_singleton_Some in Hsg as [_ <-].
    apply (bool_decide_unpack _). by vm_compute.
  - rewrite Hlookup. unfold Scenario.invoiceSchema.
    rewrite lookup_singleton_eq. by vm_compute.
Defined.

(** * Further properties of the provider *)

(** ** The outcomes of [fetchData] *)

(** X1.  Whatever the collaborators answer, a run of [fetchData] whose role
    gate is open ends by lowering the loading flag: the [finally] of line
    278 is the last thing the run does. *)
Theorem fetchData_lowers_loading (env : Env) (w : World) (role : string) :
  roleGate w = Some role →
  isLoading (fetchData env w) = false
  ∧ last (log (fetchData env w)) = Some (EvSetIsLoading false).
Proof.
  intros Hgate. unfold fetchData. rewrite roleGate_setIsLoading, Hgate.
  unfold tryFinally.
  destruct (tryCatch _ _ _) as [r w2]. cbn [snd]. unfold_cells.
  split; [reflexivity|]. apply last_snoc.
Qed.

Lemma fetchData_lowers_loading_witness :
  isLoading (fetchData Cases.envOffline Scenario.mounted) = false.
Proof.
  exact (proj1 (fetchData_lowers_loading Cases.envOffline Scenario.mounted "1"
                  eq_refl)).
Defined.

Lemma gate_not_readOnly (w : World) (role : string) :
  roleGate w = Some role → readOnly w = false.
Proof. intros Hgate. by destruct (roleGate_open w role Hgate) as (? & _). Qed.

(** X2.  When the task fetch is rejected, the error is logged, the task is
    set to null and the flag lowered; the status, the ref of the previous
    task, the form fields and the suspended calls are as before, no cache
    or network call is made, and the condition that arms the retry timer
    holds. *)
Theorem task_fetch_rejected (env : Env) (w : World) (role err : string) :
  roleGate w = Some role →
  getAgentTaskDetails env (log w ++ [EvSetIsLoading true]) role = Rejected err →
  fetchData env w =
    mkWorld (readOnly w) (roleid w) (prevTaskIdRef w) None (formStatus w)
      false (allFormFields w) (formFields w) (pending w)
      (log w ++ [EvSetIsLoading true;
                 EvGetAgentTaskDetails role (Rejected err);
                 EvConsole Error (ErrorFetching err);
                 EvSetData None;
                 EvSetIsLoading false])
  ∧ retryTimerArmed (fetchData env w) = true.
Proof.
  intros Hgate Hfetch.
  assert (fetchData env w =
    mkWorld (readOnly w) (roleid w) (prevTaskIdRef w) None (formStatus w)
      false (allFormFields w) (formFields w) (pending w)
      (log w ++ [EvSetIsLoading true;
                 EvGetAgentTaskDetails role (Rejected err);
                 EvConsole Error (ErrorFetching err);
                 EvSetData None;
                 EvSetIsLoading false])) as Hrun.
  { unfold fetchData. rewrite roleGate_setIsLoading, Hgate.
    unfold tryFinally, tryCatch, fetchTry, bind, call_getAgentTaskDetails, act.
    change (log (setIsLoading true w)) with (log w ++ [EvSetIsLoading true]).
    rewrite Hfetch. cbn [snd].
    apply world_eq; unfold_cells; try reflexivity. by rewrite <- !app_assoc. }
  split; [exact Hrun|]. rewrite Hrun. unfold retryTimerArmed. cbn.
  by rewrite (gate_not_readOnly w role Hgate).
Qed.

Lemma task_fetch_rejected_witness :
  data (fetchData Cases.envOffline Cases.serving) = None
  ∧ retryTimerArmed (fetchData Cases.envOffline Cases.serving) = true.
Proof.
  destruct (task_fetch_rejected Cases.envOffline Cases.serving "1"
              "Network Error" eq_refl eq_refl) as [Hrun Harmed].
  split; [by rewrite Hrun|exact Harmed].
Defined.

(** X3.  When the task fetch resolves without a task (its status is falsy,
    or its payload is empty and its status code is not 501), the task is
    set to null without any log; the exposed status is not changed, even
    when a falsy status comes with the status code 501; nothing else is
    called, and the condition that arms the retry timer holds. *)
Theorem no_task_clears_data (env : Env) (w : World) (role : string)
    (resp : TaskResponse) :
  roleGate w = Some role →
  getAgentTaskDetails env (log w ++ [EvSetIsLoading true]) role = Resolved resp →
  status resp = false
  ∨ (payloadNonEmpty (mainData resp) = false
     ∧ notProvisioned (mainData resp) = false) →
  fetchData env w =
    mkWorld (readOnly w) (roleid w) (prevTaskIdRef w) None (formStatus w)
      false (allFormFields w) (formFields w) (pending w)
      (log w ++ [EvSetIsLoading true;
                 EvGetAgentTaskDetails role (Resolved resp);
                 EvSetData None;
                 EvSetIsLoading false])
  ∧ retryTimerArmed (fetchData env w) = true.
Proof.
  intros Hgate Hfetch Hcase.
  assert (fetchData env w =
    mkWorld (readOnly w) (roleid w) (prevTaskIdRef w) None (formStatus w)
      false (allFormFields w) (formFields w) (pending w)
      (log w ++ [EvSetIsLoading true;
                 EvGetAgentTaskDetails role (Resolved resp);
                 EvSetData None;
                 EvSetIsLoading false])) as Hrun.
  { unfold fetchData. rewrite roleGate_setIsLoading, Hgate.
    unfold tryFinally, tryCatch, fetchTry. unfold bind at 1.
    unfold call_getAgentTaskDetails, act.
    change (log (setIsLoading true w)) with (log w ++ [EvSetIsLoading true]).
    rewrite Hfetch.
    assert (status resp && payloadNonEmpty (mainData resp) = false
            ∧ status resp && notProvisioned (mainData resp) = false)
      as [-> ->].
    { destruct Hcase as [-> | [-> ->]]; [done|]. by rewrite !andb_false_r. }
    cbn [snd]. apply world_eq; unfold_cells; try reflexivity.
    by rewrite <- !app_assoc. }
  split; [exact Hrun|]. rewrite Hrun. unfold retryTimerArmed. cbn.
  by rewrite (gate_not_readOnly w role Hgate).
Qed.

Lemma no_task_clears_data_witness :
  let refused := mkResponse false (Some (mkMain DataEmpty (Some 501%Z))) in
  formStatus (fetchData (Cases.envAnswering refused) Scenario.mounted) = VALID
  ∧ data (fetchData (Cases.envAnswering refused) Cases.serving) = None.
Proof.
  intros refused. split.
  - destruct (no_task_clears_data (Cases.envAnswering refused) Scenario.mounted
                "1" refused eq_refl eq_refl (or_introl eq_refl)) as [-> _].
    reflexivity.
  - destruct (no_task_clears_data (Cases.envAnswering refused) Cases.serving
                "1" refused eq_refl eq_refl (or_introl eq_refl)) as [-> _].
    reflexivity.
Defined.

Lemma adoptTask_documents (env : Env) (taskId : option string) (w : World)
    (evs : list Event) :
  log (adoptTask env taskId w) = log w ++ evs →
  filter documentEvent evs = [].
Proof.
  unfold adoptTask, fire_clearTaskCache.
  destruct (prevTaskIdRef w) as [prev|].
  2:{ unfold_cells. rewrite <- (app_nil_r (log w)) at 1.
      by intros <-%app_inv_head. }
  destruct (truthy (Some prev) && bool_decide (Some prev ≠ taskId)).
  2:{ unfold_cells. rewrite <- (app_nil_r (log w)) at 1.
      by intros <-%app_inv_head. }
  destruct (clearTaskCache env _ prev) as [[]|err]; unfold_cells;
    rewrite <- !app_assoc; by intros <-%app_inv_head.
Qed.

Lemma acknowledge_documents (env : Env) (taskId : option string)
    (role : string) (w : World) (evs : list Event) :
  log (acknowledge env taskId role w).2 = log w ++ evs →
  filter documentEvent evs = [].
Proof.
  unfold acknowledge.
  destruct taskId as [t|].
  2:{ cbn. rewrite <- (app_nil_r (log w)) at 1. by intros <-%app_inv_head. }
  destruct (truthy (Some t)).
  2:{ cbn. rewrite <- (app_nil_r (log w)) at 1. by intros <-%app_inv_head. }
  unfold bind, call_agentKeyedOn, act.
  destruct (agentKeyedOn env (log w) t role) as [a|err].
  - destruct (ack_status a); cbn [snd]; unfold_cells; rewrite <- ?app_assoc;
      by intros <-%app_inv_head.
  - cbn [snd]; unfold_cells. by intros <-%app_inv_head.
Qed.

(** X4.  When the task fetch resolves with a truthy status and a payload
    that is neither empty nor an object (the response has no [data], or a
    null one), the run takes the branch of a task: the cache of the
    previous task is cleared if there was one, the ref is reset, the
    status is set to VALID and the [data] cell to the absent payload, no
    document is hydrated and no acknowledgment is sent. *)
Theorem absent_payload_resets (env : Env) (w : World) (role : string)
    (resp : TaskResponse) :
  roleGate w = Some role →
  getAgentTaskDetails env (log w ++ [EvSetIsLoading true]) role = Resolved resp →
  status resp = true →
  payloadNonEmpty (mainData resp) = true →
  payloadObject (mainData resp) = None →
  let w' := fetchData env w in
  w' = setIsLoading false
         (setData None
            (setFormStatus VALID
               (adoptTask env None (taskFetched role resp w))))
  ∧ prevTaskIdRef w' = None
  ∧ data w' = None
  ∧ formStatus w' = VALID
  ∧ pending w' = pending w
  ∧ clears (events_since w w')
    = (if truthy (prevTaskIdRef w) then option_list (prevTaskIdRef w) else [])
  ∧ filter documentEvent (events_since w w') = []
  ∧ retryTimerArmed w' = true.
Proof.
  intros Hgate Hfetch Hstatus Hnonempty Hobj w'.
  assert (w' = setIsLoading false
                 (setData None
                    (setFormStatus VALID
                       (adoptTask env None (taskFetched role resp w))))) as Hrun.
  { subst w'. unfold fetchData. rewrite roleGate_setIsLoading, Hgate.
    unfold tryFinally, tryCatch, fetchTry. unfold bind at 1.
    unfold call_getAgentTaskDetails.
    change (log (setIsLoading true w)) with (log w ++ [EvSetIsLoading true]).
    rewrite Hfetch, Hstatus, Hnonempty. cbn [andb].
    unfold adoptAndHydrate. rewrite Hobj. reflexivity. }
  pose proof (adoptTask_spec env None (taskFetched role resp w))
    as (Hprev & Hro & _ & _ & _ & _ & Hpend & evsA & HlogA & HclA & _ & _).
  cbn zeta in Hprev, Hro, Hpend, HlogA, HclA.
  pose proof (adoptTask_documents env None _ evsA HlogA) as HdocA.
  assert (log w' = log w
    ++ ([EvSetIsLoading true; EvGetAgentTaskDetails role (Resolved resp)]
        ++ evsA ++ [EvSetFormStatus VALID; EvSetData None; EvSetIsLoading false]))
    as Hlog.
  { rewrite Hrun. unfold_cells. rewrite HlogA. unfold taskFetched. unfold_cells.
    by rewrite <- !app_assoc. }
  split; [exact Hrun|]. rewrite (events_since_app _ _ _ Hlog).
  rewrite Hrun. unfold_cells.
  split; [exact Hprev|]. split; [reflexivity|]. split; [reflexivity|].
  split; [exact Hpend|]. split.
  { rewrite !clears_app, HclA. unfold taskFetched. unfold_cells. cbn.
    rewrite app_nil_r. destruct (prevTaskIdRef w) as [prev|]; [|done].
    rewrite bool_decide_eq_true_2 by done. by rewrite andb_true_r. }
  split.
  { rewrite !filter_app, HdocA. reflexivity. }
  unfold retryTimerArmed. unfold_cells. rewrite Hro. unfold taskFetched.
  unfold_cells. by rewrite (gate_not_readOnly w role Hgate).
Qed.

Lemma absent_payload_resets_witness :
  let bare := mkResponse true None in
  let w' := fetchData (Cases.envAnswering bare) Cases.serving in
  clears (events_since Cases.serving w') = ["T1"] ∧ data w' = None.
Proof.
  intros bare w'.
  pose proof (absent_payload_resets (Cases.envAnswering bare) Cases.serving "1"
                bare eq_refl eq_refl eq_refl eq_refl eq_refl)
    as (_ & _ & Hdata & _ & _ & Hclears & _).
  split; [exact Hclears|exact Hdata].
Defined.

(** ** The paths of the hydration that publish no document *)

Lemma hydrate_without_refs (env : Env) (d : TaskData) (w : World) :
  (∀ zd, zoningdocuments d = Some zd → hasFirstRefs zd = false) →
  hydrate env d w = (Resolved tt, setData (Some d) (setFormStatus VALID w)).
Proof.
  intros Hno. unfold hydrate.
  destruct (zoningdocuments d) as [zd|]; [|reflexivity].
  by rewrite (Hno zd eq_refl).
Qed.

(** X5.  A task whose first image ref or first metadata ref is missing or
    empty is published as it was received, whatever its other refs: the
    run queries no cache, requests and persists nothing, makes no handle
    and starts no background call. *)
Theorem task_without_refs (env : Env) (w : World) (role : string)
    (resp : TaskResponse) (d : TaskData) :
  roleGate w = Some role →
  getAgentTaskDetails env (log w ++ [EvSetIsLoading true]) role = Resolved resp →
  status resp = true →
  payloadObject (mainData resp) = Some d →
  (∀ zd, zoningdocuments d = Some zd → hasFirstRefs zd = false) →
  let w' := fetchData env w in
  filter documentEvent (events_since w w') = []
  ∧ pending w' = pending w
  ∧ data (hydrationInitiated env role resp d w) = Some d
  ∧ head (dataWrites (events_since w w')) = Some (Some d)
  ∧ formStatus w' = VALID.
Proof.
  intros Hgate Hfetch Hstatus Hobj Hno w'. subst w'.
  rewrite (fetchData_ready env w role resp d Hgate Hfetch Hstatus Hobj).
  unfold hydrationInitiated. rewrite (hydrate_without_refs env d _ Hno). cbn [snd].
  pose proof (adoptTask_spec env (taskid d) (taskFetched role resp w))
    as (_ & _ & _ & _ & _ & _ & HpendA & evsA & HlogA & _ & _ & HnoA).
  cbn zeta in HpendA, HlogA.
  pose proof (adoptTask_documents env (taskid d) _ evsA HlogA) as HdocA.
  set (wa := adoptTask env (taskid d) (taskFetched role resp w)) in *.
  set (wh := setData (Some d) (setFormStatus VALID wa)).
  destruct (acknowledge_frame env (taskid d) role wh)
    as (r & w5 & evsK & Hack & _ & _ & _ & _ & Hform5 & Hpend5 & HlogK & _ & _).
  pose proof (acknowledge_documents env (taskid d) role wh evsK) as HdocK.
  rewrite Hack in HdocK |- *. specialize (HdocK HlogK).
  assert (dataWrites evsA = []) as HwritesA.
  { clear -HnoA. induction evsA as [|e evs IH]; [done|].
    destruct e; cbn; try (apply IH; set_solver). set_solver. }
  assert (∃ evsE wf,
    setIsLoading false
      match r with
      | Resolved _ => w5
      | Rejected err => setData None (console Error (ErrorFetching err) w5)
      end = wf
    ∧ formStatus wf = formStatus w5 ∧ pending wf = pending w5
    ∧ log wf = log w5 ++ evsE ∧ filter documentEvent evsE = [])
    as (evsE & wf & -> & HformE & HpendE & HlogE & HdocE).
  { destruct r as [[]|err]; eexists _, _; (split; [reflexivity|]);
      unfold_cells; rewrite <- ?app_assoc; by repeat split. }
  assert (log wf = log w
    ++ ([EvSetIsLoading true; EvGetAgentTaskDetails role (Resolved resp)]
        ++ evsA ++ [EvSetFormStatus VALID; EvSetData (Some d)] ++ evsK ++ evsE))
    as Hlog.
  { rewrite HlogE, HlogK. subst wh. unfold_cells. rewrite HlogA.
    unfold taskFetched. unfold_cells. by rewrite <- !app_assoc. }
  rewrite (events_since_app _ _ _ Hlog).
  split.
  { rewrite !filter_app, HdocA, HdocK, HdocE. reflexivity. }
  split; [by rewrite HpendE, Hpend5|].
  split; [reflexivity|].
  split.
  { unfold dataWrites in *. rewrite !omap_app, HwritesA. reflexivity. }
  by rewrite HformE, Hform5.
Qed.

Lemma task_without_refs_witness :
  let resp := mkResponse true (Some (mkMain (DataObj Cases.imagesOnly) None)) in
  let w' := fetchData (Cases.envAnswering resp) Scenario.mounted in
  filter documentEvent (events_since Scenario.mounted w') = []
  ∧ pending w' = [].
Proof.
  intros resp w'.
  pose proof (task_without_refs (Cases.envAnswering resp) Scenario.mounted "1"
                resp Cases.imagesOnly eq_refl eq_refl eq_refl eq_refl) as H.
  destruct H as (Hdoc & Hpend & _).
  - intros zd [= <-]. reflexivity.
  - split; [exact Hdoc|exact Hpend].
Defined.

(** What a failed hydration did before it failed. *)
Lemma hydrateTry_failed_log (env : Env) (d : TaskData) (zd : ZoningDocs)
    (w w1 : World) (err : string) :
  hydrateTry env d zd w = (Rejected err, w1) →
  ∃ evs,
    log w1 = log w ++ evs
    ∧ consoleMessages evs = [] ∧ dataWrites evs = []
    ∧ data w1 = data w ∧ formStatus w1 = formStatus w
    ∧ pending w1 = pending w.
Proof.
  unfold hydrateTry, bind, call_getAllDocuments.
  destruct (getAllDocuments env (log w) (taskid d)) as [[|c0 cs]|e].
  - unfold cacheMiss, bind, await, issueRequests, call_createObjectURL,
      call_saveDocument, act, ret, fetchRemainingDocuments.
    cbn [fst snd].
    destruct (http_get env _ _) as [resp1|];
      [|intros [= _ <-]; eexists; unfold_cells; rewrite <- ?app_assoc; done].
    destruct (http_get env _ _) as [resp2|];
      [|intros [= _ <-]; eexists; unfold_cells; rewrite <- ?app_assoc; done].
    destruct (blob resp1) as [b|];
      [|intros [= _ <-]; eexists; unfold_cells; rewrite <- ?app_assoc; done].
    destruct (json resp2) as [j|];
      [|intros [= _ <-]; eexists; unfold_cells; rewrite <- ?app_assoc; done].
    destruct (saveDocument env _ _ _ _ _) as [[]|];
      [|intros [= _ <-]; eexists; unfold_cells; rewrite <- ?app_assoc; done].
    destruct (decide _); discriminate.
  - unfold cacheHit, bind, act, ret. destruct (decide _); discriminate.
  - intros [= _ <-]. eexists. unfold_cells. done.
Qed.

(** X6.  When the hydration of a task with refs fails (the cache query is
    rejected, or the fetch, the reading or the persisting of document 0),
    the task is published without its [zoningdocuments] and with its
    other fields, the status is VALID, no background call is started and
    the failure is written to no log; the clean-up of the snapshot
    published revokes nothing. *)
Theorem hydration_degrades (env : Env) (d : TaskData) (zd : ZoningDocs)
    (w w1 : World) (err : string) :
  zoningdocuments d = Some zd →
  hasFirstRefs zd = true →
  hydrateTry env d zd w = (Rejected err, w1) →
  let w' := (hydrate env d w).2 in
  data w' = Some (withoutZoning d)
  ∧ taskid (withoutZoning d) = taskid d
  ∧ schema (withoutZoning d) = schema d
  ∧ dbdata (withoutZoning d) = dbdata d
  ∧ formStatus w' = VALID
  ∧ pending w' = pending w
  ∧ dataWrites (events_since w w') = [Some (withoutZoning d)]
  ∧ consoleMessages (events_since w w') = []
  ∧ imageRequests (events_since w w') `sublist_of` [0]
  ∧ revocations (data w') = [].
Proof.
  intros Hz Hr Htry w'. subst w'.
  unfold hydrate. rewrite Hz, Hr. unfold tryCatch. rewrite Htry.
  unfold bind, act. cbn [snd].
  destruct (hydrateTry_failed_log env d zd w w1 err Htry)
    as (evs & Hlog & Hcons & Hwrites & _ & _ & Hpend).
  assert (imageRequests evs `sublist_of` [0]) as Hreq.
  { revert Htry Hlog. unfold hydrateTry, bind, call_getAllDocuments.
    destruct (getAllDocuments env (log w) (taskid d)) as [[|c0 cs]|e].
    - unfold cacheMiss, bind, await, issueRequests, call_createObjectURL,
        call_saveDocument, act, ret, fetchRemainingDocuments.
      cbn [fst snd].
      destruct (http_get env _ _) as [resp1|];
        [|intros [= _ <-]; unfold_cells; rewrite <- ?app_assoc;
          by intros <-%app_inv_head].
      destruct (http_get env _ _) as [resp2|];
        [|intros [= _ <-]; unfold_cells; rewrite <- ?app_assoc;
          by intros <-%app_inv_head].
      destruct (blob resp1) as [b|];
        [|intros [= _ <-]; unfold_cells; rewrite <- ?app_assoc;
          by intros <-%app_inv_head].
      destruct (json resp2) as [j|];
        [|intros [= _ <-]; unfold_cells; rewrite <- ?app_assoc;
          by intros <-%app_inv_head].
      destruct (saveDocument env _ _ _ _ _) as [[]|];
        [|intros [= _ <-]; unfold_cells; rewrite <- ?app_assoc;
          by intros <-%app_inv_head].
      destruct (decide _); discriminate.
    - unfold cacheHit, bind, act, ret. destruct (decide _); discriminate.
    - intros [= _ <-]. unfold_cells. intros <-%app_inv_head.
      apply sublist_nil_l. }
  assert (log (setFormStatus VALID (setData (Some (withoutZoning d)) w1))
          = log w ++ (evs ++ [EvSetData (Some (withoutZoning d));
                              EvSetFormStatus VALID])) as Hlog'.
  { unfold_cells. rewrite Hlog. by rewrite <- !app_assoc. }
  rewrite (events_since_app _ _ _ Hlog'). unfold_cells.
  do 5 (split; [reflexivity|]). split; [exact Hpend|].
  split; [unfold dataWrites in *; by rewrite omap_app, Hwrites|].
  split; [unfold consoleMessages in *; by rewrite omap_app, Hcons|].
  split; [|reflexivity].
  unfold imageRequests in *. rewrite omap_app. cbn. by rewrite app_nil_r.
Qed.

Lemma hydration_degrades_witness :
  data (hydrate Cases.envBadJson Scenario.task Scenario.mounted).2
  = Some (withoutZoning Scenario.task).
Proof.
  exact (proj1 (hydration_degrades Cases.envBadJson Scenario.task Scenario.refs
                  Scenario.mounted
                  (hydrateTry Cases.envBadJson Scenario.task Scenario.refs
                     Scenario.mounted).2
                  "SyntaxError" eq_refl eq_refl eq_refl)).
Defined.

(** X7.  On a cache miss, the handle of document 0 is made as soon as its
    image is read; when the metadata then cannot be read, a handle has
    been acquired, nothing is persisted, and the snapshot that is
    published does not refer to the handle: no clean-up of a snapshot
    will release it. *)
Theorem handle_leaks_on_failed_miss (env : Env) (d : TaskData)
    (zd : ZoningDocs) (w : World) (resp1 resp2 : Response) (b : Blob)
    (err : string) :
  zoningdocuments d = Some zd →
  hasFirstRefs zd = true →
  getAllDocuments env (log w) (taskid d) = Resolved [] →
  let u1 := getGenericURL env (imageurl zd !! 0) in
  let u2 := getGenericURL env (jsonurl zd !! 0) in
  let w1 := emit (EvGetAllDocuments (taskid d) (Resolved [])) w in
  http_get env (log w1) u1 = Resolved resp1 →
  let w2 := emit (EvHttpGet ImageRef 0 u1 (Resolved resp1)) w1 in
  http_get env (log w2) u2 = Resolved resp2 →
  let w3 := emit (EvHttpGet JsonRef 0 u2 (Resolved resp2)) w2 in
  blob resp1 = Resolved b →
  json resp2 = Rejected err →
  let url := createObjectURL env (log w3) b in
  let w' := (hydrate env d w).2 in
  acquired (events_since w w') = [url]
  ∧ persisted (events_since w w') = []
  ∧ released (events_since w (cleanup (data w') w')) = []
  ∧ ¬ refersTo (data w') url.
Proof.
  intros Hz Hr Hget u1 u2 w1 H1 w2 H2 w3 Hb Hj url w'.
  assert (w' = setFormStatus VALID
                 (setData (Some (withoutZoning d))
                    (emit (EvCreateObjectURL b url) w3))) as Hrun.
  { subst w'. unfold hydrate. rewrite Hz, Hr.
    unfold tryCatch, hydrateTry, bind, call_getAllDocuments. rewrite Hget.
    unfold cacheMiss, bind, await, issueRequests, call_createObjectURL,
      call_saveDocument, act, ret.
    cbn [fst snd]. fold u1 u2 w1. rewrite H1. fold w2. rewrite H2. fold w3.
    rewrite Hb, Hj. reflexivity. }
  assert (log w' = log w
    ++ [EvGetAllDocuments (taskid d) (Resolved []);
        EvHttpGet ImageRef 0 u1 (Resolved resp1);
        EvHttpGet JsonRef 0 u2 (Resolved resp2);
        EvCreateObjectURL b url;
        EvSetData (Some (withoutZoning d));
        EvSetFormStatus VALID]) as Hlog.
  { rewrite Hrun. subst w3 w2 w1. unfold_cells. by rewrite <- !app_assoc. }
  assert (data w' = Some (withoutZoning d)) as Hdata by (by rewrite Hrun).
  rewrite (events_since_app _ _ _ Hlog).
  split; [reflexivity|]. split; [reflexivity|].
  split.
  - rewrite (events_since_app w (cleanup (data w') w')
               ([EvGetAllDocuments (taskid d) (Resolved []);
                 EvHttpGet ImageRef 0 u1 (Resolved resp1);
                 EvHttpGet JsonRef 0 u2 (Resolved resp2);
                 EvCreateObjectURL b url;
                 EvSetData (Some (withoutZoning d));
                 EvSetFormStatus VALID]
                ++ (EvRevokeObjectURL <$> revocations (data w')))).
    + rewrite Hdata. reflexivity.
    + rewrite cleanup_log, Hlog. by rewrite <- app_assoc.
  - rewrite Hdata. unfold refersTo. cbn.
    rewrite elem_of_nil. naive_solver.
Qed.

Lemma handle_leaks_on_failed_miss_witness :
  let w' := (hydrate Cases.envBadJson Scenario.task Scenario.mounted).2 in
  acquired (events_since Scenario.mounted w') = ["blob:0"]
  ∧ released (events_since Scenario.mounted (cleanup (data w') w')) = [].
Proof.
  intros w'.
  pose proof (handle_leaks_on_failed_miss Cases.envBadJson Scenario.task
                Scenario.refs Scenario.mounted
                (mkHttp (Resolved "bytes:img/0") (Rejected "SyntaxError"))
                (mkHttp (Resolved "bytes:meta/0") (Rejected "SyntaxError"))
                "bytes:img/0" "SyntaxError"
                eq_refl eq_refl eq_refl eq_refl eq_refl eq_refl eq_refl)
    as (Hacq & _ & Hrel & _).
  split; [exact Hacq|exact Hrel].
Defined.

(** ** What the background loop accounts for *)

Section Accounting.

Variable env : Env.
Variable tid : option string.
Variable docs : ZoningDocs.

Local Abbreviation total := (length (imageurl docs)).

Lemma iterationTrace_accounts (i : nat) (evs : list Event) :
  iterationTrace tid total i evs →
  Forall (λ e, backgroundEvent e = true) evs
  ∧ index <$> merged evs `sublist_of` persisted evs
  ∧ (EvUpdaterTypeError ∉ evs →
     index <$> merged evs = persisted evs
     ∧ acquired evs = imageUrl <$> merged evs
     ∧ (index <$> merged evs) ++ failedDownloads evs = [i]).
Proof.
  destruct 1; cbn.
  - split; [by repeat constructor|]. split; [done|]. by intros _.
  - split; [by repeat constructor|]. split; [apply sublist_nil_l|].
    intros Hno. destruct Hno. set_solver.
  - split; [by repeat constructor|]. split; [done|]. by intros _.
  - split; [by repeat constructor|]. split; [done|]. by intros _.
Qed.

Lemma traces_account (idx : list nat) (chunks : list (list Event)) :
  Forall2 (iterationTrace tid total) idx chunks →
  Forall (λ e, backgroundEvent e = true) (concat chunks)
  ∧ index <$> merged (concat chunks) `sublist_of` persisted (concat chunks)
  ∧ (EvUpdaterTypeError ∉ concat chunks →
     index <$> merged (concat chunks) = persisted (concat chunks)
     ∧ acquired (concat chunks) = imageUrl <$> merged (concat chunks)
     ∧ (index <$> merged (concat chunks)) ++ failedDownloads (concat chunks)
       ≡ₚ idx).
Proof.
  induction 1 as [|i evs idx chunks Htrace _ (IHb & IHs & IHe)]; cbn.
  - split; [constructor|]. split; [done|]. by intros _.
  - destruct (iterationTrace_accounts i evs Htrace) as (Hb & Hs & He).
    unfold merged, persisted, acquired, failedDownloads in *.
    rewrite !omap_app, !fmap_app.
    split; [by apply Forall_app_2|]. split; [by apply sublist_app|].
    intros Hno.
    destruct He as (He1 & He2 & He3); [set_solver|].
    destruct IHe as (IH1 & IH2 & IH3); [set_solver|].
    rewrite He1, He2, IH1, IH2. split; [done|]. split; [done|].
    rewrite <- IH3, <- IH1, <- He1.
    change (i :: ?l) with ([i] ++ l). rewrite <- He3.
    rewrite <- !app_assoc. f_equiv. rewrite !app_assoc. f_equiv.
    apply Permutation_app_comm.
Qed.

(** The cells an iteration leaves alone. *)
Lemma iteration_frame (i : nat) (w : World) :
  let w' := iteration env tid docs i w in
  readOnly w' = readOnly w ∧ roleid w' = roleid w
  ∧ prevTaskIdRef w' = prevTaskIdRef w ∧ formStatus w' = formStatus w
  ∧ isLoading w' = isLoading w ∧ allFormFields w' = allFormFields w
  ∧ formFields w' = formFields w.
Proof.
  unfold iteration, issueRequests, completeIteration, tryCatch, iterationTry,
    bind, await, call_saveDocument, act, appendDocument.
  cbn [fst snd].
  destruct (http_get env (log w) _) as [resp1|]; [|done].
  destruct (http_get env _ _) as [resp2|]; [|done]. cbn.
  destruct (blob resp1); [|done].
  destruct (json resp2); [|done]. cbn.
  destruct (saveDocument _ _ _ _ _ _) as [[]|]; [|done]. cbn.
  destruct (data w); done.
Qed.

Lemma loop_frame (s : nat) (w : World) :
  let w' := fetchRemainingDocuments_loop env tid docs s w in
  readOnly w' = readOnly w ∧ roleid w' = roleid w
  ∧ prevTaskIdRef w' = prevTaskIdRef w ∧ formStatus w' = formStatus w
  ∧ isLoading w' = isLoading w ∧ allFormFields w' = allFormFields w
  ∧ formFields w' = formFields w.
Proof.
  cbn zeta. remember (total - s) as n eqn:Hn. revert s w Hn.
  induction n as [|n IH]; intros s w Hn.
  - by rewrite loop_done by lia.
  - rewrite loop_unfold by lia.
    destruct (IH (S s) (iteration env tid docs s w) ltac:(lia))
      as (-> & -> & -> & -> & -> & -> & ->).
    apply iteration_frame.
Qed.

(** An iteration under collaborators that never fail, on a payload. *)
Lemma iteration_succeeds (i : nat) (w : World) :
  alwaysFetches env → alwaysPersists env → is_Some (data w) →
  ∃ evs,
    log (iteration env tid docs i w) = log w ++ evs
    ∧ index <$> merged evs = [i]
    ∧ persisted evs = [i]
    ∧ failedDownloads evs = []
    ∧ liveDocuments (iteration env tid docs i w) = liveDocuments w ++ merged evs
    ∧ is_Some (data (iteration env tid docs i w)).
Proof.
  intros Hfetch Hsave [prev Hprev].
  unfold iteration, issueRequests, completeIteration, tryCatch, iterationTry,
    bind, await, call_saveDocument, act, appendDocument.
  cbn [fst snd].
  destruct (Hfetch (log w) (getGenericURL env (imageurl docs !! i)))
    as (resp1 & b & j0 & -> & Hb & _).
  match goal with
  | |- context [http_get env ?l (getGenericURL env (jsonurl docs !! i))] =>
      destruct (Hfetch l (getGenericURL env (jsonurl docs !! i)))
        as (resp2 & b0 & j & -> & _ & Hj)
  end.
  cbn. rewrite Hb, Hj. cbn. rewrite Hsave. cbn. rewrite Hprev.
  eexists. unfold_cells. rewrite <- !app_assoc. split; [reflexivity|].
  cbn. do 3 (split; [reflexivity|]). split; [|by eexists].
  unfold liveDocuments. unfold_cells. rewrite Hprev. cbn.
  destruct (zoningdocuments prev) as [zd|]; cbn; [|reflexivity].
  destruct (allDocuments zd); reflexivity.
Qed.

Lemma loop_succeeds (s : nat) (w : World) :
  alwaysFetches env → alwaysPersists env → is_Some (data w) →
  ∃ evs,
    log (fetchRemainingDocuments_loop env tid docs s w) = log w ++ evs
    ∧ index <$> merged evs = seq s (total - s)
    ∧ persisted evs = seq s (total - s)
    ∧ failedDownloads evs = []
    ∧ liveDocuments (fetchRemainingDocuments_loop env tid docs s w)
      = liveDocuments w ++ merged evs.
Proof.
  intros Hfetch Hsave. remember (total - s) as n eqn:Hn. revert s w Hn.
  induction n as [|n IH]; intros s w Hn Hdata.
  - rewrite loop_done by lia. exists []. by rewrite !app_nil_r.
  - rewrite loop_unfold by lia.
    destruct (iteration_succeeds s w Hfetch Hsave Hdata)
      as (evs & Hlog & Hm & Hp & Hf & Hlive & Hdata').
    destruct (IH (S s) (iteration env tid docs s w) ltac:(lia) Hdata')
      as (evs' & Hlog' & Hm' & Hp' & Hf' & Hlive').
    exists (evs ++ evs').
    unfold merged, persisted, failedDownloads in *.
    rewrite !omap_app, fmap_app, Hm, Hp, Hf, Hm', Hp', Hf'.
    split; [by rewrite Hlog', Hlog, <- app_assoc|].
    do 3 (split; [reflexivity|]).
    by rewrite Hlive', Hlive, <- app_assoc.
Qed.

End Accounting.

(** X8.  When the background loop runs on a payload, every index from the
    start index to the last is accounted for exactly once: it is either
    merged into [allDocuments] or logged as a failed download, never both
    and never neither. *)
Theorem background_accounts_for_every_index (env : Env)
    (tid : option string) (docs : ZoningDocs) (s : nat) (w : World) :
  is_Some (data w) →
  let evs := events_since w (fetchRemainingDocuments_loop env tid docs s w) in
  (index <$> merged evs) ++ failedDownloads evs
  ≡ₚ seq s (length (imageurl docs) - s).
Proof.
  intros Hdata evs. subst evs.
  destruct (loop_spec env tid docs s w) as (chunks & Hlog & Htr & _ & _ & Hno).
  rewrite (events_since_app _ _ _ Hlog).
  destruct (traces_account tid docs _ _ Htr) as (_ & _ & Hacc).
  by destruct (Hacc (Hno Hdata)) as (_ & _ & Hperm).
Qed.

Lemma background_accounts_for_every_index_witness :
  let w := fetchData Scenario.env Scenario.mounted in
  let evs := events_since w
               (fetchRemainingDocuments_loop Scenario.env (Some "T1")
                  Scenario.refs 1 w) in
  (index <$> merged evs) ++ failedDownloads evs ≡ₚ [1; 2].
Proof.
  intros w.
  apply (background_accounts_for_every_index Scenario.env (Some "T1")
           Scenario.refs 1 w).
  eexists. vm_compute. reflexivity.
Defined.

(** X9.  The documents the background loop merges are documents it has
    persisted: the indices merged are among the indices persisted, in the
    same order; when the loop runs on a payload they are the same, and one
    handle is made per document merged, which is the handle the document
    carries. *)
Theorem merged_documents_are_persisted (env : Env) (tid : option string)
    (docs : ZoningDocs) (s : nat) (w : World) :
  let evs := events_since w (fetchRemainingDocuments_loop env tid docs s w) in
  index <$> merged evs `sublist_of` persisted evs
  ∧ (is_Some (data w) →
     index <$> merged evs = persisted evs
     ∧ acquired evs = imageUrl <$> merged evs).
Proof.
  intros evs. subst evs.
  destruct (loop_spec env tid docs s w) as (chunks & Hlog & Htr & _ & _ & Hno).
  rewrite (events_since_app _ _ _ Hlog).
  destruct (traces_account tid docs _ _ Htr) as (_ & Hsub & Hacc).
  split; [exact Hsub|]. intros Hdata.
  by destruct (Hacc (Hno Hdata)) as (? & ? & _).
Qed.

Lemma merged_documents_are_persisted_witness :
  let w := fetchData Scenario.env Scenario.mounted in
  let evs := events_since w
               (fetchRemainingDocuments_loop Scenario.env (Some "T1")
                  Scenario.refs 1 w) in
  index <$> merged evs = persisted evs.
Proof.
  intros w evs.
  destruct (merged_documents_are_persisted Scenario.env (Some "T1")
              Scenario.refs 1 w) as [_ Hsame].
  apply Hsame. eexists. vm_compute. reflexivity.
Defined.

(** X10.  The background loop writes to the [data] cell and to nothing
    else: the props, the ref of the previous task, the status, the loading
    flag, the form fields and the suspended calls are as before, and its
    events are requests, cache writes, handles, merges and its own two
    console messages; it never queries or clears the cache and never
    replaces the task. *)
Theorem background_loop_frame (env : Env) (tid : option string)
    (docs : ZoningDocs) (s : nat) (w : World) :
  let w' := fetchRemainingDocuments_loop env tid docs s w in
  readOnly w' = readOnly w ∧ roleid w' = roleid w
  ∧ prevTaskIdRef w' = prevTaskIdRef w ∧ formStatus w' = formStatus w
  ∧ isLoading w' = isLoading w ∧ allFormFields w' = allFormFields w
  ∧ formFields w' = formFields w ∧ pending w' = pending w
  ∧ Forall (λ e, backgroundEvent e = true) (events_since w w')
  ∧ clears (events_since w w') = []
  ∧ dataWrites (events_since w w') = [].
Proof.
  intros w'. subst w'.
  destruct (loop_frame env tid docs s w) as (? & ? & ? & ? & ? & ? & ?).
  destruct (loop_spec env tid docs s w) as (chunks & Hlog & Htr & _ & Hpend & _).
  destruct (traces_account tid docs _ _ Htr) as (Hbg & _ & _).
  rewrite (events_since_app _ _ _ Hlog).
  do 7 (split; [done|]). split; [exact Hpend|]. split; [exact Hbg|].
  clear -Hbg. induction Hbg as [|e evs He _ [IH1 IH2]]; [done|].
  destruct e as [| | | | | | | | | | | | | | |l m]; try discriminate; cbn; try done.
Qed.

(** ** Hydration with collaborators that never fail *)

Lemma seq_from_first (N : nat) : 0 < N → 0 :: seq 1 (N - 1) = seq 0 N.
Proof. destruct N as [|N]; [lia|]. intros _. cbn. by rewrite Nat.sub_0_r. Qed.

Lemma completeIteration_succeeds (env : Env) (tid : option string)
    (total i : nat) (resp1 resp2 : Response) (b : Blob) (j : Json)
    (w : World) :
  alwaysPersists env → is_Some (data w) →
  blob resp1 = Resolved b → json resp2 = Resolved j →
  let w' := completeIteration env tid total i (Resolved resp1)
              (Resolved resp2) w in
  ∃ evs,
    log w' = log w ++ evs
    ∧ index <$> merged evs = [i]
    ∧ failedDownloads evs = []
    ∧ liveDocuments w' = liveDocuments w ++ merged evs
    ∧ is_Some (data w').
Proof.
  intros Hsave [prev Hprev] Hb Hj.
  unfold completeIteration, tryCatch, iterationTry, bind, await,
    call_saveDocument, act, appendDocument.
  cbn. rewrite Hb, Hj. cbn. rewrite Hsave. cbn. rewrite Hprev.
  eexists. unfold_cells. rewrite <- !app_assoc. split; [reflexivity|].
  cbn. do 2 (split; [reflexivity|]). split; [|by eexists].
  unfold liveDocuments. unfold_cells. rewrite Hprev. cbn.
  destruct (zoningdocuments prev) as [zd|]; cbn; [|reflexivity].
  destruct (allDocuments zd); reflexivity.
Qed.

(** The call that a never-failing network leaves suspended. *)
Lemma enterIteration_fetches (env : Env) (tid : option string)
    (zd : ZoningDocs) (k : nat) (w : World) :
  alwaysFetches env → k < length (imageurl zd) →
  ∃ resp1 resp2 b j,
    pending (enterIteration env tid zd k w)
    = pending w ++ [mkBg tid zd k (Resolved resp1) (Resolved resp2)]
    ∧ blob resp1 = Resolved b ∧ json resp2 = Resolved j.
Proof.
  intros Hfetch Hlt. unfold enterIteration, issueRequests.
  rewrite decide_True by done.
  destruct (Hfetch (log w) (getGenericURL env (imageurl zd !! k)))
    as (resp1 & b & j0 & H1 & Hb & _).
  rewrite H1.
  match goal with
  | |- context [http_get env ?l (getGenericURL env (jsonurl zd !! k))] =>
      destruct (Hfetch l (getGenericURL env (jsonurl zd !! k)))
        as (resp2 & b0 & j & H2 & _ & Hj)
  end.
  rewrite H2. unfold_cells. cbn [fst snd]. by exists resp1, resp2, b, j.
Qed.

Lemma adoptTask_quiet (env : Env) (taskId : option string) (w : World) :
  ∃ evs, log (adoptTask env taskId w) = log w ++ evs
         ∧ failedDownloads evs = [].
Proof.
  unfold adoptTask, fire_clearTaskCache.
  destruct (prevTaskIdRef w) as [prev|].
  2:{ exists []. by rewrite app_nil_r. }
  destruct (truthy (Some prev) && bool_decide (Some prev ≠ taskId)).
  2:{ exists []. by rewrite app_nil_r. }
  destruct (clearTaskCache env _ prev) as [[]|err]; eexists; unfold_cells;
    rewrite <- !app_assoc; by split.
Qed.

Lemma acknowledge_resolves (env : Env) (taskId : option string)
    (role : string) (w : World) :
  alwaysAcknowledges env →
  ∃ wk evs,
    acknowledge env taskId role w = (Resolved tt, wk)
    ∧ data wk = data w ∧ pending wk = pending w
    ∧ log wk = log w ++ evs ∧ failedDownloads evs = [].
Proof.
  intros Hack. unfold acknowledge.
  destruct taskId as [tid|].
  2:{ exists w, []. by rewrite app_nil_r. }
  destruct (truthy (Some tid)).
  2:{ exists w, []. by rewrite app_nil_r. }
  unfold bind, call_agentKeyedOn, act.
  destruct (Hack (log w) tid role) as [a ->].
  destruct (ack_status a); eexists _, _; (split; [reflexivity|]);
    unfold_cells; rewrite <- ?app_assoc; by repeat split.
Qed.

(** The hydration of a task with refs when nothing fails: the payload
    published holds the cached documents, or document 0, and a background
    call starts at the index after them. *)
Lemma hydrate_succeeds (env : Env) (d : TaskData) (zd : ZoningDocs)
    (cached : list Doc) (w : World) :
  alwaysFetches env → alwaysPersists env →
  zoningdocuments d = Some zd → hasFirstRefs zd = true →
  getAllDocuments env (log w) (taskid d) = Resolved cached →
  ∃ k wp pre,
    (hydrate env d w).2 = enterIteration env (taskid d) zd k wp
    ∧ log wp = log w ++ pre ∧ failedDownloads pre = []
    ∧ pending wp = pending w ∧ is_Some (data wp)
    ∧ ((cached = [] ∧ k = 1
        ∧ ∃ doc, index doc = 0 ∧ liveDocuments wp = [doc])
       ∨ (cached ≠ [] ∧ k = length cached ∧ liveDocuments wp = cached)).
Proof.
  intros Hfetch Hsave Hz Hr Hget.
  destruct cached as [|c0 cs].
  - destruct (Hfetch (log (emit (EvGetAllDocuments (taskid d) (Resolved [])) w))
                (getGenericURL env (imageurl zd !! 0)))
      as (resp1 & b & j0 & H1 & Hb & _).
    destruct (Hfetch
                (log (emit (EvHttpGet ImageRef 0
                              (getGenericURL env (imageurl zd !! 0))
                              (Resolved resp1))
                        (emit (EvGetAllDocuments (taskid d) (Resolved [])) w)))
                (getGenericURL env (jsonurl zd !! 0)))
      as (resp2 & b0 & j & H2 & _ & Hj).
    pose proof (hydrateTry_miss_completes env d zd w resp1 resp2 b j
                  Hget H1 H2 Hb Hj (Hsave _ _ _ _ _)) as Htry.
    cbn zeta in Htry.
    eexists 1, _, _. split.
    { unfold hydrate. rewrite Hz, Hr. unfold tryCatch. rewrite Htry.
      reflexivity. }
    split; [apply publishedMiss_log|]. split; [reflexivity|].
    split; [reflexivity|]. split; [by eexists|]. left.
    split; [done|]. split; [done|]. eexists. split; [|reflexivity]. done.
  - eexists (length (c0 :: cs)), _, _. split.
    { by rewrite (hydrate_hit env d zd Hz Hr w c0 cs Hget). }
    split; [apply publishedHit_log|]. split; [reflexivity|].
    split; [reflexivity|]. split; [by eexists|]. right. done.
Qed.

(** A provider with a payload and the one call that a never-failing
    network has left suspended at [k], or none when [k] is past the last
    index: resumed to its end, the call merges one document for every
    index from [k] on. *)
Lemma settle_succeeds (env : Env) (tid : option string) (zd : ZoningDocs)
    (k : nat) (wf : World) :
  alwaysFetches env → alwaysPersists env → is_Some (data wf) →
  (if decide (k < length (imageurl zd))
   then ∃ resp1 resp2 b j,
          pending wf = [mkBg tid zd k (Resolved resp1) (Resolved resp2)]
          ∧ blob resp1 = Resolved b ∧ json resp2 = Resolved j
   else pending wf = []) →
  let N := length (imageurl zd) in
  let w' := settle env N wf in
  pending w' = []
  ∧ ∃ evs,
      log w' = log wf ++ evs ∧ failedDownloads evs = []
      ∧ liveDocuments w' = liveDocuments wf ++ merged evs
      ∧ index <$> merged evs = seq k (N - k).
Proof.
  intros Hfetch Hsave Hdata Hpend N w'. subst w'.
  destruct (decide (k < length (imageurl zd))) as [Hlt|Hge].
  - destruct Hpend as (resp1 & resp2 & b & j & Hpend & Hb & Hj).
    rewrite (settle_one env N _ wf Hpend) by (cbn; lia).
    cbn [bg_taskId bg_docs bg_index bg_image bg_json]. fold N.
    destruct (completeIteration_succeeds env tid N k resp1 resp2 b j
                (with_pending [] wf) Hsave Hdata Hb Hj)
      as (evs1 & Hlog1 & Hm1 & Hf1 & Hlive1 & Hdata1).
    cbn zeta in *.
    destruct (completeIteration_spec env tid N k (Resolved resp1)
                (Resolved resp2) (with_pending [] wf)) as (_ & _ & _ & Hpend1).
    set (wc := completeIteration _ _ _ _ _ _ _) in *.
    destruct (loop_succeeds env tid zd (S k) wc Hfetch Hsave Hdata1)
      as (evs2 & Hlog2 & Hm2 & _ & Hf2 & Hlive2).
    destruct (loop_spec env tid zd (S k) wc) as (_ & _ & _ & _ & Hpend2 & _).
    split; [by rewrite Hpend2, Hpend1|].
    exists (evs1 ++ evs2). unfold merged, failedDownloads in *.
    rewrite !omap_app, fmap_app, Hm1, Hm2, Hf1, Hf2.
    split; [by rewrite Hlog2, Hlog1, <- app_assoc|]. split; [done|].
    split; [by rewrite Hlive2, Hlive1, <- app_assoc|].
    fold N. replace (N - k) with (S (N - S k)) by (unfold N; lia). done.
  - rewrite settle_idle by done. split; [done|]. exists [].
    rewrite !app_nil_r. repeat split.
    fold N. by replace (N - k) with 0 by (unfold N; lia).
Qed.

(** X11.  When the requests, the reading of their bodies and the cache
    writes never fail and the acknowledgment call is not rejected, a run
    of [fetchData] on a task with refs, followed by the background call
    run to its end, hydrates the task completely: no call is left
    suspended, no download was logged as failed, and [allDocuments] holds
    the documents found in the cache followed by one document for every
    remaining index, in order; on an empty cache these are the indices 0
    to [N - 1]. *)
Theorem hydration_completes (env : Env) (w : World) (role : string)
    (resp : TaskResponse) (d : TaskData) (zd : ZoningDocs)
    (cached : list Doc) :
  alwaysFetches env → alwaysPersists env → alwaysAcknowledges env →
  roleGate w = Some role →
  getAgentTaskDetails env (log w ++ [EvSetIsLoading true]) role = Resolved resp →
  status resp = true →
  payloadObject (mainData resp) = Some d →
  zoningdocuments d = Some zd → hasFirstRefs zd = true →
  pending w = [] →
  getAllDocuments env
    (log (adoptTask env (taskid d) (taskFetched role resp w))) (taskid d)
  = Resolved cached →
  let N := length (imageurl zd) in
  let w' := settle env N (fetchData env w) in
  pending w' = []
  ∧ failedDownloads (events_since w w') = []
  ∧ (∃ fetched,
       liveDocuments w' = cached ++ fetched
       ∧ index <$> fetched = seq (length cached) (N - length cached))
  ∧ (cached = [] → index <$> liveDocuments w' = seq 0 N).
Proof.
  intros Hfetch Hsave Hack Hgate Htask Hstatus Hobj Hz Hr Hp Hget N w'.
  pose proof (first_refs_positive zd Hr) as Hpos. fold N in Hpos.
  pose proof (adoptTask_spec env (taskid d) (taskFetched role resp w))
    as (_ & _ & _ & _ & _ & _ & HpendA & _).
  cbn zeta in HpendA.
  destruct (adoptTask_quiet env (taskid d) (taskFetched role resp w))
    as (evsA & HlogA & HfA).
  set (wa := adoptTask env (taskid d) (taskFetched role resp w)) in *.
  destruct (hydrate_succeeds env d zd cached wa Hfetch Hsave Hz Hr Hget)
    as (k & wp & pre & Hhyd & Hlogp & Hfp & Hpendp & Hdatap & Hfirst).
  destruct (enterIteration_spec env zd (taskid d) k wp)
    as (started & HlogS & HpendS & HdataS).
  fold N in HpendS.
  set (wh := enterIteration env (taskid d) zd k wp) in *.
  destruct (acknowledge_resolves env (taskid d) role wh Hack)
    as (wk & evsK & HackK & HdataK & HpendK & HlogK & HfK).
  assert (fetchData env w = setIsLoading false wk) as Hrun.
  { rewrite (fetchData_ready env w role resp d Hgate Htask Hstatus Hobj).
    unfold hydrationInitiated. fold wa. rewrite Hhyd. fold wh.
    by rewrite HackK. }
  set (wf := setIsLoading false wk).
  assert (pending wa = []) as Hpa.
  { rewrite HpendA. unfold taskFetched. unfold_cells. exact Hp. }
  assert (failedDownloads started = []) as HfS.
  { destruct (decide (k < N)).
    - by destruct HpendS as (? & ? & ? & ? & -> & _).
    - by destruct HpendS as [-> _]. }
  assert (log wf = log w
    ++ ([EvSetIsLoading true; EvGetAgentTaskDetails role (Resolved resp)]
        ++ evsA ++ pre ++ started ++ evsK ++ [EvSetIsLoading false])) as Hlogf.
  { subst wf. unfold_cells. rewrite HlogK, HlogS, Hlogp, HlogA.
    unfold taskFetched. unfold_cells. by rewrite <- !app_assoc. }
  assert (is_Some (data wf)) as Hdataf.
  { subst wf. unfold_cells. by rewrite HdataK, HdataS. }
  assert (liveDocuments wf = liveDocuments wp) as Hlivef.
  { unfold liveDocuments. subst wf. unfold_cells. by rewrite HdataK, HdataS. }
  destruct (settle_succeeds env (taskid d) zd k wf Hfetch Hsave Hdataf)
    as (Hpend' & evs & Hlog' & Hf' & Hlive' & Hidx).
  { subst wf. unfold_cells. rewrite HpendK. fold N.
    destruct (decide (k < N)) as [Hlt|Hge].
    - destruct (enterIteration_fetches env (taskid d) zd k wp Hfetch Hlt)
        as (resp1 & resp2 & b & j & Hpe & Hb & Hj).
      exists resp1, resp2, b, j. fold wh in Hpe.
      by rewrite Hpe, Hpendp, Hpa.
    - destruct HpendS as [_ ->]. by rewrite Hpendp. }
  cbn zeta in *. fold N in Hpend', Hlog', Hlive', Hidx.
  subst w'. rewrite Hrun. fold wf.
  split; [exact Hpend'|]. split.
  { rewrite (events_since_app _ _ _
               ltac:(by rewrite Hlog', Hlogf, <- app_assoc)).
    unfold failedDownloads in *.
    by rewrite !omap_app, HfA, Hfp, HfS, HfK, Hf'. }
  rewrite Hlive', Hlivef.
  destruct Hfirst as [(-> & -> & doc & Hdoc & ->)|(Hne & -> & ->)].
  - split.
    + exists (doc :: merged evs). split; [reflexivity|].
      rewrite fmap_cons, Hidx, Hdoc. cbn [length]. rewrite Nat.sub_0_r.
      by apply seq_from_first.
    + intros _. cbn [app]. rewrite fmap_cons, Hidx, Hdoc.
      by apply seq_from_first.
  - split; [|done]. by exists (merged evs).
Qed.

Lemma hydration_completes_witness :
  index <$> liveDocuments
              (settle Scenario.envColdCache 3
                 (fetchData Scenario.envColdCache Scenario.mounted))
  = [0; 1; 2].
Proof.
  assert (alwaysFetches Scenario.envColdCache) as Hfetch
    by (intros history url; by eexists _, _, _).
  assert (alwaysPersists Scenario.envColdCache) as Hsave
    by (by intros history tid i b j).
  assert (alwaysAcknowledges Scenario.envColdCache) as Hack
    by (intros history tid role; by eexists).
  destruct (hydration_completes Scenario.envColdCache Scenario.mounted "1"
              Scenario.taskResponse Scenario.task Scenario.refs []
              Hfetch Hsave Hack eq_refl eq_refl eq_refl eq_refl eq_refl
              eq_refl eq_refl eq_refl)
    as (_ & _ & _ & Hall).
  by apply Hall.
Defined.

(** ** A background call that outlives its task *)

(** X12.  A suspended background call that goes on does not look at the
    task on display: when its two responses can be read and its cache
    write resolves, the document is persisted under the task the call was
    started for and merged into whatever payload the [data] cell holds
    now, whose task id is kept. *)
Theorem late_arrival_merges_into_current_payload (env : Env) (n : nat)
    (t : BgTask) (w : World) (prev : TaskData) (resp1 resp2 : Response)
    (b : Blob) (j : Json) :
  pending w !! n = Some t →
  data w = Some prev →
  bg_image t = Resolved resp1 → bg_json t = Resolved resp2 →
  blob resp1 = Resolved b → json resp2 = Resolved j →
  saveDocument env (log w) (bg_taskId t) (bg_index t) b j = Resolved tt →
  let w' := resume env n w in
  (∃ url, liveDocuments w' = liveDocuments w ++ [mkDoc (bg_index t) url j])
  ∧ (data w' ≫= taskid) = taskid prev
  ∧ EvSaveDocument (bg_taskId t) (bg_index t) b j (Resolved tt)
    ∈ events_since w w'.
Proof.
  intros Hn Hprev Hi Hj Hb Hjs Hsave w'. subst w'.
  unfold resume. rewrite Hn. unfold continue.
  set (wc := completeIteration _ _ _ _ _ _ _).
  destruct (enterIteration_spec env (bg_docs t) (bg_taskId t) (S (bg_index t)) wc)
    as (started & Hlog & _ & Hdata).
  assert (∃ url,
    data wc = Some (appended prev (mkDoc (bg_index t) url j))
    ∧ log wc = log w
        ++ [EvSaveDocument (bg_taskId t) (bg_index t) b j (Resolved tt);
            EvCreateObjectURL b url;
            EvAppendDocument (mkDoc (bg_index t) url j);
            EvConsole Info (BackgroundDownloaded (bg_index t + 1)
                              (length (imageurl (bg_docs t))))])
    as (url & Hwc & Hlogc).
  { subst wc. unfold completeIteration, tryCatch, iterationTry, bind, await,
      call_saveDocument, act, appendDocument.
    rewrite Hi, Hj. cbn. rewrite Hb, Hjs. cbn. rewrite Hsave. cbn.
    rewrite Hprev. eexists. unfold_cells. rewrite <- !app_assoc.
    split; reflexivity. }
  split; [|split].
  - exists url. unfold liveDocuments. rewrite Hdata, Hwc, Hprev. cbn.
    destruct (zoningdocuments prev) as [z|]; cbn; [|reflexivity].
    destruct (allDocuments z); reflexivity.
  - by rewrite Hdata, Hwc.
  - rewrite (events_since_app _ _ _ ltac:(by rewrite Hlog, Hlogc, <- app_assoc)).
    apply elem_of_app. left. apply list_elem_of_here.
Qed.

Lemma late_arrival_merges_into_current_payload_witness :
  let w := refreshData Scenario.envTwoTasks
             (fetchData Scenario.envTwoTasks Scenario.mounted) in
  (data w ≫= taskid) = Some "T2"
  ∧ (data (resume Scenario.envTwoTasks 0 w) ≫= taskid) = Some "T2"
  ∧ ∃ url, liveDocuments (resume Scenario.envTwoTasks 0 w)
           = [mkDoc 1 url "json:meta/1"].
Proof.
  intros w.
  pose proof (late_arrival_merges_into_current_payload Scenario.envTwoTasks 0
                (mkBg (Some "T1") Scenario.refs 1
                   (Resolved (mkHttp (Resolved "bytes:img/1")
                                (Resolved "json:img/1")))
                   (Resolved (mkHttp (Resolved "bytes:meta/1")
                                (Resolved "json:meta/1"))))
                w Scenario.nextTask _ _ "bytes:img/1" "json:meta/1"
                ltac:(vm_compute; reflexivity) ltac:(vm_compute; reflexivity)
                eq_refl eq_refl eq_refl eq_refl eq_refl)
    as (Hlive & Htid & _).
  split; [vm_compute; reflexivity|]. split; [exact Htid|exact Hlive].
Defined.

(** ** The clean-up and the payloads the provider publishes *)

Lemma released_revocations (d : option TaskData) (w : World) :
  released (events_since w (cleanup d w)) = revocations d.
Proof.
  rewrite (events_since_app _ _ _ (cleanup_log d w)).
  unfold released. induction (revocations d) as [|url l IH]; [done|].
  cbn. by rewrite IH.
Qed.

Lemma filter_bool_app {A} (f : A → bool) (l k : list A) :
  List.filter f (l ++ k) = List.filter f l ++ List.filter f k.
Proof.
  induction l as [|x l IH]; [done|]. cbn. rewrite IH. by destruct (f x).
Qed.

Lemma revocations_appended (prev : TaskData) (doc : Doc) :
  is_Some (zoningdocuments prev) →
  ∃ docs rest,
    revocations (Some prev) = docs ++ rest
    ∧ revocations (Some (appended prev doc))
      = docs ++ List.filter is_blob_url [imageUrl doc] ++ rest.
Proof.
  intros [zd Hzd]. unfold revocations, appended. cbn. rewrite Hzd. cbn.
  eexists _, _. split; [reflexivity|].
  by rewrite fmap_app, filter_bool_app, <- app_assoc.
Qed.

(** X13.  A merge of the background loop replaces the payload, so the
    clean-up registered for the payload it replaces runs; every handle
    that clean-up releases is still referred to by the new payload, which
    lists the same handles and the one of the new document: the handles of
    the documents on display are released while in use, and are released
    again by the next clean-up. *)
Theorem merge_releases_handles_in_use (env : Env) (i : nat) (b : Blob)
    (j : Json) (w : World) :
  is_Some (data w) →
  let w1 := appendDocument env i b j w in
  let w2 := cleanup (data w) w1 in
  released (events_since w1 w2) `sublist_of` revocations (data w1)
  ∧ ∀ url, url ∈ released (events_since w1 w2) →
           is_blob_url url = true ∧ refersTo (data w1) url.
Proof.
  intros [prev Hprev] w1 w2. subst w2.
  rewrite released_revocations.
  assert (∃ doc, data w1 = Some (appended prev doc)) as [doc Hw1].
  { subst w1. unfold appendDocument. rewrite Hprev. by eexists. }
  rewrite Hprev, Hw1.
  assert (revocations (Some prev)
          `sublist_of` revocations (Some (appended prev doc))) as Hsub.
  { destruct (zoningdocuments prev) as [zd|] eqn:Hzd.
    - destruct (revocations_appended prev doc ltac:(by eexists))
        as (docs & rest & -> & ->).
      apply sublist_app; [done|]. by apply sublist_inserts_l.
    - unfold revocations at 1. cbn. rewrite Hzd. cbn. apply sublist_nil_l. }
  split; [exact Hsub|].
  intros url Hin.
  assert (url ∈ revocations (Some (appended prev doc))) as Hin'
    by (eapply elem_of_sublist; [exact Hin|exact Hsub]).
  clear Hin Hsub. revert Hin'.
  generalize (Some (appended prev doc)). intros p.
  unfold revocations, refersTo.
  rewrite !elem_of_app, !elem_of_filter_bool.
  destruct ((p ≫= zoningdocuments) ≫= currentDocument) as [c|];
    destruct ((p ≫= zoningdocuments) ≫= (λ z, imageurl z !! 0)) as [u|];
    cbn; rewrite ?elem_of_cons, ?elem_of_nil; naive_solver.
Qed.

Lemma merge_releases_handles_in_use_witness :
  let w := fetchData Scenario.envColdCache Scenario.mounted in
  let w1 := appendDocument Scenario.envColdCache 1 "bytes:img/1" "json:meta/1" w in
  released (events_since w1 (cleanup (data w) w1)) = ["blob:0"; "blob:0"]
  ∧ refersTo (data w1) "blob:0".
Proof.
  intros w w1.
  destruct (merge_releases_handles_in_use Scenario.envColdCache 1
              "bytes:img/1" "json:meta/1" w
              ltac:(eexists; vm_compute; reflexivity)) as [_ Hused].
  split; [vm_compute; reflexivity|].
  apply (Hused "blob:0"). vm_compute. apply list_elem_of_here.
Defined.

(** X14.  The payload published on a cache hit and the one published on a
    cache miss refer to the handle of their first document twice, from
    [allDocuments] and from [currentDocument]: when that handle is a blob
    URL, the clean-up of the payload releases it at least twice. *)
Theorem published_first_handle_released_twice (d : TaskData)
    (zd : ZoningDocs) (p : TaskData) (url : string) (w : World) :
  (∃ j, p = enrichedFromNetwork d zd url j)
  ∨ (∃ c0 cs, p = enrichedFromCache d zd c0 (c0 :: cs) ∧ imageUrl c0 = url) →
  is_blob_url url = true →
  2 ≤ length (filter (λ x, x = url)
                (released (events_since w (cleanup (Some p) w))))
  ∧ ¬ releasedExactlyOnce [url] (released (events_since w (cleanup (Some p) w))).
Proof.
  intros Hp Hblob. rewrite released_revocations.
  assert (2 ≤ length (filter (λ x, x = url) (revocations (Some p)))) as Htwice.
  { destruct Hp as [[j ->]|(c0 & cs & -> & <-)];
      unfold revocations; revert Hblob; generalize is_blob_url;
      intros f Hblob; cbn; rewrite Hblob;
      rewrite !filter_app, !length_app, !filter_cons, !decide_True by done;
      cbn [length]; lia. }
  split; [exact Htwice|].
  intros Honce. specialize (Honce url ltac:(apply list_elem_of_here)). lia.
Qed.

Lemma published_first_handle_released_twice_witness :
  2 ≤ length (filter (λ x, x = "blob:0")
                (released
                   (events_since Scenario.mounted
                      (cleanup
                         (Some (enrichedFromNetwork Scenario.task Scenario.refs
                                  "blob:0" "json:meta/0"))
                         Scenario.mounted)))).
Proof.
  apply (published_first_handle_released_twice Scenario.task Scenario.refs
           (enrichedFromNetwork Scenario.task Scenario.refs "blob:0"
              "json:meta/0")
           "blob:0" Scenario.mounted).
  - left. by eexists.
  - reflexivity.
Defined.

(** ** The validators and the prompts of the schema effect *)

(** A [reduce] over [Object.keys(schema)] that writes [g schema[key]]
    under every key builds the image of the schema under [g]. *)
Lemma reduce_keys_lookup {B} (g : SchemaGroup → B)
    (sch : gmap string SchemaGroup) (ll : string) :
  foldl (λ (acc : gmap string B) key,
           match sch !! key with
           | Some sg => <[key := g sg]> acc
           | None => acc
           end) ∅ (map_to_list sch).*1 !! ll
  = g <$> sch !! ll.
Proof.
  assert (∀ (ks : list string) (acc : gmap string B),
    foldl (λ acc key,
             match sch !! key with
             | Some sg => <[key := g sg]> acc
             | None => acc
             end) acc ks !! ll
    = if decide (ll ∈ ks ∧ is_Some (sch !! ll))
      then g <$> sch !! ll else acc !! ll) as Hgen.
  { induction ks as [|k ks IH]; intros acc; cbn.
    - rewrite decide_False; [done|]. set_solver.
    - rewrite IH. destruct (decide (ll ∈ ks ∧ is_Some (sch !! ll))) as [[Hin Hs]|Hno].
      + rewrite decide_True; [done|]. set_solver.
      + destruct (decide (k = ll)) as [->|Hne].
        * destruct (sch !! ll) as [sg|] eqn:Hsg.
          -- rewrite lookup_insert_eq. rewrite decide_True; [done|].
             split; [set_solver|by eexists].
          -- rewrite decide_False; [done|]. intros [_ [? ?]]. done.
        * rewrite decide_False by set_solver.
          destruct (sch !! k); [by rewrite lookup_insert_ne|done]. }
  rewrite Hgen. rewrite lookup_empty.
  destruct (sch !! ll) as [sg|] eqn:Hsg.
  - rewrite decide_True; [done|]. split; [|by eexists].
    apply list_elem_of_fmap. exists (ll, sg). split; [done|].
    by apply elem_of_map_to_list.
  - rewrite decide_False; [done|]. intros [_ [? ?]]. done.
Qed.

Section SchemaEffect.

Context {V : Type} (createZodSchema : SchemaGroup → option bool → V).

Lemma compileSchemas_lookup (partial : option bool)
    (sch : gmap string SchemaGroup) (key : string) :
  compileSchemas createZodSchema partial sch !! key
  = (λ sg, createZodSchema sg partial) <$> sch !! key.
Proof.
  unfold compileSchemas.
  apply (reduce_keys_lookup (λ sg, createZodSchema sg partial)).
Qed.

Lemma promptsByType_lookup (sch : gmap string SchemaGroup) (key : string) :
  promptsByType sch !! key = prompts <$> sch !! key.
Proof. unfold promptsByType. apply (reduce_keys_lookup prompts). Qed.

End SchemaEffect.

(** X15.  For a payload that passes the guard of the schema effect and
    whose document type has an entry in the schema, the effect completes
    and calls its seven setters in the order of the source: the form
    fields of the type, the validator of the type compiled without the
    partial flag, and the one compiled with it; the three aggregates hold,
    for every type of the schema and for no other key, its projected
    groups, its validator and its prompts. *)
Theorem schema_effect_known_type {V : Type}
    (createZodSchema : SchemaGroup → option bool → V) (d : TaskData)
    (sch : gmap string SchemaGroup) (docType : option string)
    (sg : SchemaGroup) :
  schema d = Some sch → data_blank d = false →
  docTypeOf d = Resolved docType →
  sch !! default "undefined" docType = Some sg →
  schemaEffect createZodSchema (Some d)
  = ([SetAllFormFields (allFormData sch);
      SetFormFields (Some (projectGroups sg));
      SetAllSchemas (compileSchemas createZodSchema None sch);
      SetFormSchema (createZodSchema sg None);
      SetPartialSchemas (compileSchemas createZodSchema (Some true) sch);
      SetPartialFormSchema (createZodSchema sg (Some true));
      SetPrompts (promptsByType sch)],
     Resolved tt)
  ∧ ∀ key,
      compileSchemas createZodSchema None sch !! key
      = (λ g, createZodSchema g None) <$> sch !! key
      ∧ compileSchemas createZodSchema (Some true) sch !! key
        = (λ g, createZodSchema g (Some true)) <$> sch !! key
      ∧ promptsByType sch !! key = prompts <$> sch !! key.
Proof.
  intros Hsch Hblank Hdoc Hsg. split.
  - unfold schemaEffect. rewrite Hsch, Hblank, Hdoc.
    unfold schemaOf, fieldsOf.
    rewrite !compileSchemas_lookup, allFormData_lookup, Hsg. reflexivity.
  - intros key. rewrite !compileSchemas_lookup, promptsByType_lookup. done.
Qed.


Lemma schema_effect_known_type_witness :
  (schemaEffect Cases.compiled (Some Scenario.schemaTask)).2 = Resolved tt
  ∧ SetFormSchema (Scenario.invoiceGroups, None)
    ∈ (schemaEffect Cases.compiled (Some Scenario.schemaTask)).1.
Proof.
  destruct (schema_effect_known_type Cases.compiled Scenario.schemaTask
              Scenario.invoiceSchema (Some "INV") Scenario.invoiceGroups
              eq_refl eq_refl eq_refl ltac:(vm_compute; reflexivity))
    as [-> _].
  split; [reflexivity|]. cbn [fst].
  do 3 apply list_elem_of_further. apply list_elem_of_here.
Defined.


(** ** What a run of [fetchData] leaves alone *)

Lemma keepsSession_refl (w : World) : keepsSession w w.
Proof. by repeat split. Qed.

Lemma keepsSession_trans (w1 w2 w3 : World) :
  keepsSession w1 w2 → keepsSession w2 w3 → keepsSession w1 w3.
Proof.
  intros (? & ? & ? & ? & H12) (? & ? & ? & ? & H23).
  repeat split; try congruence. by etrans.
Qed.

Ltac keeps_cells :=
  unfold keepsSession; unfold_cells; repeat split;
  try reflexivity; try (by apply prefix_app_r).

Section Keeping.

Variable env : Env.

Lemma bind_keeps {A B} (m : M A) (k : A → M B) :
  (∀ w, keepsSession w (m w).2) →
  (∀ a w, keepsSession w (k a w).2) →
  ∀ w, keepsSession w (bind m k w).2.
Proof.
  intros Hm Hk w. unfold bind. specialize (Hm w).
  destruct (m w) as [[a|err] w']; cbn [snd] in *; [|exact Hm].
  eapply keepsSession_trans; [exact Hm|apply Hk].
Qed.

Lemma tryCatch_keeps {A} (m : M A) (h : string → M A) :
  (∀ w, keepsSession w (m w).2) →
  (∀ err w, keepsSession w (h err w).2) →
  ∀ w, keepsSession w (tryCatch m h w).2.
Proof.
  intros Hm Hh w. unfold tryCatch. specialize (Hm w).
  destruct (m w) as [[a|err] w']; cbn [snd] in *; [exact Hm|].
  eapply keepsSession_trans; [exact Hm|apply Hh].
Qed.

Lemma act_keeps (f : World → World) :
  (∀ w, keepsSession w (f w)) → ∀ w, keepsSession w (act f w).2.
Proof. intros Hf w. apply Hf. Qed.

Lemma await_keeps {A} (r : Outcome A) (w : World) :
  keepsSession w (await r w).2.
Proof. apply keepsSession_refl. Qed.

Lemma setIsLoading_keeps (b : bool) (w : World) :
  keepsSession w (setIsLoading b w).
Proof. keeps_cells. Qed.

Lemma setData_keeps (d : option TaskData) (w : World) :
  keepsSession w (setData d w).
Proof. keeps_cells. Qed.

Lemma setFormStatus_keeps (s : FormStatus) (w : World) :
  keepsSession w (setFormStatus s w).
Proof. keeps_cells. Qed.

Lemma console_keeps (l : Level) (m : Message) (w : World) :
  keepsSession w (console l m w).
Proof. keeps_cells. Qed.

Lemma adoptTask_keeps (taskId : option string) (w : World) :
  keepsSession w (adoptTask env taskId w).
Proof.
  unfold adoptTask, fire_clearTaskCache.
  destruct (prevTaskIdRef w) as [prev|]; [|keeps_cells].
  destruct (truthy (Some prev) && bool_decide (Some prev ≠ taskId));
    [|keeps_cells].
  destruct (clearTaskCache env _ prev) as [[]|err]; keeps_cells.
Qed.

Lemma enterIteration_keeps (tid : option string) (zd : ZoningDocs) (k : nat)
    (w : World) :
  keepsSession w (enterIteration env tid zd k w).
Proof.
  unfold enterIteration, issueRequests.
  destruct (decide _); [|apply keepsSession_refl]. keeps_cells.
Qed.

Lemma hydrate_keeps (d : TaskData) (w : World) :
  keepsSession w (hydrate env d w).2.
Proof.
  assert (∀ w0, keepsSession w0
            ((act (setFormStatus VALID) ;;; act (setData (Some d)))%act w0).2)
    as Hplain by (intros w0; keeps_cells).
  unfold hydrate. destruct (zoningdocuments d) as [zd|]; [|apply Hplain].
  destruct (hasFirstRefs zd); [|apply Hplain].
  revert w. apply tryCatch_keeps; [|intros err w; keeps_cells].
  unfold hydrateTry. apply bind_keeps; [intros w; keeps_cells|].
  intros [|c0 cs].
  - unfold cacheMiss.
    apply bind_keeps; [intros w; unfold issueRequests; keeps_cells|]. intros rs.
    apply bind_keeps; [apply await_keeps|]. intros imageResponse.
    apply bind_keeps; [apply await_keeps|]. intros jsonResponse.
    apply bind_keeps; [apply await_keeps|]. intros imageBlob.
    apply bind_keeps; [intros w; keeps_cells|]. intros url.
    apply bind_keeps; [apply await_keeps|]. intros jsonData.
    apply bind_keeps; [intros w; keeps_cells|]. intros _.
    apply bind_keeps; [intros w; keeps_cells|]. intros _.
    apply bind_keeps; [intros w; keeps_cells|]. intros _.
    destruct (decide _); [|intros w; apply keepsSession_refl].
    apply act_keeps. apply enterIteration_keeps.
  - unfold cacheHit.
    apply bind_keeps; [intros w; keeps_cells|]. intros _.
    apply bind_keeps; [intros w; keeps_cells|]. intros _.
    apply bind_keeps; [intros w; keeps_cells|]. intros _.
    destruct (decide _); [|intros w; apply keepsSession_refl].
    apply act_keeps. apply enterIteration_keeps.
Qed.

Lemma acknowledge_keeps (taskId : option string) (role : string) (w : World) :
  keepsSession w (acknowledge env taskId role w).2.
Proof.
  unfold acknowledge. destruct taskId as [tid|]; [|apply keepsSession_refl].
  destruct (truthy (Some tid)); [|apply keepsSession_refl].
  revert w. apply bind_keeps; [intros w; keeps_cells|].
  intros a. destruct (ack_status a); intros w; keeps_cells.
Qed.

Lemma fetchTry_keeps (role : string) (w : World) :
  keepsSession w (fetchTry env role w).2.
Proof.
  revert w. unfold fetchTry.
  apply bind_keeps; [intros w; keeps_cells|]. intros response.
  destruct (status response && payloadNonEmpty (mainData response)).
  - apply bind_keeps; [|intros _ w; apply acknowledge_keeps].
    unfold adoptAndHydrate.
    destruct (payloadObject (mainData response)) as [d|].
    + apply bind_keeps; [|intros _ w; apply hydrate_keeps].
      apply act_keeps, adoptTask_keeps.
    + apply bind_keeps; [apply act_keeps, adoptTask_keeps|]. intros _.
      intros w; keeps_cells.
  - destruct (status response && notProvisioned (mainData response));
      intros w; keeps_cells.
Qed.

End Keeping.

(** X17.  Whatever the collaborators answer, a run of [fetchData] does not
    touch the props or the form fields, and it cancels no background
    call: the calls that were suspended before the run are still
    suspended after it, in their order, and come before any call the run
    has started. *)
Theorem fetchData_keeps_session (env : Env) (w : World) :
  keepsSession w (fetchData env w).
Proof.
  unfold fetchData.
  destruct (roleGate (setIsLoading true w)) as [role|];
    [|apply setIsLoading_keeps].
  eapply keepsSession_trans; [apply (setIsLoading_keeps true)|].
  unfold tryFinally.
  pose proof (tryCatch_keeps (fetchTry env role)
                (λ err, (act (console Error (ErrorFetching err)) ;;;
                         act (setData None))%act)
                (fetchTry_keeps env role)
                ltac:(intros err w0; keeps_cells) (setIsLoading true w))
    as Htry.
  destruct (tryCatch _ _ _) as [r w2]. cbn [snd] in *.
  eapply keepsSession_trans; [exact Htry|apply setIsLoading_keeps].
Qed.

(** ** The acknowledgment decides what stays on display *)

(** X18.  For a successful task fetch whose payload is a task object with
    a present task id, the run ends with the status VALID, the ref on the
    task, the loading flag lowered and the suspended calls as the
    hydration left them, whatever the acknowledgment call answers.  When
    the call resolves, with either status, the payload published by the
    hydration stays and the retry timer is not armed; when it is
    rejected, the rejection is logged by the outer [catch], the payload is
    set back to null while the status stays VALID, and the condition that
    arms the retry timer holds. *)
Theorem acknowledgment_decides_outcome (env : Env) (w : World)
    (role : string) (resp : TaskResponse) (d : TaskData) (tid : string) :
  roleGate w = Some role →
  getAgentTaskDetails env (log w ++ [EvSetIsLoading true]) role = Resolved resp →
  status resp = true →
  payloadObject (mainData resp) = Some d →
  taskid d = Some tid →
  tid ≠ "" →
  let wh := hydrationInitiated env role resp d w in
  let w' := fetchData env w in
  formStatus w' = VALID ∧ prevTaskIdRef w' = Some tid
  ∧ pending w' = pending wh ∧ isLoading w' = false
  ∧ match agentKeyedOn env (log wh) tid role with
    | Resolved a =>
        data w' = data wh ∧ is_Some (data w') ∧ retryTimerArmed w' = false
    | Rejected err =>
        data w' = None ∧ retryTimerArmed w' = true
        ∧ events_since wh w'
          = [EvAgentKeyedOn tid role (Rejected err);
             EvConsole Error (ErrorFetching err);
             EvSetData None;
             EvSetIsLoading false]
    end.
Proof.
  intros Hgate Hfetch Hstatus Hobj Htid Hne wh w'.
  pose proof (adoptTask_spec env (taskid d) (taskFetched role resp w))
    as (HprevA & HroA & _).
  cbn zeta in *.
  destruct (hydrate_frame env d (adoptTask env (taskid d) (taskFetched role resp w)))
    as (wh' & Hhyd & evsH & p & HroH & _ & HprevH & HstH & HdataH & _).
  assert (wh = wh') as Hwh.
  { subst wh. unfold hydrationInitiated. by rewrite Hhyd. }
  assert (readOnly wh = false) as Hro.
  { rewrite Hwh, HroH, HroA. unfold taskFetched. unfold_cells.
    exact (gate_not_readOnly w role Hgate). }
  assert (prevTaskIdRef wh = Some tid) as Hprev
    by (by rewrite Hwh, HprevH, HprevA).
  assert (formStatus wh = VALID) as Hst by (by rewrite Hwh).
  assert (data wh = Some p) as Hdata by (by rewrite Hwh).
  clear Hhyd HroH HprevH HstH HdataH HroA HprevA Hwh wh'.
  assert (w' = setIsLoading false
                 match acknowledge env (Some tid) role wh with
                 | (Resolved _, wk) => wk
                 | (Rejected err, wk) =>
                     setData None (console Error (ErrorFetching err) wk)
                 end) as Hrun.
  { subst w'. rewrite (fetchData_ready env w role resp d Hgate Hfetch Hstatus Hobj).
    by rewrite Htid. }
  clearbody wh w'. subst w'.
  unfold acknowledge.
  assert (truthy (Some tid) = true) as ->.
  { cbn. by destruct (String.eqb_spec tid ""). }
  unfold bind, call_agentKeyedOn, act, retryTimerArmed.
  destruct (agentKeyedOn env (log wh) tid role) as [a|err].
  - destruct (ack_status a); unfold_cells; rewrite Hdata;
      repeat split; try done; by eexists.
  - unfold_cells. rewrite Hro. repeat split; try done.
    apply events_since_app. unfold_cells. by rewrite <- !app_assoc.
Qed.

Lemma acknowledgment_decides_outcome_witness :
  data (fetchData Scenario.envAckRejects Scenario.mounted) = None
  ∧ formStatus (fetchData Scenario.envAckRejects Scenario.mounted) = VALID
  ∧ retryTimerArmed (fetchData Scenario.envAckRejects Scenario.mounted) = true
  ∧ length (pending (fetchData Scenario.envAckRejects Scenario.mounted)) = 1.
Proof.
  pose proof (acknowledgment_decides_outcome Scenario.envAckRejects
                Scenario.mounted "1" Scenario.taskResponse Scenario.task "T1"
                eq_refl eq_refl eq_refl eq_refl eq_refl ltac:(discriminate))
    as (Hst & _ & Hpend & _ & Hack).
  cbn zeta in *.
  change (agentKeyedOn Scenario.envAckRejects _ "T1" "1")
    with (@Rejected AckResponse "Network Error") in Hack.
  destruct Hack as (Hdata & Harmed & _).
  split; [exact Hdata|]. split; [exact Hst|]. split; [exact Harmed|].
  rewrite Hpend. vm_compute. reflexivity.
Defined.

(** ** A background call without a payload *)

(** X19.  When a suspended background call goes on while the [data] cell
    is null, its document is persisted in the cache and not merged: the
    updater of line 128 throws on the null payload, outside the [try] of
    the loop, the cell stays null, no handle is made, the success is
    logged all the same, and the call goes on with the next index. *)
Theorem orphaned_call_persists_without_merging (env : Env) (n : nat)
    (t : BgTask) (w : World) (resp1 resp2 : Response) (b : Blob) (j : Json) :
  pending w !! n = Some t →
  data w = None →
  bg_image t = Resolved resp1 → bg_json t = Resolved resp2 →
  blob resp1 = Resolved b → json resp2 = Resolved j →
  saveDocument env (log w) (bg_taskId t) (bg_index t) b j = Resolved tt →
  let w' := resume env n w in
  let total := length (imageurl (bg_docs t)) in
  data w' = None
  ∧ persisted (events_since w w') = [bg_index t]
  ∧ merged (events_since w w') = []
  ∧ acquired (events_since w w') = []
  ∧ failedDownloads (events_since w w') = []
  ∧ EvUpdaterTypeError ∈ events_since w w'
  ∧ EvConsole Info (BackgroundDownloaded (bg_index t + 1) total)
    ∈ events_since w w'
  ∧ imageRequests (events_since w w')
    = (if decide (S (bg_index t) < total) then [S (bg_index t)] else []).
Proof.
  intros Hn Hnone Hi Hj Hb Hjs Hsave w' total. subst w'.
  unfold resume. rewrite Hn. unfold continue.
  set (wc := completeIteration _ _ _ _ _ _ _).
  destruct (enterIteration_spec env (bg_docs t) (bg_taskId t) (S (bg_index t)) wc)
    as (started & Hlog & Hstarted & Hdata).
  assert (data wc = None
    ∧ log wc = log w
        ++ [EvSaveDocument (bg_taskId t) (bg_index t) b j (Resolved tt);
            EvUpdaterTypeError;
            EvConsole Info (BackgroundDownloaded (bg_index t + 1) total)])
    as (Hwc & Hlogc).
  { subst wc. unfold completeIteration, tryCatch, iterationTry, bind, await,
      call_saveDocument, act, appendDocument.
    rewrite Hi, Hj. cbn. rewrite Hb, Hjs. cbn. rewrite Hsave. cbn.
    rewrite Hnone. unfold_cells. rewrite <- !app_assoc.
    split; [exact Hnone|reflexivity]. }
  rewrite (events_since_app _ _ _ ltac:(by rewrite Hlog, Hlogc, <- app_assoc)).
  split; [by rewrite Hdata, Hwc|].
  fold total in Hstarted.
  destruct (decide (S (bg_index t) < total)).
  - destruct Hstarted as (u1 & u2 & r1 & r2 & -> & _). cbn.
    repeat split; try done; set_solver.
  - destruct Hstarted as [-> _]. cbn. repeat split; try done; set_solver.
Qed.

Lemma orphaned_call_persists_without_merging_witness :
  let w := fetchData Scenario.envAckRejects Scenario.mounted in
  data (resume Scenario.envAckRejects 0 w) = None
  ∧ persisted (events_since w (resume Scenario.envAckRejects 0 w)) = [1].
Proof.
  intros w.
  pose proof (orphaned_call_persists_without_merging Scenario.envAckRejects 0
                (mkBg (Some "T1") Scenario.refs 1
                   (Resolved (mkHttp (Resolved "bytes:img/1")
                                (Resolved "json:img/1")))
                   (Resolved (mkHttp (Resolved "bytes:meta/1")
                                (Resolved "json:meta/1"))))
                w _ _ "bytes:img/1" "json:meta/1"
                ltac:(vm_compute; reflexivity) ltac:(vm_compute; reflexivity)
                eq_refl eq_refl eq_refl eq_refl eq_refl)
    as (Hdata & Hpers & _).
  split; [exact Hdata|exact Hpers].
Defined.
